(** * Tech-Demand-Sentiment-Dashboard: the three API collectors

    A shallow embedding of [src/collectors/github.py],
    [src/collectors/stackoverflow.py] and [src/collectors/trends.py].

    Conventions of the embedding.
    - A decoded JSON body is a value of [json]; JSON numbers are the integers
      the two REST services send for counts, scores and dates.
    - A Python [dict] that the code builds and returns is an association list
      in insertion order ([dict]); [dict_set] is [d[k] = v].
    - Naive [datetime] values and [timedelta]s are integers counting
      microseconds; [datetime.now()] reads the field [clock] of the [world],
      and only [time.sleep] moves it.
    - The external service is an oracle [nat -> reply]: the n-th call of
      [session.get] receives the n-th reply.  The [world] records how many
      calls were made ([cursor]) and, in order, everything the collector did
      to the outside ([trace]): requests, sleeps, log records.
    - A computation is a function from a state to [option (res A * state)]:
      [None] when the recursion budget [fuel] is exhausted, [Raise e] when a
      Python exception leaves the function, [Ret a] when it returns [a].
    - The rate-limit headers are the integers they carry; a float average
      [a / b] is the exact rational [a # b].
    - Recursion is as the source writes it: the interpreter's limit on the
      depth of the call stack is not part of the embedding. *)

From Stdlib Require Import ZArith QArith List String Bool Lia DecimalString.
Import ListNotations.

Local Open Scope string_scope.
Local Open Scope Z_scope.

(** ** Python values *)

#[local] Unset Elimination Schemes.
Inductive json : Type :=
| JNull
| JBool (b : bool)
| JInt (z : Z)
| JStr (s : string)
| JList (l : list json)
| JDict (d : list (string * json)).
#[local] Set Elimination Schemes.

(** The exception classes the collectors can meet.  [HTTPError] is a subclass
    of [RequestException]; every class here is a subclass of [Exception]. *)
Inductive exn : Type :=
| RequestException | HTTPError
| ValueError | TypeError | IndexError | KeyError | AttributeError | OSError.

Definition is_request_exception (e : exn) : bool :=
  match e with
  | RequestException | HTTPError => true
  | _ => false
  end.

Inductive res (A : Type) : Type :=
| Ret (a : A)
| Raise (e : exn).
Arguments Ret {A} a.
Arguments Raise {A} e.

Definition res_bind {A B} (r : res A) (k : A -> res B) : res B :=
  match r with
  | Ret a => k a
  | Raise e => Raise e
  end.

Notation "x <-? r ;; k" := (res_bind r (fun x => k))
  (at level 100, r at next level, right associativity).

(** The strings [str(n)] of an integer and of a length. *)
Definition str_of_Z (z : Z) : string := NilZero.string_of_int (Z.to_int z).
Definition str_of_nat (n : nat) : string := str_of_Z (Z.of_nat n).

(** *** Insertion-ordered dictionaries *)

Definition dict (V : Type) : Type := list (string * V).

Fixpoint dict_get {V} (k : string) (d : dict V) : option V :=
  match d with
  | [] => None
  | (k', v) :: d' => if String.eqb k k' then Some v else dict_get k d'
  end.

(** [d[k] = v]: an existing key keeps its position, a new key goes last. *)
Fixpoint dict_set {V} (k : string) (v : V) (d : dict V) : dict V :=
  match d with
  | [] => [(k, v)]
  | (k', v') :: d' =>
      if String.eqb k k' then (k, v) :: d' else (k', v') :: dict_set k v d'
  end.

Definition dict_keys {V} (d : dict V) : list string := map fst d.

(** *** Operations on decoded JSON *)

(** Truth value of a Python object. *)
Definition truthy (j : json) : bool :=
  match j with
  | JNull => false
  | JBool b => b
  | JInt z => negb (z =? 0)
  | JStr s => negb (String.eqb s "")
  | JList l => match l with [] => false | _ => true end
  | JDict d => match d with [] => false | _ => true end
  end.

(** [obj.get(key, default)]: only a dict has the method. *)
Definition py_get (obj : json) (key : string) (default : json) : res json :=
  match obj with
  | JDict d => Ret (match dict_get key d with Some v => v | None => default end)
  | _ => Raise AttributeError
  end.

(** [len(obj)]. *)
Definition py_len (obj : json) : res nat :=
  match obj with
  | JList l => Ret (List.length l)
  | JStr s => Ret (String.length s)
  | JDict d => Ret (List.length d)
  | _ => Raise TypeError
  end.

(** The operand of [int + obj]: an int or a bool, anything else is a
    [TypeError]. *)
Definition py_int (obj : json) : res Z :=
  match obj with
  | JInt z => Ret z
  | JBool b => Ret (if b then 1 else 0)
  | _ => Raise TypeError
  end.

(** [sum(item.get(field, 0) for item in items)]. *)
Fixpoint sum_from (acc : Z) (field : string) (items : list json) : res Z :=
  match items with
  | [] => Ret acc
  | item :: rest =>
      v <-? py_get item field (JInt 0) ;;
      z <-? py_int v ;;
      sum_from (acc + z) field rest
  end.

Definition py_sum_field (field : string) (items : list json) : res Z :=
  sum_from 0 field items.

(** Exact quotient standing for the float [total / n], [n > 0]. *)
Definition true_div (total : Z) (n : nat) : Q := total # Pos.of_nat n.

(** ** The outside world *)

Inductive level : Type := INFO | WARNING | ERROR.

Definition params : Type := dict json.

Inductive event : Type :=
| Get (url : string) (query : params)
| Sleep (micros : Z)
| Log (lvl : level) (msg : string)
| BuildPayload (kw_list : list string) (timeframe geo : string)
| InterestOverTime
| InterestByRegion (resolution : string).

Record world : Type := mkWorld {
  clock : Z;            (* datetime.now(), microseconds *)
  cursor : nat;         (* calls made to the service so far *)
  trace : list event    (* what was done, oldest first *)
}.

Definition emit (e : event) (w : world) : world :=
  mkWorld (clock w) (cursor w) (trace w ++ [e]).

Definition logging (lvl : level) (msg : string) (w : world) : world :=
  emit (Log lvl msg) w.

(** [time.sleep(d)]. *)
Definition sleep (micros : Z) (w : world) : world :=
  mkWorld (clock w + micros) (cursor w) (trace w ++ [Sleep micros]).

Definition seconds (n : Z) : Z := n * 1000000.
Definition days (n : Z) : Z := n * 86400 * 1000000.

(** An HTTP response as [requests] hands it over.  [json_body] is what
    [response.json()] does, [gunzip_body] what
    [json.loads(gzip.decompress(response.content))] does: the decoded value,
    or the exception the decoder raises. *)
Record response : Type := mkResponse {
  status_code : Z;
  x_ratelimit_remaining : option Z;
  x_ratelimit_reset : option Z;
  content_encoding : option string;
  json_body : res json;
  gunzip_body : res json
}.

(** [session.get] either delivers a response or raises a
    [RequestException] (no connection, time-out). *)
Inductive reply : Type :=
| Responded (r : response)
| Failed.

(** [response.raise_for_status()] raises [HTTPError] on 4xx and 5xx. *)
Definition is_http_error (status : Z) : bool :=
  (400 <=? status) && (status <? 600).

(** [session.get(url, params=..., timeout=30)]: logged, the oracle's next
    reply consumed. *)
Definition requested (url : string) (query : params) (w : world) : world :=
  mkWorld (clock w) (S (cursor w)) (trace w ++ [Get url query]).

Definition session_get (service : nat -> reply) (url : string) (query : params)
    (w : world) : reply * world :=
  (service (cursor w), requested url query w).

(** ** Computations with state, exceptions and a recursion budget *)

Definition M (S A : Type) : Type := S -> option (res A * S).

Definition ret {S A} (a : A) : M S A := fun s => Some (Ret a, s).
Definition throw {S A} (e : exn) : M S A := fun s => Some (Raise e, s).

Definition bind {S A B} (m : M S A) (k : A -> M S B) : M S B :=
  fun s =>
    match m s with
    | None => None
    | Some (Raise e, s') => Some (Raise e, s')
    | Some (Ret a, s') => k a s'
    end.

Notation "x <- m ;; k" := (bind m (fun x => k))
  (at level 100, m at next level, right associativity).
Notation "m ;;; k" := (bind m (fun _ => k))
  (at level 100, right associativity).

Definition lift_res {S A} (r : res A) : M S A := fun s => Some (r, s).

(** [try: body except Exception as e: handler]. *)
Definition try_except {S A} (body : M S A) (handler : exn -> M S A) : M S A :=
  fun s =>
    match body s with
    | None => None
    | Some (Ret a, s') => Some (Ret a, s')
    | Some (Raise e, s') => handler e s'
    end.

(** [for k in keys: acc[k] = step(k)], the loop of every batch method; the
    body of the loop, [try] and [except] included, is [step]. *)
Fixpoint batch {S V} (step : string -> M S V) (keys : list string)
    (acc : dict V) : M S (dict V) :=
  match keys with
  | [] => ret acc
  | k :: rest => v <- step k ;; batch step rest (dict_set k v acc)
  end.

(** ** src/collectors/github.py *)

Module GitHubCollector.

Definition BASE_URL : string := "https://api.github.com".

Record collector : Type := mkCollector {
  token : option string;
  rate_limit_remaining : Z;
  rate_limit_reset : option Z     (* a datetime, in seconds *)
}.

(** [GitHubCollector(token)]. *)
Definition init (tok : option string) : collector := mkCollector tok 60 None.

Definition state : Type := (collector * world)%type.

Definition log (lvl : level) (msg : string) : M state unit :=
  fun s => Some (Ret tt, (fst s, logging lvl msg (snd s))).

Definition time_sleep (micros : Z) : M state unit :=
  fun s => Some (Ret tt, (fst s, sleep micros (snd s))).

Definition datetime_now : M state Z :=
  fun s => Some (Ret (clock (snd s)), s).

Definition get_rate_limit_remaining : M state Z :=
  fun s => Some (Ret (rate_limit_remaining (fst s)), s).

(** Lines 57-60: the rate-limit fields after a response.  The counter is
    always overwritten (0 without the header); the reset time only when the
    header is there. *)
Definition update_rate_limit (r : response) (c : collector) : collector :=
  mkCollector (token c)
    (match x_ratelimit_remaining r with Some n => n | None => 0 end)
    (match x_ratelimit_reset r with
     | Some t => Some t
     | None => rate_limit_reset c
     end).

(** Lines 64-68: how long a 403 makes the collector sleep. *)
Definition wait_micros (c : collector) (now : Z) : Z :=
  match rate_limit_reset c with
  | Some reset => Z.max (seconds reset - now) (seconds 60)
  | None => seconds 60
  end.

(** Line 75, [logger.error(f"API request failed: {e}")]; the text of the
    exception is not part of the record. *)
Definition failure_logged (w : world) : world :=
  logging ERROR "API request failed: " w.

(** Lines 63-69: the state in which a call that met a 403 calls itself. *)
Definition throttled_state (url : string) (query : params) (r : response)
    (c : collector) (w : world) : state :=
  let c1 := update_rate_limit r c in
  let w2 := logging WARNING "Rate limit exceeded, waiting..."
              (requested url query w) in
  (c1, sleep (wait_micros c1 (clock w2)) w2).

Section Service.

Variable service : nat -> reply.
(** [datetime.strptime(s, '%Y-%m-%dT%H:%M:%SZ')], [None] for the
    [ValueError] of a string that does not match, and
    [d.strftime('%Y-%m-%d')]: the two functions of the Python library. *)
Variable strptime : string -> option Z.
Variable strftime : Z -> string.

Fixpoint _make_request (fuel : nat) (endpoint : string) (query : params)
    (s : state) : option (res json * state) :=
  match fuel with
  | O => None
  | S fuel' =>
      let (c, w) := s in
      let url := BASE_URL ++ endpoint in
      match session_get service url query w with
      | (Failed, w1) => Some (Ret (JDict []), (c, failure_logged w1))
      | (Responded r, w1) =>
          let c1 := update_rate_limit r c in
          if status_code r =? 403 then
            _make_request fuel' endpoint query (throttled_state url query r c w)
          else if is_http_error (status_code r) then
            Some (Ret (JDict []), (c1, failure_logged w1))
          else
            match json_body r with
            | Ret body => Some (Ret body, (c1, w1))
            | Raise e =>
                if is_request_exception e
                then Some (Ret (JDict []), (c1, failure_logged w1))
                else Some (Raise e, (c1, w1))
            end
      end
  end.

(** Lines 91-103: the parameters of a repository search. *)
Definition search_params (language : string) (min_stars : Z)
    (created_after : option Z) : params :=
  let query_parts :=
    ("language:" ++ language) :: ("stars:>=" ++ str_of_Z min_stars) ::
    match created_after with
    | Some d => ["created:>=" ++ strftime d]
    | None => []
    end in
  let query := String.concat " " query_parts in
  [("q", JStr query); ("sort", JStr "stars"); ("order", JStr "desc");
   ("per_page", JInt 100)].

(** [search_repositories(language, min_stars, created_after)]. *)
Definition search_repositories (fuel : nat) (language : string)
    (min_stars : Z) (created_after : option Z) : M state json :=
  response <- _make_request fuel "/search/repositories"
                (search_params language min_stars created_after) ;;
  repos <- lift_res (py_get response "items" (JList [])) ;;
  n <- lift_res (py_len repos) ;;
  log INFO ("Found " ++ str_of_nat n ++ " repositories for " ++ language) ;;;
  ret repos.

(** Iterating over what [if repos:] let through: a list gives its items; a
    non-empty string or dict gives strings, whose [.get] is an
    [AttributeError]; nothing else can be iterated. *)
Definition py_iter_items (repos : json) : res (list json) :=
  match repos with
  | JList l => Ret l
  | JStr _ | JDict _ => Raise AttributeError
  | _ => Raise TypeError
  end.

(** [datetime.strptime(r.get(field, ''), '%Y-%m-%dT%H:%M:%SZ')]. *)
Definition parse_date (field : string) (r : json) : res Z :=
  v <-? py_get r field (JStr "") ;;
  match v with
  | JStr s => match strptime s with Some t => Ret t | None => Raise ValueError end
  | _ => Raise TypeError
  end.

(** The items whose date in [field] is after [cutoff], in order:
    [[r for r in repos if strptime(r.get(field, ''), ...) > cutoff]]. *)
Fixpoint newer_than (field : string) (cutoff : Z) (repos : list json)
    : res (list json) :=
  match repos with
  | [] => Ret []
  | r :: rest =>
      t <-? parse_date field r ;;
      tl <-? newer_than field cutoff rest ;;
      Ret (if cutoff <? t then r :: tl else tl)
  end.

Record language_stats : Type := mkLanguageStats {
  total_repos : nat;
  total_stars : Z;
  total_forks : Z;
  total_watchers : Z;
  avg_stars : Q;
  recent_repos : nat;
  timestamp : Z
}.

(** The [try] block of [get_language_stats], lines 127-159; its value is
    what the block stores in [stats[language]]. *)
Definition language_try (fuel : nat) (language : string)
    : M state (option language_stats) :=
  repos <- search_repositories fuel language 10 None ;;
  entry <-
    (if truthy repos then
       items <- lift_res (py_iter_items repos) ;;
       stars <- lift_res (py_sum_field "stargazers_count" items) ;;
       forks <- lift_res (py_sum_field "forks_count" items) ;;
       watchers <- lift_res (py_sum_field "watchers_count" items) ;;
       let avg := true_div stars (List.length items) in
       now <- datetime_now ;;
       let recent_date := now - days 30 in
       recent <- lift_res (newer_than "created_at" recent_date items) ;;
       stamp <- datetime_now ;;
       log INFO ("Stats calculated for " ++ language) ;;;
       ret (Some (mkLanguageStats (List.length items) stars forks watchers
                    avg (List.length recent) stamp))
     else ret None) ;;
  remaining <- get_rate_limit_remaining ;;
  (if remaining <? 10 then
     log WARNING "Approaching rate limit, pausing..." ;;; time_sleep (seconds 5)
   else ret tt) ;;;
  ret entry.

(** One turn of the loop, [try] and [except] together. *)
Definition language_step (fuel : nat) (language : string)
    : M state (option language_stats) :=
  try_except (language_try fuel language)
    (fun _ =>
       log ERROR ("Error calculating stats for " ++ language ++ ": ") ;;;
       ret None).

Definition get_language_stats (fuel : nat) (languages : list string)
    : M state (dict (option language_stats)) :=
  log INFO ("Fetching stats for " ++ str_of_nat (List.length languages)
            ++ " languages") ;;;
  batch (language_step fuel) languages [].

Record popularity_metrics : Type := mkPopularityMetrics {
  repo_count : nat;
  pm_total_stars : Z;
  pm_total_forks : Z;
  pm_avg_stars : Q;
  avg_forks : Q;
  open_issues : Z;
  recent_activity : nat;
  pm_timestamp : Z
}.

(** Lines 245-249: the parameters of the search for a technology. *)
Definition popularity_params (tech : string) : params :=
  [("q", JStr tech); ("sort", JStr "stars"); ("per_page", JInt 100)].

(** The [try] block of [get_tech_popularity_metrics], lines 244-282. *)
Definition popularity_try (fuel : nat) (tech : string)
    : M state (option popularity_metrics) :=
  response <- _make_request fuel "/search/repositories"
                (popularity_params tech) ;;
  repos <- lift_res (py_get response "items" (JList [])) ;;
  entry <-
    (if truthy repos then
       items <- lift_res (py_iter_items repos) ;;
       stars <- lift_res (py_sum_field "stargazers_count" items) ;;
       forks <- lift_res (py_sum_field "forks_count" items) ;;
       issues <- lift_res (py_sum_field "open_issues_count" items) ;;
       now <- datetime_now ;;
       let cutoff := now - days 7 in
       recent <- lift_res (newer_than "updated_at" cutoff items) ;;
       stamp <- datetime_now ;;
       log INFO ("Metrics calculated for " ++ tech) ;;;
       ret (Some (mkPopularityMetrics (List.length items) stars forks
                    (true_div stars (List.length items))
                    (true_div forks (List.length items))
                    issues (List.length recent) stamp))
     else ret None) ;;
  time_sleep 500000 ;;;
  ret entry.

Definition popularity_step (fuel : nat) (tech : string)
    : M state (option popularity_metrics) :=
  try_except (popularity_try fuel tech)
    (fun _ =>
       log ERROR ("Error calculating metrics for " ++ tech ++ ": ") ;;;
       ret None).

Definition get_tech_popularity_metrics (fuel : nat) (tech_list : list string)
    : M state (dict (option popularity_metrics)) :=
  log INFO ("Calculating popularity metrics for "
            ++ str_of_nat (List.length tech_list) ++ " technologies") ;;;
  batch (popularity_step fuel) tech_list [].

(** Lines 180-181, [days_map.get(since, 7)]. *)
Definition days_map (since : string) : Z :=
  if String.eqb since "daily" then 1
  else if String.eqb since "weekly" then 7
  else if String.eqb since "monthly" then 30
  else 7.

(** Lines 183-195: the parameters of the search for trending repositories
    at time [now].  [if language:] is false for [None] and for ['']. *)
Definition trending_params (now : Z) (language : option string)
    (since : string) : params :=
  let created_after := now - days (days_map since) in
  let query_parts :=
    ("created:>=" ++ strftime created_after) ::
    match language with
    | Some l => if String.eqb l "" then [] else ["language:" ++ l]
    | None => []
    end in
  let query := String.concat " " query_parts in
  [("q", JStr query); ("sort", JStr "stars"); ("order", JStr "desc");
   ("per_page", JInt 50)].

(** [get_trending_repos(language, since)]. *)
Definition get_trending_repos (fuel : nat) (language : option string)
    (since : string) : M state json :=
  now <- datetime_now ;;
  response <- _make_request fuel "/search/repositories"
                (trending_params now language since) ;;
  lift_res (py_get response "items" (JList [])).

(** [get_repository_details(owner, repo)]; [params] is [None], hence [{}]. *)
Definition get_repository_details (fuel : nat) (owner repo : string)
    : M state json :=
  _make_request fuel ("/repos/" ++ owner ++ "/" ++ repo) [].

(** [get_repository_languages(owner, repo)]. *)
Definition get_repository_languages (fuel : nat) (owner repo : string)
    : M state json :=
  _make_request fuel ("/repos/" ++ owner ++ "/" ++ repo ++ "/languages") [].

End Service.

End GitHubCollector.

(** ** src/collectors/stackoverflow.py *)

Module StackOverflowCollector.

Definition BASE_URL : string := "https://api.stackexchange.com/2.3".

Record collector : Type := mkCollector {
  api_key : option string;
  rate_limit_remaining : Z;
  rate_limit_reset : option Z
}.

(** [StackOverflowCollector(api_key)]. *)
Definition init (key : option string) : collector := mkCollector key 300 None.

Definition state : Type := (collector * world)%type.

Definition log (lvl : level) (msg : string) : M state unit :=
  fun s => Some (Ret tt, (fst s, logging lvl msg (snd s))).

Definition time_sleep (micros : Z) : M state unit :=
  fun s => Some (Ret tt, (fst s, sleep micros (snd s))).

Definition datetime_now : M state Z :=
  fun s => Some (Ret (clock (snd s)), s).

(** Line 57: only the counter follows the response. *)
Definition update_rate_limit (r : response) (c : collector) : collector :=
  mkCollector (api_key c)
    (match x_ratelimit_remaining r with Some n => n | None => 0 end)
    (rate_limit_reset c).

(** Lines 46-49: the credential and the site go into the caller's dict.  An
    empty key is false in [if self.api_key:]. *)
Definition with_credentials (c : collector) (query : params) : params :=
  let query1 :=
    match api_key c with
    | Some key => if String.eqb key "" then query else dict_set "key" (JStr key) query
    | None => query
    end in
  dict_set "site" (JStr "stackoverflow") query1.

(** [int(d.timestamp())]: whole seconds, rounded towards zero. *)
Definition epoch_seconds (d : Z) : Z := Z.quot d 1000000.

(** Line 76, [{'items': [], 'has_more': False}]. *)
Definition empty_envelope : json :=
  JDict [("items", JList []); ("has_more", JBool false)].

(** Line 75, [logger.error(f"API request failed: {e}")]; the text of the
    exception is not part of the record. *)
Definition failure_logged (w : world) : world :=
  logging ERROR "API request failed: " w.

(** Lines 60-62: the state in which a call that met a 429 calls itself. *)
Definition throttled_state (url : string) (query : params) (r : response)
    (c : collector) (w : world) : state :=
  (update_rate_limit r c,
   sleep (seconds 60)
     (logging WARNING "Rate limit exceeded, waiting..." (requested url query w))).

(** [data], lines 67-70. *)
Definition decoded (r : response) : res json :=
  match content_encoding r with
  | Some enc => if String.eqb enc "gzip" then gunzip_body r else json_body r
  | None => json_body r
  end.

Section Service.

Variable service : nat -> reply.

Fixpoint _make_request (fuel : nat) (endpoint : string) (query : params)
    (s : state) : option (res json * state) :=
  match fuel with
  | O => None
  | S fuel' =>
      let (c, w) := s in
      let query1 := with_credentials c query in
      let url := BASE_URL ++ endpoint in
      match session_get service url query1 w with
      | (Failed, w1) => Some (Ret empty_envelope, (c, failure_logged w1))
      | (Responded r, w1) =>
          let c1 := update_rate_limit r c in
          if status_code r =? 429 then
            _make_request fuel' endpoint query1 (throttled_state url query1 r c w)
          else if is_http_error (status_code r) then
            Some (Ret empty_envelope, (c1, failure_logged w1))
          else
            match decoded r with
            | Ret data => Some (Ret data, (c1, w1))
            | Raise e =>
                if is_request_exception e
                then Some (Ret empty_envelope, (c1, failure_logged w1))
                else Some (Raise e, (c1, w1))
            end
      end
  end.

(** [get_tag_questions(tag, fromdate, todate, page_size)]. *)
Definition get_tag_questions (fuel : nat) (tag : string)
    (fromdate todate : option Z) (page_size : Z) : M state json :=
  from <- match fromdate with
          | Some d => ret d
          | None => now <- datetime_now ;; ret (now - days 30)
          end ;;
  to <- match todate with
        | Some d => ret d
        | None => datetime_now
        end ;;
  let query_params : params :=
    [("order", JStr "desc"); ("sort", JStr "activity"); ("tagged", JStr tag);
     ("fromdate", JInt (epoch_seconds from));
     ("todate", JInt (epoch_seconds to));
     ("pagesize", JInt page_size); ("filter", JStr "withbody")] in
  response <- _make_request fuel "/questions" query_params ;;
  questions <- lift_res (py_get response "items" (JList [])) ;;
  n <- lift_res (py_len questions) ;;
  log INFO ("Retrieved " ++ str_of_nat n ++ " questions for tag '" ++ tag ++ "'") ;;;
  ret questions.

(** [obj[0]]. *)
Definition py_first (obj : json) : res json :=
  match obj with
  | JList l => match l with x :: _ => Ret x | [] => Raise IndexError end
  | JStr s => match s with
              | String ch _ => Ret (JStr (String ch EmptyString))
              | EmptyString => Raise IndexError
              end
  | JDict _ => Raise KeyError
  | _ => Raise TypeError
  end.

(** What a generator over [recent_questions] yields: the items of a list,
    the characters of a string, the keys of a dict. *)
Definition py_iter (obj : json) : res (list json) :=
  match obj with
  | JList l => Ret l
  | JStr s => Ret (map (fun ch => JStr (String ch EmptyString)) (list_ascii_of_string s))
  | JDict d => Ret (map (fun kv => JStr (fst kv)) d)
  | _ => Raise TypeError
  end.

Record demand_metrics : Type := mkDemandMetrics {
  total_questions : json;
  recent_questions : nat;
  avg_score : Q;
  avg_answers : Q;
  avg_views : Q;
  last_activity : json;
  timestamp : Z
}.

(** The [try] block of [get_tech_demand_metrics], lines 255-278. *)
Definition demand_try (fuel : nat) (tech : string)
    : M state (option demand_metrics) :=
  now <- datetime_now ;;
  recent <- get_tag_questions fuel tech (Some (now - days 7)) None 100 ;;
  tag_info_response <- _make_request fuel ("/tags/" ++ tech ++ "/info") [] ;;
  items <- lift_res (py_get tag_info_response "items" (JList [JDict []])) ;;
  tag_info <- lift_res (py_first items) ;;
  count <- lift_res (py_get tag_info "count" (JInt 0)) ;;
  n <- lift_res (py_len recent) ;;
  questions <- lift_res (py_iter recent) ;;
  score <- lift_res (py_sum_field "score" questions) ;;
  answers <- lift_res (py_sum_field "answer_count" questions) ;;
  views <- lift_res (py_sum_field "view_count" questions) ;;
  activity <- lift_res (py_get tag_info "last_activity_date" JNull) ;;
  stamp <- datetime_now ;;
  log INFO ("Metrics calculated for " ++ tech) ;;;
  time_sleep 100000 ;;;
  ret (Some (mkDemandMetrics count n
               (true_div score (Nat.max n 1))
               (true_div answers (Nat.max n 1))
               (true_div views (Nat.max n 1))
               activity stamp)).

Definition demand_step (fuel : nat) (tech : string)
    : M state (option demand_metrics) :=
  try_except (demand_try fuel tech)
    (fun _ =>
       log ERROR ("Error calculating metrics for " ++ tech ++ ": ") ;;;
       ret None).

Definition get_tech_demand_metrics (fuel : nat) (tech_list : list string)
    : M state (dict (option demand_metrics)) :=
  log INFO ("Calculating demand metrics for "
            ++ str_of_nat (List.length tech_list) ++ " technologies") ;;;
  batch (demand_step fuel) tech_list [].

Definition get_rate_limit_remaining : M state Z :=
  fun s => Some (Ret (rate_limit_remaining (fst s)), s).

(** [get_top_tags(page_size, min_count)]. *)
Definition get_top_tags (fuel : nat) (page_size min_count : Z) : M state json :=
  log INFO ("Fetching top " ++ str_of_Z page_size ++ " tags...") ;;;
  let query_params : params :=
    [("order", JStr "desc"); ("sort", JStr "popular");
     ("pagesize", JInt page_size); ("min", JInt min_count);
     ("filter", JStr "default")] in
  response <- _make_request fuel "/tags" query_params ;;
  tags <- lift_res (py_get response "items" (JList [])) ;;
  n <- lift_res (py_len tags) ;;
  log INFO ("Retrieved " ++ str_of_nat n ++ " tags") ;;;
  ret tags.

(** One element of a tag's time series, lines 175-179; ['date'] is
    [week_start.isoformat()]. *)
Record weekly_point : Type := mkWeeklyPoint {
  date : Z;
  count : json;
  tag : string
}.

(** Lines 163-164: the week number [week] before [end_date]. *)
Definition week_end (end_date : Z) (week : nat) : Z :=
  end_date - days (Z.of_nat week * 7).
Definition week_start (end_date : Z) (week : nat) : Z :=
  week_end end_date week - days 7.

(** Lines 166-171. *)
Definition week_params (tag : string) (end_date : Z) (week : nat) : params :=
  [("tagged", JStr tag);
   ("fromdate", JInt (epoch_seconds (week_start end_date week)));
   ("todate", JInt (epoch_seconds (week_end end_date week)));
   ("filter", JStr "!9Z(-wwYGT")].

(** The inner loop of [get_tag_stats_timeseries], lines 162-184, over the
    weeks still to do. *)
Fixpoint weeks_loop (fuel : nat) (tag : string) (end_date : Z)
    (weeks : list nat) (tag_data : list weekly_point)
    : M state (list weekly_point) :=
  match weeks with
  | [] => ret tag_data
  | week :: rest =>
      response <- _make_request fuel "/questions"
                    (week_params tag end_date week) ;;
      total <- lift_res (py_get response "total" (JInt 0)) ;;
      let point := mkWeeklyPoint (week_start end_date week) total tag in
      remaining <- get_rate_limit_remaining ;;
      (if remaining <? 10 then
         log WARNING "Approaching rate limit, pausing..." ;;;
         time_sleep (seconds 2)
       else ret tt) ;;;
      weeks_loop fuel tag end_date rest (tag_data ++ [point])
  end.

(** [range(days_back // 7)]. *)
Definition weeks_back (days_back : Z) : list nat :=
  seq 0 (Z.to_nat (days_back / 7)).

(** [get_tag_stats_timeseries(tags, days_back)]; nothing is caught here. *)
Definition get_tag_stats_timeseries (fuel : nat) (tags : list string)
    (days_back : Z) : M state (dict (list weekly_point)) :=
  log INFO ("Fetching time series for " ++ str_of_nat (List.length tags)
            ++ " tags over " ++ str_of_Z days_back ++ " days") ;;;
  end_date <- datetime_now ;;
  batch (fun tag => weeks_loop fuel tag end_date (weeks_back days_back) [])
    tags [].

(** [[item.get(field, default) for item in items]]. *)
Fixpoint py_get_each (field : string) (default : json) (items : list json)
    : res (list json) :=
  match items with
  | [] => Ret []
  | item :: rest =>
      v <-? py_get item field default ;;
      tl <-? py_get_each field default rest ;;
      Ret (v :: tl)
  end.

(** [get_tag_synonyms(tag)]. *)
Definition get_tag_synonyms (fuel : nat) (tag : string) : M state (list json) :=
  response <- _make_request fuel ("/tags/" ++ tag ++ "/synonyms")
                [("filter", JStr "default")] ;;
  items <- lift_res (py_get response "items" (JList [])) ;;
  elements <- lift_res (py_iter items) ;;
  lift_res (py_get_each "to_tag" (JStr "") elements).

(** Lines 224-234: the parameters of a search; [if tags:] is false for
    [None] and for the empty list. *)
Definition search_params (query : string) (tags : option (list string))
    (fromdate page_size : Z) : params :=
  let base : params :=
    [("order", JStr "desc"); ("sort", JStr "relevance"); ("q", JStr query);
     ("fromdate", JInt (epoch_seconds fromdate));
     ("pagesize", JInt page_size); ("filter", JStr "withbody")] in
  match tags with
  | Some (t :: ts) => dict_set "tagged" (JStr (String.concat ";" (t :: ts))) base
  | _ => base
  end.

(** [search_questions(query, tags, fromdate, page_size)]. *)
Definition search_questions (fuel : nat) (query : string)
    (tags : option (list string)) (fromdate : option Z) (page_size : Z)
    : M state json :=
  from <- match fromdate with
          | Some d => ret d
          | None => now <- datetime_now ;; ret (now - days 30)
          end ;;
  response <- _make_request fuel "/search"
                (search_params query tags from page_size) ;;
  lift_res (py_get response "items" (JList [])).

End Service.

End StackOverflowCollector.

(** ** src/collectors/trends.py *)

Module GoogleTrendsCollector.

(** A [pandas.DataFrame] of search interest: named columns over [nrows]
    rows of integers (Google Trends reports interest as 0..100). *)
Record frame : Type := mkFrame {
  columns : list string;
  nrows : nat;
  value : string -> nat -> Z
}.

(** [pd.DataFrame()]. *)
Definition empty_frame : frame := mkFrame [] 0 (fun _ _ => 0).

(** [df.empty]: one of the two axes has length 0. *)
Definition is_empty (df : frame) : bool :=
  match columns df, nrows df with
  | [], _ => true
  | _, O => true
  | _, _ => false
  end.

Definition has_column (name : string) (df : frame) : bool :=
  existsb (String.eqb name) (columns df).

(** [df.drop(columns=[name])]. *)
Definition drop_column (name : string) (df : frame) : frame :=
  mkFrame (filter (fun c => negb (String.eqb c name)) (columns df))
          (nrows df) (value df).

(** Lines 55-58: a frame that is not empty loses its ['isPartial']
    column. *)
Definition drop_is_partial (df : frame) : frame :=
  if negb (is_empty df) then
    if has_column "isPartial" df then drop_column "isPartial" df else df
  else df.

(** [df[name]] as the list of its values. *)
Definition series (df : frame) (name : string) : list Z :=
  map (value df name) (seq 0 (nrows df)).

(** What one use of the [pytrends] session does: [build_payload] raises,
    or the query method after it raises, or a frame comes back. *)
Inductive pytrends_reply : Type :=
| PayloadError (e : exn)
| FetchError (e : exn)
| Fetched (df : frame).

Definition log (lvl : level) (msg : string) : M world unit :=
  fun w => Some (Ret tt, logging lvl msg w).

Definition time_sleep (micros : Z) : M world unit :=
  fun w => Some (Ret tt, sleep micros w).

Definition datetime_now : M world Z :=
  fun w => Some (Ret (clock w), w).

Section Session.

Variable pytrends : nat -> pytrends_reply.

(** [self.pytrends.build_payload(kw_list, timeframe=..., geo=...)] followed
    by the query [fetch]; together they use up one reply of the session. *)
Definition query_session (kw_list : list string) (timeframe geo : string)
    (fetch : event) : M world frame :=
  fun w =>
    let w1 := mkWorld (clock w) (S (cursor w))
                (trace w ++ [BuildPayload kw_list timeframe geo]) in
    match pytrends (cursor w) with
    | PayloadError e => Some (Raise e, w1)
    | FetchError e => Some (Raise e, emit fetch w1)
    | Fetched df => Some (Ret df, emit fetch w1)
    end.

Definition get_interest_over_time (keywords : list string)
    (timeframe geo : string) : M world frame :=
  try_except
    (interest_df <- query_session (firstn 5 keywords) timeframe geo
                      InterestOverTime ;;
     let interest_df := drop_is_partial interest_df in
     log INFO ("Retrieved interest over time for "
               ++ str_of_nat (List.length keywords) ++ " keywords") ;;;
     ret interest_df)
    (fun _ =>
       log ERROR "Error fetching interest over time: " ;;; ret empty_frame).

Definition get_interest_by_region (keywords : list string)
    (resolution timeframe : string) : M world frame :=
  try_except
    (region_df <- query_session (firstn 5 keywords) timeframe ""
                    (InterestByRegion resolution) ;;
     log INFO ("Retrieved regional interest for "
               ++ str_of_nat (List.length keywords) ++ " keywords") ;;;
     ret region_df)
    (fun _ =>
       log ERROR "Error fetching regional interest: " ;;; ret empty_frame).

(** *** Summaries of a series

    The exact part of the summaries: means as rationals, extremes and the
    last value as integers.  The two fields the code derives from
    [series.std()] ([volatility], [consistency]) are floating-point square
    roots and are left out of the records. *)

Definition series_sum (s : list Z) : Z := fold_left Z.add s 0.

Definition series_max (s : list Z) : Z :=
  match s with [] => 0 | x :: r => fold_left Z.max r x end.

Definition series_min (s : list Z) : Z :=
  match s with [] => 0 | x :: r => fold_left Z.min r x end.

(** [series.iloc[-1]]. *)
Definition series_last (s : list Z) : Z := last s 0.

Record interest_summary : Type := mkInterestSummary {
  avg_interest : Q;
  max_interest : Z;
  min_interest : Z;
  current_interest : Z;
  trend : string;
  data_points : nat
}.

(** Lines 189-197; [series] has at least one row here. *)
Definition summarise (s : list Z) : interest_summary :=
  let n := List.length s in
  mkInterestSummary
    (true_div (series_sum s) n)
    (series_max s) (series_min s) (series_last s)
    (if series_sum s <? series_last s * Z.of_nat n then "rising" else "declining")
    n.

(** [range(0, n, 5)]. *)
Definition range_by_5 (n : nat) : list nat :=
  map (fun j => (5 * j)%nat) (seq 0 ((n + 4) / 5)).

(** [l[i:j]], [i <= j]. *)
Definition slice {A} (i j : nat) (l : list A) : list A :=
  firstn (j - i) (skipn i l).

(** The inner loop, lines 185-197: [for tech in batch: if tech in
    interest_df.columns: results['technologies'][tech] = ...]. *)
Fixpoint record_batch (interest_df : frame) (chunk : list string)
    (technologies : dict interest_summary) : dict interest_summary :=
  match chunk with
  | [] => technologies
  | tech :: rest =>
      record_batch interest_df rest
        (if has_column tech interest_df
         then dict_set tech (summarise (series interest_df tech)) technologies
         else technologies)
  end.

(** One turn of the outer loop, lines 174-203. *)
Definition compare_chunk (timeframe geo : string) (chunk : list string)
    (technologies : dict interest_summary) : M world (dict interest_summary) :=
  try_except
    (interest_df <- get_interest_over_time chunk timeframe geo ;;
     let technologies' :=
       if negb (is_empty interest_df)
       then record_batch interest_df chunk technologies
       else technologies in
     time_sleep (seconds 1) ;;;
     ret technologies')
    (fun _ =>
       log ERROR "Error processing batch " ;;; ret technologies).

Fixpoint compare_loop (timeframe geo : string) (tech_list : list string)
    (starts : list nat) (technologies : dict interest_summary)
    : M world (dict interest_summary) :=
  match starts with
  | [] => ret technologies
  | i :: rest =>
      technologies' <- compare_chunk timeframe geo
                         (slice i (i + 5) tech_list) technologies ;;
      compare_loop timeframe geo tech_list rest technologies'
  end.

Record comparison : Type := mkComparison {
  cmp_timeframe : string;
  cmp_geo : string;
  cmp_timestamp : Z;
  technologies : dict interest_summary
}.

Definition compare_technologies (tech_list : list string)
    (timeframe geo : string) : M world comparison :=
  log INFO ("Comparing " ++ str_of_nat (List.length tech_list)
            ++ " technologies") ;;;
  stamp <- datetime_now ;;
  found <- compare_loop timeframe geo tech_list
             (range_by_5 (List.length tech_list)) [] ;;
  ret (mkComparison timeframe geo stamp found).

Record period_summary : Type := mkPeriodSummary {
  ps_avg_interest : Q;
  current : Z;
  peak : Z;
  growth_rate : Q
}.

(** The mean of a slice as a pair (sum, length); the mean of no value is
    NaN, and [NaN > 0] is false. *)
Definition growth (s : list Z) : Q :=
  let half := (List.length s / 2)%nat in
  let first_half := firstn half s in
  let second_half := skipn half s in
  match half with
  | O => 0
  | _ =>
      let m1 := true_div (series_sum first_half) (List.length first_half) in
      let m2 := true_div (series_sum second_half) (List.length second_half) in
      if (0 <? series_sum first_half)%Z then (m2 - m1) / m1 * 100 else 0
  end%Q.

Definition summarise_period (s : list Z) : period_summary :=
  mkPeriodSummary (true_div (series_sum s) (List.length s))
    (series_last s) (series_max s) (growth s).

Record tech_data : Type := mkTechData {
  name : string;
  periods : dict period_summary;
  td_timestamp : Z
}.

(** The loop over [periods], lines 234-257. *)
Fixpoint periods_loop (tech : string) (todo : list string)
    (found : dict period_summary) : M world (dict period_summary) :=
  match todo with
  | [] => ret found
  | period :: rest =>
      interest_df <- get_interest_over_time [tech] period "" ;;
      let found' :=
        if negb (is_empty interest_df) && has_column tech interest_df
        then dict_set period (summarise_period (series interest_df tech)) found
        else found in
      time_sleep (seconds 1) ;;;
      periods_loop tech rest found'
  end.

Definition trends_try (period_list : list string) (tech : string)
    : M world (option tech_data) :=
  stamp <- datetime_now ;;
  found <- periods_loop tech period_list [] ;;
  log INFO ("Trends calculated for " ++ tech) ;;;
  ret (Some (mkTechData tech found stamp)).

Definition trends_step (period_list : list string) (tech : string)
    : M world (option tech_data) :=
  try_except (trends_try period_list tech)
    (fun _ =>
       log ERROR ("Error calculating trends for " ++ tech ++ ": ") ;;;
       ret None).

Definition get_tech_demand_trends (tech_list : list string)
    (period_arg : option (list string)) : M world (dict (option tech_data)) :=
  let period_list :=
    match period_arg with
    | Some l => l
    | None => ["today 3-m"; "today 12-m"]
    end in
  log INFO ("Fetching demand trends for "
            ++ str_of_nat (List.length tech_list) ++ " technologies") ;;;
  batch (trends_step period_list) tech_list [].

End Session.

End GoogleTrendsCollector.

(** ** Vocabulary of the properties *)

(** The keys of a list in the order of their first occurrence. *)
Fixpoint uniq (keys : list string) : list string :=
  match keys with
  | [] => []
  | k :: rest => k :: filter (fun x => negb (String.eqb x k)) (uniq rest)
  end.

Definition mem (k : string) (l : list string) : bool :=
  existsb (String.eqb k) l.

(** A reply that makes [_make_request] wait and call itself again: a
    response with the status [code] (403 for GitHub, 429 for Stack
    Overflow). *)
Definition throttling (code : Z) (rep : reply) : bool :=
  match rep with
  | Responded r => status_code r =? code
  | Failed => false
  end.

(** The service never throttles [bound] times in a row. *)
Definition relents (code : Z) (service : nat -> reply) (bound : nat) : Prop :=
  forall n : nat, exists m : nat,
    (m < bound)%nat /\ throttling code (service (n + m)%nat) = false.

(** A computation that comes back with a value from every state. *)
Definition returns {S A} (m : M S A) : Prop :=
  forall s, exists a s', m s = Some (Ret a, s').

(** The value of a finished run, without the final state. *)
Definition value_of {S A} (o : option (res A * S)) : option (res A) :=
  match o with
  | Some (r, _) => Some r
  | None => None
  end.

Definition final_state {S A} (o : option (res A * S)) : option S :=
  match o with
  | Some (_, s) => Some s
  | None => None
  end.

(** A computation that ends, with a value or with an exception, from
    every state. *)
Definition ends {S A} (m : M S A) : Prop :=
  forall s, exists r s', m s = Some (r, s').

(** The key invariant of a batch method: the keys of the mapping are the
    input keys, each once, in the order in which they first occur. *)
Definition one_entry_per_key {V} (keys : list string) (d : dict V) : Prop :=
  dict_keys d = uniq keys /\
  NoDup (dict_keys d) /\
  (forall k, In k keys <-> In k (dict_keys d)) /\
  (NoDup keys -> dict_keys d = keys).

(** A key whose [try] block raises gets a null entry and the loop goes on:
    whenever the loop over [pre ++ k :: post] ends and the block of [k]
    raised in the state reached after [pre], the mapping has [None] at [k]
    (unless [k] comes again in [post]). *)
Definition failure_isolated {S V} (body step : string -> M S (option V)) : Prop :=
  forall pre k post acc s d1 s1 e s2 d s',
    batch step pre acc s = Some (Ret d1, s1) ->
    body k s1 = Some (Raise e, s2) ->
    batch step (pre ++ k :: post) acc s = Some (Ret d, s') ->
    ~ In k post ->
    dict_get k d = Some None.

(** The test that the comprehensions of lines 138-140 and 262-264 of
    github.py apply to one item: its date is after the cutoff. *)
Definition strictly_after (strptime : string -> option Z) (field : string)
    (cutoff : Z) (r : json) : bool :=
  match GitHubCollector.parse_date strptime field r with
  | Ret t => cutoff <? t
  | Raise _ => false
  end.

(** Null propagation: whenever the loop over [pre ++ k :: post] ends and
    [cond] held of [k] in the state reached after [pre], the mapping has
    [None] at [k] (unless [k] comes again in [post]). *)
Definition recorded_null {S V} (step : string -> M S (option V))
    (cond : string -> S -> Prop) : Prop :=
  forall pre k post acc s d1 s1 d s',
    batch step pre acc s = Some (Ret d1, s1) ->
    cond k s1 ->
    batch step (pre ++ k :: post) acc s = Some (Ret d, s') ->
    ~ In k post ->
    dict_get k d = Some None.

(** The search made for [language] in state [s] comes back without items:
    an empty list under ['items'], or no such key. *)
Definition language_search_empty (service : nat -> reply) (strftime : Z -> string)
    (fuel : nat) (language : string) (s : GitHubCollector.state) : Prop :=
  exists body s1,
    GitHubCollector._make_request service fuel "/search/repositories"
      (GitHubCollector.search_params strftime language 10 None) s
      = Some (Ret body, s1) /\
    py_get body "items" (JList []) = Ret (JList []).

Definition popularity_search_empty (service : nat -> reply) (fuel : nat)
    (tech : string) (s : GitHubCollector.state) : Prop :=
  exists body s1,
    GitHubCollector._make_request service fuel "/search/repositories"
      (GitHubCollector.popularity_params tech) s = Some (Ret body, s1) /\
    py_get body "items" (JList []) = Ret (JList []).

(** The tag-info request made for [tech], after the questions request,
    comes back with an empty list under ['items']. *)
Definition tag_info_empty (service : nat -> reply) (fuel : nat)
    (tech : string) (s : StackOverflowCollector.state) : Prop :=
  exists recent s1 body s2,
    StackOverflowCollector.get_tag_questions service fuel tech
      (Some (clock (snd s) - days 7)) None 100 s = Some (Ret recent, s1) /\
    StackOverflowCollector._make_request service fuel
      ("/tags/" ++ tech ++ "/info") [] s1 = Some (Ret body, s2) /\
    py_get body "items" (JList [JDict []]) = Ret (JList []).

(** The keyword lists of the payloads built along a trace, in order. *)
Fixpoint payloads (t : list event) : list (list string) :=
  match t with
  | [] => []
  | BuildPayload kw_list _ _ :: rest => kw_list :: payloads rest
  | _ :: rest => payloads rest
  end.

(** The log records of a trace at level [ERROR] or [WARNING]. *)
Fixpoint complaints (t : list event) : list event :=
  match t with
  | [] => []
  | Log ERROR msg :: rest => Log ERROR msg :: complaints rest
  | Log WARNING msg :: rest => Log WARNING msg :: complaints rest
  | _ :: rest => complaints rest
  end.

(** The frame [get_interest_over_time] hands back for a reply of the
    session. *)
Definition interest_frame (rep : GoogleTrendsCollector.pytrends_reply)
    : GoogleTrendsCollector.frame :=
  match rep with
  | GoogleTrendsCollector.Fetched df => GoogleTrendsCollector.drop_is_partial df
  | _ => GoogleTrendsCollector.empty_frame
  end.

(** What one call of a query method adds to the trace after the payload:
    the fetch, when the payload could be built, and one log record. *)
Definition after_payload (rep : GoogleTrendsCollector.pytrends_reply)
    (fetch : event) (done failed : string) : list event :=
  match rep with
  | GoogleTrendsCollector.Fetched _ => [fetch; Log INFO done]
  | GoogleTrendsCollector.FetchError _ => [fetch; Log ERROR failed]
  | GoogleTrendsCollector.PayloadError _ => [Log ERROR failed]
  end.

(** The reply to a chunk has data for the keyword [k]: the frame that comes
    back is not empty and has a column [k]. *)
Definition answered (rep : GoogleTrendsCollector.pytrends_reply) (k : string)
    : bool :=
  negb (GoogleTrendsCollector.is_empty (interest_frame rep)) &&
  GoogleTrendsCollector.has_column k (interest_frame rep).

(** What the turn of a chunk leaves in the mapping, lines 184-197. *)
Definition chunk_found (rep : GoogleTrendsCollector.pytrends_reply)
    (chunk : list string) (acc : dict GoogleTrendsCollector.interest_summary)
    : dict GoogleTrendsCollector.interest_summary :=
  if negb (GoogleTrendsCollector.is_empty (interest_frame rep))
  then GoogleTrendsCollector.record_batch (interest_frame rep) chunk acc
  else acc.

(** *** Two runs against the same upstream data *)

(** The replies the first service gives from its [i]-th call on are those
    the second gives from its [j]-th call on. *)
Definition aligned (service1 service2 : nat -> reply) (i j : nat) : Prop :=
  forall n : nat, service1 (i + n)%nat = service2 (j + n)%nat.

(** The statistics of an entry that are not read off the clock. *)
Definition timeless_language (e : GitHubCollector.language_stats)
    : nat * Z * Z * Z * Q :=
  (GitHubCollector.total_repos e, GitHubCollector.total_stars e,
   GitHubCollector.total_forks e, GitHubCollector.total_watchers e,
   GitHubCollector.avg_stars e).

Definition timeless_popularity (e : GitHubCollector.popularity_metrics)
    : nat * Z * Z * Q * Q * Z :=
  (GitHubCollector.repo_count e, GitHubCollector.pm_total_stars e,
   GitHubCollector.pm_total_forks e, GitHubCollector.pm_avg_stars e,
   GitHubCollector.avg_forks e, GitHubCollector.open_issues e).

Definition timeless_demand (e : StackOverflowCollector.demand_metrics)
    : json * nat * Q * Q * Q * json :=
  (StackOverflowCollector.total_questions e,
   StackOverflowCollector.recent_questions e,
   StackOverflowCollector.avg_score e,
   StackOverflowCollector.avg_answers e,
   StackOverflowCollector.avg_views e,
   StackOverflowCollector.last_activity e).

Definition dict_map {V W} (f : V -> W) (d : dict V) : dict W :=
  map (fun kv => (fst kv, f (snd kv))) d.

Definition res_map {A B} (f : A -> B) (r : res A) : res B :=
  match r with
  | Ret a => Ret (f a)
  | Raise e => Raise e
  end.

(** Two values agree: they have the same image under [f], and they are
    equal when the two runs read the same time. *)
Definition agree {A B} (same_time : bool) (f : A -> B) (a1 a2 : A) : Prop :=
  f a1 = f a2 /\ (same_time = true -> a1 = a2).

(** Two outcomes of the same kind, with related values and final states. *)
Definition res_rel {A} (RA : A -> A -> Prop) (r1 r2 : res A) : Prop :=
  match r1, r2 with
  | Ret a1, Ret a2 => RA a1 a2
  | Raise e1, Raise e2 => e1 = e2
  | _, _ => False
  end.

Definition sim {S A} (RS : S -> S -> Prop) (RA : A -> A -> Prop)
    (o1 o2 : option (res A * S)) : Prop :=
  match o1, o2 with
  | None, None => True
  | Some (r1, s1), Some (r2, s2) => res_rel RA r1 r2 /\ RS s1 s2
  | _, _ => False
  end.

(** The states of two runs: the replies to come are the same, and when the
    runs read the same time the collectors and the clocks are the same. *)
Definition rerun_states {C} (service1 service2 : nat -> reply)
    (same_time : bool) (s1 s2 : C * world) : Prop :=
  aligned service1 service2 (cursor (snd s1)) (cursor (snd s2)) /\
  (same_time = true -> fst s1 = fst s2 /\ clock (snd s1) = clock (snd s2)).

(** *** Further vocabulary *)

(** The requests sent along a trace, in order. *)
Fixpoint requests (t : list event) : list (string * params) :=
  match t with
  | [] => []
  | Get url query :: rest => (url, query) :: requests rest
  | _ :: rest => requests rest
  end.

(** A service that never answers with the throttling status. *)
Definition never_throttles (code : Z) (service : nat -> reply) : Prop :=
  forall n, throttling code (service n) = false.

(** The value of [X-RateLimit-Remaining] as line 57 reads it. *)
Definition remaining_header (r : response) : Z :=
  match x_ratelimit_remaining r with Some n => n | None => 0 end.

(** A computation that, when it ends, has made between [lo] and [hi]
    calls to the service. *)
Definition calls_between {C A} (lo hi : nat) (m : M (C * world) A) : Prop :=
  forall s r s', m s = Some (r, s') ->
    (cursor (snd s) + lo <= cursor (snd s') <= cursor (snd s) + hi)%nat.

(** ** Concrete services and inputs

    The data on which the general statements are instantiated. *)

Module Samples.

(** 2023-12-14 22:13:20, in microseconds. *)
Definition noon : Z := 1702592000000000.

Definition w0 : world := mkWorld noon 0 [].

Definition answer (status : Z) (remaining reset : option Z) (body : json)
    : response :=
  mkResponse status remaining reset None (Ret body) (Ret body).

(** A table standing for [datetime.strptime] on the dates used below. *)
Definition strptime (s : string) : option Z :=
  if String.eqb s "2023-11-14T22:13:20Z" then Some 1700000000000000
  else if String.eqb s "2023-11-14T22:13:21Z" then Some 1700000001000000
  else if String.eqb s "2023-12-07T22:13:20Z" then Some 1701987200000000
  else if String.eqb s "2023-12-10T00:00:00Z" then Some 1702166400000000
  else None.

Definition strftime (d : Z) : string := "2023-11-14".

Definition repo (stars forks : Z) (date : string) : json :=
  JDict [("stargazers_count", JInt stars); ("forks_count", JInt forks);
         ("watchers_count", JInt stars); ("open_issues_count", JInt 1);
         ("created_at", JStr date); ("updated_at", JStr date)].

Definition envelope (items : list json) : json :=
  JDict [("items", JList items); ("has_more", JBool false)].

(** A 403 that announces a reset time, then plain successes without the
    reset header. *)
Definition throttle_once (code : Z) (n : nat) : reply :=
  match n with
  | O => Responded (answer code (Some 0) (Some 1702592100) (JDict []))
  | _ => Responded (answer 200 (Some 10) None (envelope [repo 5 2 "2023-12-10T00:00:00Z"]))
  end.

Definition always_ok (n : nat) : reply :=
  Responded (answer 200 (Some 10) None (envelope [repo 5 2 "2023-12-10T00:00:00Z"])).

Definition always_throttled (code : Z) (n : nat) : reply :=
  Responded (answer code (Some 0) None (JDict [])).

Definition unreachable (n : nat) : reply := Failed.

Definition seven : list string :=
  ["python"; "rust"; "go"; "java"; "ruby"; "perl"; "cobol"].

Definition twelve : list string :=
  ["python"; "rust"; "go"; "java"; "ruby"; "perl"; "cobol"; "scala";
   "swift"; "kotlin"; "dart"; "zig"].

(** Three rows of interest for the given keywords, and the ['isPartial']
    column that Google Trends adds. *)
Definition interest (keywords : list string) : GoogleTrendsCollector.frame :=
  GoogleTrendsCollector.mkFrame (keywords ++ ["isPartial"]) 3
    (fun c i => Z.of_nat (String.length c) * 10 + Z.of_nat i).

(** A session that has data for the first chunk, none for "perl" in the
    second, and fails on the third. *)
Definition session (n : nat) : GoogleTrendsCollector.pytrends_reply :=
  match n with
  | O => GoogleTrendsCollector.Fetched
           (interest ["python"; "rust"; "go"; "java"; "ruby"])
  | 1%nat => GoogleTrendsCollector.Fetched
               (interest ["cobol"; "scala"; "swift"; "kotlin"])
  | _ => GoogleTrendsCollector.FetchError OSError
  end.

(** The questions request comes back with an empty envelope, the tag-info
    request with one item. *)
Definition questions_empty (n : nat) : reply :=
  match n with
  | O => Responded (answer 200 (Some 100) None (envelope []))
  | _ => Responded (answer 200 (Some 99) None
                      (envelope [JDict [("count", JInt 5);
                                        ("last_activity_date", JInt 1700000000)]]))
  end.

(** The second reply carries a date that [strptime] rejects. *)
Definition second_is_malformed (n : nat) : reply :=
  match n with
  | 1%nat => Responded (answer 200 (Some 10) None (envelope [repo 7 1 "yesterday"]))
  | _ => always_ok n
  end.

End Samples.

(* ================================================================= *)
(** * Properties *)

(** ** Dictionaries and first occurrences *)

Lemma dict_get_set_same {V} (k : string) (v : V) (d : dict V) :
  dict_get k (dict_set k v d) = Some v.
Proof.
  induction d as [|[k' v'] d IH]; simpl.
  - now rewrite String.eqb_refl.
  - destruct (String.eqb k k') eqn:E; simpl; rewrite ?String.eqb_refl, ?E; auto.
Qed.

Lemma dict_get_set_other {V} (k k' : string) (v : V) (d : dict V) :
  k <> k' -> dict_get k (dict_set k' v d) = dict_get k d.
Proof.
  intros Hne. induction d as [|[k0 v0] d IH]; simpl.
  - destruct (String.eqb k k') eqn:E; auto.
    apply String.eqb_eq in E. contradiction.
  - destruct (String.eqb k' k0) eqn:E; simpl.
    + apply String.eqb_eq in E. subst k0.
      destruct (String.eqb k k') eqn:E'; auto.
      apply String.eqb_eq in E'. contradiction.
    + destruct (String.eqb k k0); auto.
Qed.

Lemma dict_set_known {V} (k : string) (v : V) (d : dict V) :
  dict_get k d = Some v -> dict_set k v d = d.
Proof.
  induction d as [|[k' v'] d IH]; simpl; intros H.
  - discriminate.
  - destruct (String.eqb k k') eqn:E.
    + apply String.eqb_eq in E. congruence.
    + now rewrite IH.
Qed.

Lemma mem_In (k : string) (l : list string) : mem k l = true <-> In k l.
Proof.
  unfold mem. rewrite existsb_exists. split.
  - intros [x [Hx E]]. apply String.eqb_eq in E. now subst.
  - intros H. exists k. split; auto. apply String.eqb_refl.
Qed.

Lemma dict_keys_set {V} (k : string) (v : V) (d : dict V) :
  dict_keys (dict_set k v d) =
  if mem k (dict_keys d) then dict_keys d else (dict_keys d ++ [k])%list.
Proof.
  unfold dict_keys, mem. induction d as [|[k' v'] d IH]; simpl; auto.
  destruct (String.eqb k k') eqn:E; simpl.
  - apply String.eqb_eq in E. now subst.
  - rewrite IH. now destruct (existsb (String.eqb k) (map fst d)).
Qed.

Lemma filter_all {A} (f : A -> bool) (l : list A) :
  (forall x, In x l -> f x = true) -> filter f l = l.
Proof.
  induction l as [|a l IH]; simpl; intros H; auto.
  rewrite (H a) by auto. f_equal. apply IH. auto.
Qed.

Lemma filter_twice {A} (f g : A -> bool) (l : list A) :
  filter f (filter g l) = filter (fun x => g x && f x) l.
Proof.
  induction l as [|a l IH]; simpl; auto.
  destruct (g a); simpl; rewrite IH; auto.
Qed.

Lemma In_uniq (x : string) (keys : list string) : In x (uniq keys) <-> In x keys.
Proof.
  induction keys as [|k rest IH]; simpl; [tauto|].
  rewrite filter_In, IH, negb_true_iff, String.eqb_neq.
  destruct (string_dec k x); intuition congruence.
Qed.

Lemma NoDup_uniq (keys : list string) : NoDup (uniq keys).
Proof.
  induction keys as [|k rest IH]; simpl; constructor.
  - rewrite filter_In, negb_true_iff, String.eqb_neq. tauto.
  - now apply NoDup_filter.
Qed.

Lemma uniq_NoDup (keys : list string) : NoDup keys -> uniq keys = keys.
Proof.
  induction 1 as [|k rest Hk Hnd IH]; simpl; auto.
  rewrite IH. f_equal. apply filter_all.
  intros x Hx. rewrite negb_true_iff, String.eqb_neq. congruence.
Qed.

(** The keys a loop adds to the dictionary it started from. *)
Lemma uniq_step (k : string) (seen rest : list string) :
  ((if mem k seen then seen else seen ++ [k]) ++
   filter (fun x => negb (mem x (if mem k seen then seen else seen ++ [k])))
     (uniq rest) =
   seen ++ filter (fun x => negb (mem x seen)) (uniq (k :: rest)))%list.
Proof.
  simpl. destruct (mem k seen) eqn:Hk; simpl.
  - f_equal. rewrite filter_twice. apply filter_ext. intros x.
    destruct (String.eqb x k) eqn:E; simpl; auto.
    apply String.eqb_eq in E. subst. now rewrite Hk.
  - rewrite <- app_assoc. simpl. do 2 f_equal.
    rewrite filter_twice. apply filter_ext. intros x.
    unfold mem. rewrite existsb_app. simpl. rewrite orb_false_r, negb_orb.
    apply andb_comm.
Qed.

(** ** The loop of the batch methods *)

Lemma batch_cons {S V} (step : string -> M S V) k rest acc s :
  batch step (k :: rest) acc s =
  match step k s with
  | None => None
  | Some (Raise e, s') => Some (Raise e, s')
  | Some (Ret v, s') => batch step rest (dict_set k v acc) s'
  end.
Proof. reflexivity. Qed.

Lemma batch_returns {S V} (step : string -> M S V) :
  (forall k, returns (step k)) ->
  forall keys acc s, exists d s',
    batch step keys acc s = Some (Ret d, s') /\
    dict_keys d =
      (dict_keys acc ++
       filter (fun x => negb (mem x (dict_keys acc))) (uniq keys))%list.
Proof.
  intros Hstep keys. induction keys as [|k rest IH]; intros acc s.
  - exists acc, s. split; [reflexivity|]. simpl. now rewrite app_nil_r.
  - rewrite batch_cons. destruct (Hstep k s) as [v [s1 Hv]]. rewrite Hv.
    destruct (IH (dict_set k v acc) s1) as [d [s' [Hrun Hkeys]]].
    exists d, s'. split; [exact Hrun|].
    rewrite Hkeys, dict_keys_set. apply uniq_step.
Qed.

(** A key that is not looked at keeps its entry. *)
Lemma batch_untouched {S V} (step : string -> M S V) k keys :
  ~ In k keys ->
  forall acc s d s',
    batch step keys acc s = Some (Ret d, s') -> dict_get k d = dict_get k acc.
Proof.
  induction keys as [|k0 rest IH]; intros Hk acc s d s' Hrun.
  - inversion Hrun. reflexivity.
  - rewrite batch_cons in Hrun.
    destruct (step k0 s) as [[[v|e] s1]|]; try discriminate.
    rewrite (IH (fun H => Hk (or_intror H)) _ _ _ _ Hrun).
    apply dict_get_set_other. intros ->. apply Hk. now left.
Qed.

Lemma batch_app {S V} (step : string -> M S V) l1 l2 acc s :
  batch step (l1 ++ l2) acc s =
  bind (batch step l1 acc) (fun d => batch step l2 d) s.
Proof.
  revert acc s. induction l1 as [|k l1 IH]; intros acc s.
  - reflexivity.
  - simpl app. rewrite batch_cons. unfold bind at 1. simpl batch.
    unfold bind at 1. destruct (step k s) as [[[v|e] s1]|]; auto.
Qed.

(** What the loop records for a key whose [try] block raised: null, and
    the loop goes on with the keys that follow. *)
Lemma batch_failure_isolated {S V} (body : string -> M S (option V))
    (on_error : string -> M S unit) :
  (forall k, returns (on_error k)) ->
  let step := fun k => try_except (body k) (fun _ => on_error k ;;; ret None) in
  forall pre k post acc s d1 s1 e s2 d s',
    batch step pre acc s = Some (Ret d1, s1) ->
    body k s1 = Some (Raise e, s2) ->
    batch step (pre ++ k :: post) acc s = Some (Ret d, s') ->
    exists s3,
      on_error k s2 = Some (Ret tt, s3) /\
      batch step post (dict_set k None d1) s3 = Some (Ret d, s') /\
      (~ In k post -> dict_get k d = Some None).
Proof.
  intros Herr step pre k post acc s d1 s1 e s2 d s' Hpre Hbody Hall.
  rewrite batch_app in Hall. unfold bind in Hall. rewrite Hpre in Hall.
  rewrite batch_cons in Hall. unfold step at 1, try_except in Hall.
  rewrite Hbody in Hall. unfold bind in Hall.
  destruct (Herr k s2) as [[] [s3 H3]]. rewrite H3 in Hall. unfold ret in Hall.
  exists s3. repeat split; auto.
  intros Hk. rewrite (batch_untouched _ _ _ Hk _ _ _ _ Hall).
  apply dict_get_set_same.
Qed.

(** ** GitHub: the request function *)

Section GitHubFacts.
Import GitHubCollector.

Lemma github_throttled_state_eq url query r c w :
  throttled_state url query r c w =
  (update_rate_limit r c,
   mkWorld (clock w + wait_micros (update_rate_limit r c) (clock w))
     (S (cursor w))
     (trace w ++
      [Get url query; Log WARNING "Rate limit exceeded, waiting...";
       Sleep (wait_micros (update_rate_limit r c) (clock w))])).
Proof.
  unfold throttled_state, sleep, logging, emit, requested. cbn.
  now rewrite <- !app_assoc.
Qed.

Section Facts.

Variable service : nat -> reply.

Lemma github_make_request_failed fuel endpoint query c w :
  service (cursor w) = Failed ->
  _make_request service (S fuel) endpoint query (c, w) =
  Some (Ret (JDict []),
        (c, failure_logged (requested (BASE_URL ++ endpoint) query w))).
Proof. intros H. simpl. unfold session_get. now rewrite H. Qed.

Lemma github_make_request_throttled fuel endpoint query c w r :
  service (cursor w) = Responded r -> status_code r = 403 ->
  _make_request service (S fuel) endpoint query (c, w) =
  _make_request service fuel endpoint query
    (throttled_state (BASE_URL ++ endpoint) query r c w).
Proof.
  intros H E. simpl. unfold session_get. rewrite H, E. reflexivity.
Qed.

Lemma github_make_request_answered fuel endpoint query c w r :
  service (cursor w) = Responded r -> status_code r <> 403 ->
  _make_request service (S fuel) endpoint query (c, w) =
  let c1 := update_rate_limit r c in
  let w1 := requested (BASE_URL ++ endpoint) query w in
  if is_http_error (status_code r) then
    Some (Ret (JDict []), (c1, failure_logged w1))
  else
    match json_body r with
    | Ret body => Some (Ret body, (c1, w1))
    | Raise e =>
        if is_request_exception e
        then Some (Ret (JDict []), (c1, failure_logged w1))
        else Some (Raise e, (c1, w1))
    end.
Proof.
  intros H E. simpl. unfold session_get. rewrite H.
  apply Z.eqb_neq in E. rewrite E. reflexivity.
Qed.

Lemma github_throttled_cursor url query r c w :
  cursor (snd (throttled_state url query r c w)) = S (cursor w).
Proof. reflexivity. Qed.

(** An answer that is not a 403 within the budget ends the call. *)
Lemma github_make_request_within m : forall fuel endpoint query c w,
  (m < fuel)%nat ->
  throttling 403 (service (cursor w + m)) = false ->
  exists out s', _make_request service fuel endpoint query (c, w) = Some (out, s').
Proof.
  induction m as [|m IH]; intros fuel endpoint query c w Hlt Hm;
    (destruct fuel as [|fuel]; [lia|]).
  - rewrite Nat.add_0_r in Hm.
    destruct (service (cursor w)) as [r|] eqn:Hrep.
    + simpl in Hm. apply Z.eqb_neq in Hm.
      rewrite (github_make_request_answered _ _ _ _ _ _ Hrep Hm). cbv zeta.
      destruct (is_http_error (status_code r)); [eauto|].
      destruct (json_body r) as [body|e]; [eauto|].
      destruct (is_request_exception e); eauto.
    + rewrite (github_make_request_failed _ _ _ _ _ Hrep). eauto.
  - destruct (service (cursor w)) as [r|] eqn:Hrep.
    + destruct (Z.eq_dec (status_code r) 403) as [E|E].
      * rewrite (github_make_request_throttled _ _ _ _ _ _ Hrep E).
        unfold throttled_state. cbv zeta. apply IH; [lia|].
        simpl cursor.
        now replace (S (cursor w) + m)%nat with (cursor w + S m)%nat by lia.
      * rewrite (github_make_request_answered _ _ _ _ _ _ Hrep E). cbv zeta.
        destruct (is_http_error (status_code r)); [eauto|].
        destruct (json_body r) as [body|e]; [eauto|].
        destruct (is_request_exception e); eauto.
    + rewrite (github_make_request_failed _ _ _ _ _ Hrep). eauto.
Qed.

Lemma github_make_request_total bound endpoint query s :
  relents 403 service bound ->
  exists out s', _make_request service bound endpoint query s = Some (out, s').
Proof.
  intros H. destruct s as [c w]. destruct (H (cursor w)) as [m [Hlt Hm]].
  now apply (github_make_request_within m).
Qed.

(** A call that ends has consumed replies up to one that is not a 403, and
    that reply is the last one it consumed. *)
Lemma github_make_request_last fuel : forall endpoint query s out s',
  _make_request service fuel endpoint query s = Some (out, s') ->
  (cursor (snd s) < cursor (snd s'))%nat /\
  throttling 403 (service (pred (cursor (snd s')))) = false.
Proof.
  induction fuel as [|fuel IH]; intros endpoint query [c w] out s' H.
  - discriminate.
  - destruct (service (cursor w)) as [r|] eqn:Hrep.
    + destruct (Z.eq_dec (status_code r) 403) as [E|E].
      * rewrite (github_make_request_throttled _ _ _ _ _ _ Hrep E) in H.
        apply IH in H. rewrite github_throttled_cursor in H. simpl. split; [lia|tauto].
      * rewrite (github_make_request_answered _ _ _ _ _ _ Hrep E) in H. cbv zeta in H.
        assert (Hs : cursor (snd s') = S (cursor w)).
        { destruct (is_http_error (status_code r)); [now inversion H|].
          destruct (json_body r) as [body|e]; [now inversion H|].
          destruct (is_request_exception e); now inversion H. }
        simpl. rewrite Hs. simpl. rewrite Hrep. simpl.
        split; [lia|]. now apply Z.eqb_neq.
    + rewrite (github_make_request_failed _ _ _ _ _ Hrep) in H. inversion H. subst.
      simpl. rewrite Hrep. split; [lia|reflexivity].
Qed.

(** Under a service that answers every request with a 403 no budget is
    enough. *)
Lemma github_make_request_starved fuel : forall endpoint query s,
  (forall n, throttling 403 (service n) = true) ->
  _make_request service fuel endpoint query s = None.
Proof.
  intros endpoint query s H.
  destruct (_make_request service fuel endpoint query s) as [[out s']|] eqn:E; auto.
  apply github_make_request_last in E. destruct E as [_ E]. rewrite H in E. discriminate.
Qed.

(** More budget does not change a call that ended. *)
Lemma github_make_request_mono fuel : forall fuel' endpoint query s o,
  (fuel <= fuel')%nat ->
  _make_request service fuel endpoint query s = Some o ->
  _make_request service fuel' endpoint query s = Some o.
Proof.
  induction fuel as [|fuel IH]; intros fuel' endpoint query [c w] o Hle H.
  - discriminate.
  - destruct fuel' as [|fuel']; [lia|].
    destruct (service (cursor w)) as [r|] eqn:Hrep.
    + destruct (Z.eq_dec (status_code r) 403) as [E|E].
      * rewrite (github_make_request_throttled _ _ _ _ _ _ Hrep E) in H.
        rewrite (github_make_request_throttled _ _ _ _ _ _ Hrep E).
        apply IH with (fuel' := fuel') in H; [exact H|lia].
      * rewrite (github_make_request_answered _ _ _ _ _ _ Hrep E) in H.
        now rewrite (github_make_request_answered _ _ _ _ _ _ Hrep E).
    + rewrite (github_make_request_failed _ _ _ _ _ Hrep) in H.
      now rewrite (github_make_request_failed _ _ _ _ _ Hrep).
Qed.

(** Every call starts by sending its request, and only adds to the trace. *)
Lemma github_make_request_trace fuel : forall endpoint query s out s',
  _make_request service fuel endpoint query s = Some (out, s') ->
  exists rest,
    trace (snd s') =
    (trace (snd s) ++ Get (BASE_URL ++ endpoint) query :: rest)%list.
Proof.
  induction fuel as [|fuel IH]; intros endpoint query [c w] out s' H.
  - discriminate.
  - destruct (service (cursor w)) as [r|] eqn:Hrep.
    + destruct (Z.eq_dec (status_code r) 403) as [E|E].
      * rewrite (github_make_request_throttled _ _ _ _ _ _ Hrep E) in H.
        apply IH in H. destruct H as [rest H]. rewrite H. simpl.
        rewrite <- !app_assoc. simpl. eauto.
      * rewrite (github_make_request_answered _ _ _ _ _ _ Hrep E) in H. cbv zeta in H.
        destruct (is_http_error (status_code r)).
        { inversion H. simpl. rewrite <- app_assoc. simpl. eauto. }
        destruct (json_body r) as [body|e].
        { inversion H. simpl. eauto. }
        destruct (is_request_exception e); inversion H; simpl;
          rewrite <- ?app_assoc; simpl; eauto.
    + rewrite (github_make_request_failed _ _ _ _ _ Hrep) in H. inversion H. simpl.
      rewrite <- app_assoc. simpl. eauto.
Qed.

(** Whatever came before, a call whose last reply is a transport failure
    returns the empty mapping. *)
Lemma github_make_request_last_failed fuel : forall endpoint query s out s',
  _make_request service fuel endpoint query s = Some (out, s') ->
  service (pred (cursor (snd s'))) = Failed ->
  out = Ret (JDict []).
Proof.
  induction fuel as [|fuel IH]; intros endpoint query [c w] out s' H Hlast.
  - discriminate.
  - destruct (service (cursor w)) as [r|] eqn:Hrep.
    + destruct (Z.eq_dec (status_code r) 403) as [E|E].
      * rewrite (github_make_request_throttled _ _ _ _ _ _ Hrep E) in H.
        now apply IH in H.
      * rewrite (github_make_request_answered _ _ _ _ _ _ Hrep E) in H. cbv zeta in H.
        assert (Hs : cursor (snd s') = S (cursor w)).
        { destruct (is_http_error (status_code r)); [now inversion H|].
          destruct (json_body r) as [body|e]; [now inversion H|].
          destruct (is_request_exception e); now inversion H. }
        rewrite Hs in Hlast. simpl in Hlast. congruence.
    + rewrite (github_make_request_failed _ _ _ _ _ Hrep) in H. now inversion H.
Qed.

End Facts.
End GitHubFacts.

(** ** Stack Overflow: the request function *)

Section StackOverflowFacts.
Import StackOverflowCollector.

(** Adding the credentials twice is adding them once: the request that is
    sent again carries the same parameters. *)
Lemma stackoverflow_with_credentials_again c query :
  with_credentials c (with_credentials c query) = with_credentials c query.
Proof.
  unfold with_credentials.
  destruct (api_key c) as [key|]; [destruct (String.eqb key "")|].
  - apply dict_set_known, dict_get_set_same.
  - rewrite (dict_set_known "key" (JStr key)).
    + apply dict_set_known, dict_get_set_same.
    + rewrite dict_get_set_other by discriminate. apply dict_get_set_same.
  - apply dict_set_known, dict_get_set_same.
Qed.

Lemma stackoverflow_with_credentials_update r c query :
  with_credentials (update_rate_limit r c) query = with_credentials c query.
Proof. reflexivity. Qed.

Lemma stackoverflow_throttled_state_eq url query r c w :
  throttled_state url query r c w =
  (update_rate_limit r c,
   mkWorld (clock w + seconds 60) (S (cursor w))
     (trace w ++
      [Get url query; Log WARNING "Rate limit exceeded, waiting...";
       Sleep (seconds 60)])).
Proof.
  unfold throttled_state, sleep, logging, emit, requested. cbn.
  now rewrite <- !app_assoc.
Qed.

Section Facts.

Variable service : nat -> reply.

Lemma stackoverflow_make_request_failed fuel endpoint query c w :
  service (cursor w) = Failed ->
  _make_request service (S fuel) endpoint query (c, w) =
  Some (Ret empty_envelope,
        (c, failure_logged
              (requested (BASE_URL ++ endpoint) (with_credentials c query) w))).
Proof. intros H. simpl. unfold session_get. now rewrite H. Qed.

Lemma stackoverflow_make_request_throttled fuel endpoint query c w r :
  service (cursor w) = Responded r -> status_code r = 429 ->
  _make_request service (S fuel) endpoint query (c, w) =
  _make_request service fuel endpoint (with_credentials c query)
    (throttled_state (BASE_URL ++ endpoint) (with_credentials c query) r c w).
Proof.
  intros H E. simpl. unfold session_get. rewrite H, E. reflexivity.
Qed.

Lemma stackoverflow_make_request_answered fuel endpoint query c w r :
  service (cursor w) = Responded r -> status_code r <> 429 ->
  _make_request service (S fuel) endpoint query (c, w) =
  let c1 := update_rate_limit r c in
  let w1 := requested (BASE_URL ++ endpoint) (with_credentials c query) w in
  if is_http_error (status_code r) then
    Some (Ret empty_envelope, (c1, failure_logged w1))
  else
    match decoded r with
    | Ret data => Some (Ret data, (c1, w1))
    | Raise e =>
        if is_request_exception e
        then Some (Ret empty_envelope, (c1, failure_logged w1))
        else Some (Raise e, (c1, w1))
    end.
Proof.
  intros H E. simpl. unfold session_get. rewrite H.
  apply Z.eqb_neq in E. rewrite E. reflexivity.
Qed.

Lemma stackoverflow_throttled_cursor url query r c w :
  cursor (snd (throttled_state url query r c w)) = S (cursor w).
Proof. reflexivity. Qed.

Lemma stackoverflow_make_request_within m : forall fuel endpoint query c w,
  (m < fuel)%nat ->
  throttling 429 (service (cursor w + m)) = false ->
  exists out s', _make_request service fuel endpoint query (c, w) = Some (out, s').
Proof.
  induction m as [|m IH]; intros fuel endpoint query c w Hlt Hm;
    (destruct fuel as [|fuel]; [lia|]).
  - rewrite Nat.add_0_r in Hm.
    destruct (service (cursor w)) as [r|] eqn:Hrep.
    + simpl in Hm. apply Z.eqb_neq in Hm.
      rewrite (stackoverflow_make_request_answered _ _ _ _ _ _ Hrep Hm). cbv zeta.
      destruct (is_http_error (status_code r)); [eauto|].
      destruct (decoded r) as [body|e]; [eauto|].
      destruct (is_request_exception e); eauto.
    + rewrite (stackoverflow_make_request_failed _ _ _ _ _ Hrep). eauto.
  - destruct (service (cursor w)) as [r|] eqn:Hrep.
    + destruct (Z.eq_dec (status_code r) 429) as [E|E].
      * rewrite (stackoverflow_make_request_throttled _ _ _ _ _ _ Hrep E).
        unfold throttled_state. apply IH; [lia|].
        simpl cursor.
        now replace (S (cursor w) + m)%nat with (cursor w + S m)%nat by lia.
      * rewrite (stackoverflow_make_request_answered _ _ _ _ _ _ Hrep E). cbv zeta.
        destruct (is_http_error (status_code r)); [eauto|].
        destruct (decoded r) as [body|e]; [eauto|].
        destruct (is_request_exception e); eauto.
    + rewrite (stackoverflow_make_request_failed _ _ _ _ _ Hrep). eauto.
Qed.

Lemma stackoverflow_make_request_total bound endpoint query s :
  relents 429 service bound ->
  exists out s', _make_request service bound endpoint query s = Some (out, s').
Proof.
  intros H. destruct s as [c w]. destruct (H (cursor w)) as [m [Hlt Hm]].
  now apply (stackoverflow_make_request_within m).
Qed.

Lemma stackoverflow_make_request_last fuel : forall endpoint query s out s',
  _make_request service fuel endpoint query s = Some (out, s') ->
  (cursor (snd s) < cursor (snd s'))%nat /\
  throttling 429 (service (pred (cursor (snd s')))) = false.
Proof.
  induction fuel as [|fuel IH]; intros endpoint query [c w] out s' H.
  - discriminate.
  - destruct (service (cursor w)) as [r|] eqn:Hrep.
    + destruct (Z.eq_dec (status_code r) 429) as [E|E].
      * rewrite (stackoverflow_make_request_throttled _ _ _ _ _ _ Hrep E) in H.
        apply IH in H. rewrite stackoverflow_throttled_cursor in H. simpl. split; [lia|tauto].
      * rewrite (stackoverflow_make_request_answered _ _ _ _ _ _ Hrep E) in H. cbv zeta in H.
        assert (Hs : cursor (snd s') = S (cursor w)).
        { destruct (is_http_error (status_code r)); [now inversion H|].
          destruct (decoded r) as [body|e]; [now inversion H|].
          destruct (is_request_exception e); now inversion H. }
        simpl. rewrite Hs. simpl. rewrite Hrep. simpl.
        split; [lia|]. now apply Z.eqb_neq.
    + rewrite (stackoverflow_make_request_failed _ _ _ _ _ Hrep) in H. inversion H. subst.
      simpl. rewrite Hrep. split; [lia|reflexivity].
Qed.

Lemma stackoverflow_make_request_starved fuel : forall endpoint query s,
  (forall n, throttling 429 (service n) = true) ->
  _make_request service fuel endpoint query s = None.
Proof.
  intros endpoint query s H.
  destruct (_make_request service fuel endpoint query s) as [[out s']|] eqn:E; auto.
  apply stackoverflow_make_request_last in E. destruct E as [_ E]. rewrite H in E. discriminate.
Qed.

Lemma stackoverflow_make_request_trace fuel : forall endpoint query s out s',
  _make_request service fuel endpoint query s = Some (out, s') ->
  exists rest,
    trace (snd s') =
    (trace (snd s) ++
     Get (BASE_URL ++ endpoint) (with_credentials (fst s) query) :: rest)%list.
Proof.
  induction fuel as [|fuel IH]; intros endpoint query [c w] out s' H.
  - discriminate.
  - destruct (service (cursor w)) as [r|] eqn:Hrep.
    + destruct (Z.eq_dec (status_code r) 429) as [E|E].
      * rewrite (stackoverflow_make_request_throttled _ _ _ _ _ _ Hrep E) in H.
        apply IH in H. destruct H as [rest H]. rewrite H. simpl.
        rewrite <- !app_assoc. simpl. eauto.
      * rewrite (stackoverflow_make_request_answered _ _ _ _ _ _ Hrep E) in H. cbv zeta in H.
        destruct (is_http_error (status_code r)).
        { inversion H. simpl. rewrite <- app_assoc. simpl. eauto. }
        destruct (decoded r) as [body|e].
        { inversion H. simpl. eauto. }
        destruct (is_request_exception e); inversion H; simpl;
          rewrite <- ?app_assoc; simpl; eauto.
    + rewrite (stackoverflow_make_request_failed _ _ _ _ _ Hrep) in H. inversion H. simpl.
      rewrite <- app_assoc. simpl. eauto.
Qed.

Lemma stackoverflow_make_request_last_failed fuel : forall endpoint query s out s',
  _make_request service fuel endpoint query s = Some (out, s') ->
  service (pred (cursor (snd s'))) = Failed ->
  out = Ret empty_envelope.
Proof.
  induction fuel as [|fuel IH]; intros endpoint query [c w] out s' H Hlast.
  - discriminate.
  - destruct (service (cursor w)) as [r|] eqn:Hrep.
    + destruct (Z.eq_dec (status_code r) 429) as [E|E].
      * rewrite (stackoverflow_make_request_throttled _ _ _ _ _ _ Hrep E) in H.
        now apply IH in H.
      * rewrite (stackoverflow_make_request_answered _ _ _ _ _ _ Hrep E) in H. cbv zeta in H.
        assert (Hs : cursor (snd s') = S (cursor w)).
        { destruct (is_http_error (status_code r)); [now inversion H|].
          destruct (decoded r) as [body|e]; [now inversion H|].
          destruct (is_request_exception e); now inversion H. }
        rewrite Hs in Hlast. simpl in Hlast. congruence.
    + rewrite (stackoverflow_make_request_failed _ _ _ _ _ Hrep) in H. now inversion H.
Qed.

End Facts.
End StackOverflowFacts.

(** ** The request function: throttling, failures, retries *)





(** C7. A [RequestException] does not leave [_make_request]: when
    [session.get] raises it, when [raise_for_status] raises it for an error
    status, or when it is the last thing that happens after any number of
    retries, the GitHub collector returns the empty mapping and the Stack
    Overflow collector the envelope with an empty list under ['items'],
    after one ERROR record in the log. *)
Theorem transport_failure_returns_default :
  (forall service fuel endpoint query c w,
     service (cursor w) = Failed ->
     GitHubCollector._make_request service (S fuel) endpoint query (c, w) =
     Some (Ret (JDict []),
           (c, mkWorld (clock w) (S (cursor w))
                 (trace w ++
                  [Get (GitHubCollector.BASE_URL ++ endpoint) query;
                   Log ERROR "API request failed: "])))) /\
  (forall service fuel endpoint query c w r,
     service (cursor w) = Responded r ->
     status_code r <> 403 -> is_http_error (status_code r) = true ->
     GitHubCollector._make_request service (S fuel) endpoint query (c, w) =
     Some (Ret (JDict []),
           (GitHubCollector.update_rate_limit r c,
            mkWorld (clock w) (S (cursor w))
              (trace w ++
               [Get (GitHubCollector.BASE_URL ++ endpoint) query;
                Log ERROR "API request failed: "])))) /\
  (forall service fuel endpoint query s out s',
     GitHubCollector._make_request service fuel endpoint query s = Some (out, s') ->
     service (pred (cursor (snd s'))) = Failed ->
     out = Ret (JDict [])) /\
  (forall service fuel endpoint query c w,
     service (cursor w) = Failed ->
     StackOverflowCollector._make_request service (S fuel) endpoint query (c, w) =
     Some (Ret (JDict [("items", JList []); ("has_more", JBool false)]),
           (c, mkWorld (clock w) (S (cursor w))
                 (trace w ++
                  [Get (StackOverflowCollector.BASE_URL ++ endpoint)
                     (StackOverflowCollector.with_credentials c query);
                   Log ERROR "API request failed: "])))) /\
  (forall service fuel endpoint query c w r,
     service (cursor w) = Responded r ->
     status_code r <> 429 -> is_http_error (status_code r) = true ->
     StackOverflowCollector._make_request service (S fuel) endpoint query (c, w) =
     Some (Ret (JDict [("items", JList []); ("has_more", JBool false)]),
           (StackOverflowCollector.update_rate_limit r c,
            mkWorld (clock w) (S (cursor w))
              (trace w ++
               [Get (StackOverflowCollector.BASE_URL ++ endpoint)
                  (StackOverflowCollector.with_credentials c query);
                Log ERROR "API request failed: "])))) /\
  (forall service fuel endpoint query s out s',
     StackOverflowCollector._make_request service fuel endpoint query s
       = Some (out, s') ->
     service (pred (cursor (snd s'))) = Failed ->
     out = Ret (JDict [("items", JList []); ("has_more", JBool false)])).
Proof.
  split; [|split; [|split; [|split; [|split]]]].
  - intros service fuel endpoint query c w H.
    rewrite (github_make_request_failed _ _ _ _ _ _ H).
    unfold GitHubCollector.failure_logged, logging, emit, requested. cbn.
    now rewrite <- app_assoc.
  - intros service fuel endpoint query c w r H E Herr.
    rewrite (github_make_request_answered _ _ _ _ _ _ _ H E). cbv zeta.
    rewrite Herr.
    unfold GitHubCollector.failure_logged, logging, emit, requested. cbn.
    now rewrite <- app_assoc.
  - intros service fuel endpoint query s out s'.
    apply github_make_request_last_failed.
  - intros service fuel endpoint query c w H.
    rewrite (stackoverflow_make_request_failed _ _ _ _ _ _ H).
    unfold StackOverflowCollector.failure_logged, logging, emit, requested. cbn.
    now rewrite <- app_assoc.
  - intros service fuel endpoint query c w r H E Herr.
    rewrite (stackoverflow_make_request_answered _ _ _ _ _ _ _ H E).
    cbv zeta. rewrite Herr.
    unfold StackOverflowCollector.failure_logged, logging, emit, requested. cbn.
    now rewrite <- app_assoc.
  - intros service fuel endpoint query s out s'.
    apply stackoverflow_make_request_last_failed.
Qed.

Lemma transport_failure_returns_default_witness :
  (Samples.unreachable (cursor Samples.w0) = Failed /\
   value_of
     (GitHubCollector._make_request Samples.unreachable 1
        "/search/repositories" [("q", JStr "rust")]
        (GitHubCollector.init None, Samples.w0)) = Some (Ret (JDict []))) /\
  (Samples.unreachable (cursor Samples.w0) = Failed /\
   value_of
     (StackOverflowCollector._make_request Samples.unreachable 1
        "/questions" [("tagged", JStr "rust")]
        (StackOverflowCollector.init None, Samples.w0)) =
   Some (Ret (JDict [("items", JList []); ("has_more", JBool false)]))).
Proof.
  split; (split; [reflexivity|]).
  - rewrite (proj1 transport_failure_returns_default Samples.unreachable 0%nat
               "/search/repositories" [("q", JStr "rust")]
               (GitHubCollector.init None) Samples.w0 eq_refl).
    reflexivity.
  - rewrite (proj1 (proj2 (proj2 (proj2 transport_failure_returns_default)))
               Samples.unreachable 0%nat "/questions" [("tagged", JStr "rust")]
               (StackOverflowCollector.init None) Samples.w0 eq_refl).
    reflexivity.
Defined.

(** ** A throttled call against an immediate answer *)

Lemma github_wait_at_least_60 c now :
  seconds 60 <= GitHubCollector.wait_micros c now.
Proof.
  unfold GitHubCollector.wait_micros.
  destruct (GitHubCollector.rate_limit_reset c); [apply Z.le_max_r|lia].
Qed.

Lemma github_throttle_then_answer service1 service2 fuel endpoint query c w1 w2 r1 r2 :
  service1 (cursor w1) = Responded r1 -> status_code r1 = 403 ->
  service1 (S (cursor w1)) = Responded r2 ->
  service2 (cursor w2) = Responded r2 ->
  status_code r2 <> 403 ->
  exists out w1' w2',
    GitHubCollector._make_request service1 (S (S fuel)) endpoint query (c, w1) =
      Some (out, (GitHubCollector.update_rate_limit r2
                    (GitHubCollector.update_rate_limit r1 c), w1')) /\
    GitHubCollector._make_request service2 (S fuel) endpoint query (c, w2) =
      Some (out, (GitHubCollector.update_rate_limit r2 c, w2')) /\
    clock w2' = clock w2 /\
    clock w1' =
      clock w1 + GitHubCollector.wait_micros
                   (GitHubCollector.update_rate_limit r1 c) (clock w1).
Proof.
  intros H1 E1 H2 H2' E2.
  rewrite (github_make_request_throttled _ _ _ _ _ _ _ H1 E1).
  rewrite github_throttled_state_eq.
  rewrite github_make_request_answered with (r := r2); [|exact H2|exact E2].
  rewrite (github_make_request_answered _ _ _ _ _ _ _ H2' E2).
  cbv zeta.
  destruct (is_http_error (status_code r2)).
  { do 3 eexists. repeat split. }
  destruct (json_body r2) as [body|e].
  { do 3 eexists. repeat split. }
  destruct (is_request_exception e); do 3 eexists; repeat split.
Qed.

Lemma stackoverflow_throttle_then_answer service1 service2 fuel endpoint query
    c w1 w2 r1 r2 :
  service1 (cursor w1) = Responded r1 -> status_code r1 = 429 ->
  service1 (S (cursor w1)) = Responded r2 ->
  service2 (cursor w2) = Responded r2 ->
  status_code r2 <> 429 ->
  exists out w1' w2',
    StackOverflowCollector._make_request service1 (S (S fuel)) endpoint query (c, w1) =
      Some (out, (StackOverflowCollector.update_rate_limit r2 c, w1')) /\
    StackOverflowCollector._make_request service2 (S fuel) endpoint query (c, w2) =
      Some (out, (StackOverflowCollector.update_rate_limit r2 c, w2')) /\
    clock w2' = clock w2 /\
    clock w1' = clock w1 + seconds 60.
Proof.
  intros H1 E1 H2 H2' E2.
  rewrite (stackoverflow_make_request_throttled _ _ _ _ _ _ _ H1 E1).
  rewrite stackoverflow_throttled_state_eq.
  rewrite stackoverflow_make_request_answered with (r := r2);
    [|exact H2|exact E2].
  rewrite (stackoverflow_make_request_answered _ _ _ _ _ _ _ H2' E2).
  cbv zeta.
  destruct (is_http_error (status_code r2)).
  { do 3 eexists. repeat split. }
  destruct (StackOverflowCollector.decoded r2) as [body|e].
  { do 3 eexists. repeat split. }
  destruct (is_request_exception e); do 3 eexists; repeat split.
Qed.




(** ** Batch methods: every key gets its entry *)

Lemma one_entry_per_key_intro {V} keys (d : dict V) :
  dict_keys d = uniq keys -> one_entry_per_key keys d.
Proof.
  intros H. unfold one_entry_per_key. rewrite H. repeat split.
  - apply NoDup_uniq.
  - apply In_uniq.
  - apply In_uniq.
  - apply uniq_NoDup.
Qed.

Lemma ends_ret {S A} (a : A) : ends (@ret S A a).
Proof. intros s. unfold ret. eauto. Qed.

Lemma ends_lift_res {S A} (r : res A) : ends (@lift_res S A r).
Proof. intros s. unfold lift_res. eauto. Qed.

Lemma ends_bind {S A B} (m : M S A) (k : A -> M S B) :
  ends m -> (forall a, ends (k a)) -> ends (bind m k).
Proof.
  intros Hm Hk s. unfold bind. destruct (Hm s) as [[a|e] [s' H]]; rewrite H.
  - apply Hk.
  - eauto.
Qed.

Lemma returns_ends {S A} (m : M S A) : returns m -> ends m.
Proof. intros H s. destruct (H s) as [a [s' E]]. eauto. Qed.

Lemma returns_bind {S A B} (m : M S A) (k : A -> M S B) :
  returns m -> (forall a, returns (k a)) -> returns (bind m k).
Proof.
  intros Hm Hk s. unfold bind. destruct (Hm s) as [a [s' H]]. rewrite H.
  apply Hk.
Qed.

Lemma returns_ret {S A} (a : A) : returns (@ret S A a).
Proof. intros s. unfold ret. eauto. Qed.

(** [try ... except Exception] lets no exception through. *)
Lemma returns_try_except {S A} (body : M S A) (handler : exn -> M S A) :
  ends body -> (forall e, returns (handler e)) ->
  returns (try_except body handler).
Proof.
  intros Hb Hh s. unfold try_except.
  destruct (Hb s) as [[a|e] [s' H]]; rewrite H; [eauto|apply Hh].
Qed.

Lemma batch_entries {S V} (step : string -> M S V) keys :
  (forall k, returns (step k)) ->
  forall s, exists d s',
    batch step keys [] s = Some (Ret d, s') /\ one_entry_per_key keys d.
Proof.
  intros Hstep s.
  destruct (batch_returns step Hstep keys [] s) as [d [s' [H K]]].
  exists d, s'. split; [exact H|]. apply one_entry_per_key_intro.
  rewrite K. simpl. apply filter_all. reflexivity.
Qed.

Lemma failure_isolated_intro {S V} (body : string -> M S (option V))
    (on_error : string -> M S unit) :
  (forall k, returns (on_error k)) ->
  failure_isolated body
    (fun k => try_except (body k) (fun _ => on_error k ;;; ret None)).
Proof.
  intros Herr pre k post acc s d1 s1 e s2 d s' Hpre Hbody Hall Hk.
  destruct (batch_failure_isolated body on_error Herr pre k post acc s
              d1 s1 e s2 d s' Hpre Hbody Hall) as [s3 [_ [_ H]]].
  auto.
Qed.

(** Decomposing a computation into its steps. *)
Ltac ends_step :=
  first
    [ apply ends_ret
    | apply ends_lift_res
    | apply ends_bind; [|intros]
    | match goal with
      | |- ends (if ?b then _ else _) => destruct b
      | |- ends (match ?o with Some _ => _ | None => _ end) => destruct o
      end
    | solve [intros ?; eexists; eexists; reflexivity] ].

Section GitHubBatches.
Import GitHubCollector.

Variable service : nat -> reply.
Variable strptime : string -> option Z.
Variable strftime : Z -> string.
Variable bound : nat.
Hypothesis service_relents : relents 403 service bound.

Lemma github_request_ends endpoint query :
  ends (_make_request service bound endpoint query).
Proof. intros s. now apply github_make_request_total. Qed.

Lemma language_try_ends language :
  ends (language_try service strptime strftime bound language).
Proof.
  unfold language_try, search_repositories.
  repeat first [apply github_request_ends | ends_step].
Qed.

Lemma language_step_returns language :
  returns (language_step service strptime strftime bound language).
Proof.
  apply returns_try_except; [apply language_try_ends|].
  intros e s. unfold bind, log, ret. eauto.
Qed.

Lemma popularity_try_ends tech :
  ends (popularity_try service strptime bound tech).
Proof.
  unfold popularity_try.
  repeat first [apply github_request_ends | ends_step].
Qed.

Lemma popularity_step_returns tech :
  returns (popularity_step service strptime bound tech).
Proof.
  apply returns_try_except; [apply popularity_try_ends|].
  intros e s. unfold bind, log, ret. eauto.
Qed.

End GitHubBatches.

Section StackOverflowBatches.
Import StackOverflowCollector.

Variable service : nat -> reply.
Variable bound : nat.
Hypothesis service_relents : relents 429 service bound.

Lemma stackoverflow_request_ends endpoint query :
  ends (_make_request service bound endpoint query).
Proof. intros s. now apply stackoverflow_make_request_total. Qed.

Lemma demand_try_ends tech : ends (demand_try service bound tech).
Proof.
  unfold demand_try, get_tag_questions.
  repeat first [apply stackoverflow_request_ends | ends_step].
Qed.

Lemma demand_step_returns tech : returns (demand_step service bound tech).
Proof.
  apply returns_try_except; [apply demand_try_ends|].
  intros e s. unfold bind, log, ret. eauto.
Qed.

End StackOverflowBatches.

Section TrendsBatches.
Import GoogleTrendsCollector.

Variable pytrends : nat -> pytrends_reply.

Lemma query_session_ends kw_list timeframe geo fetch :
  ends (query_session pytrends kw_list timeframe geo fetch).
Proof.
  intros w. unfold query_session. destruct (pytrends (cursor w)); eauto.
Qed.

(** [get_interest_over_time] and [get_interest_by_region] never raise. *)
Lemma get_interest_over_time_returns keywords timeframe geo :
  returns (get_interest_over_time pytrends keywords timeframe geo).
Proof.
  apply returns_try_except.
  - repeat first [apply query_session_ends | ends_step].
  - intros e s. unfold bind, log, ret. eauto.
Qed.

Lemma get_interest_by_region_returns keywords resolution timeframe :
  returns (get_interest_by_region pytrends keywords resolution timeframe).
Proof.
  apply returns_try_except.
  - repeat first [apply query_session_ends | ends_step].
  - intros e s. unfold bind, log, ret. eauto.
Qed.

Lemma periods_loop_returns tech todo :
  forall found, returns (periods_loop pytrends tech todo found).
Proof.
  induction todo as [|period rest IH]; intros found; simpl.
  - apply returns_ret.
  - apply returns_bind; [apply get_interest_over_time_returns|].
    intros df. apply returns_bind; [|intros _; apply IH].
    intros s. unfold time_sleep. eauto.
Qed.

Lemma trends_step_returns period_list tech :
  returns (trends_step pytrends period_list tech).
Proof.
  apply returns_try_except.
  - apply returns_ends. unfold trends_try.
    apply returns_bind; [intros s; unfold datetime_now; eauto|]. intros stamp.
    apply returns_bind; [apply periods_loop_returns|]. intros found.
    apply returns_bind; [intros s; unfold log; eauto|]. intros _.
    apply returns_ret.
  - intros e s. unfold bind, log, ret. eauto.
Qed.

End TrendsBatches.



(** ** The date cutoff *)

Section Cutoff.
Import GitHubCollector.

Variable strptime : string -> option Z.

Lemma newer_than_filter field cutoff repos : forall recent,
  newer_than strptime field cutoff repos = Ret recent ->
  recent = filter (strictly_after strptime field cutoff) repos.
Proof.
  induction repos as [|r rest IH]; simpl; intros recent H.
  - now inversion H.
  - unfold strictly_after at 1. unfold res_bind in H.
    destruct (parse_date strptime field r) as [t|e]; [|discriminate].
    destruct (newer_than strptime field cutoff rest) as [tl|e]; [|discriminate].
    inversion H. rewrite (IH tl eq_refl). reflexivity.
Qed.

Lemma newer_than_without field cutoff r : forall pre post recent,
  parse_date strptime field r = Ret cutoff ->
  newer_than strptime field cutoff (pre ++ r :: post) = Ret recent ->
  newer_than strptime field cutoff (pre ++ post) = Ret recent.
Proof.
  induction pre as [|a pre IH]; simpl; intros post recent Hr H.
  - unfold res_bind in H. rewrite Hr in H.
    destruct (newer_than strptime field cutoff post) as [tl|e]; [|discriminate].
    now rewrite Z.ltb_irrefl in H.
  - unfold res_bind in *.
    destruct (parse_date strptime field a) as [t|e]; [|discriminate].
    destruct (newer_than strptime field cutoff (pre ++ r :: post)) as [tl|e] eqn:E;
      [|discriminate].
    now rewrite (IH post tl Hr E).
Qed.

End Cutoff.

Section RecentCounts.
Import GitHubCollector.

Variable service : nat -> reply.
Variable strptime : string -> option Z.
Variable strftime : Z -> string.

Lemma language_try_recent fuel language s entry s' :
  language_try service strptime strftime fuel language s
    = Some (Ret (Some entry), s') ->
  exists items s1 recent,
    search_repositories service strftime fuel language 10 None s
      = Some (Ret (JList items), s1) /\
    newer_than strptime "created_at" (clock (snd s1) - days 30) items
      = Ret recent /\
    total_repos entry = List.length items /\
    recent_repos entry = List.length recent.
Proof.
  unfold language_try. unfold bind at 1. intros H.
  destruct (search_repositories service strftime fuel language 10 None s)
    as [[[repos|e] s1]|] eqn:Hsearch; try discriminate H.
  unfold bind at 1 in H.
  destruct (truthy repos) eqn:Htruthy.
  - unfold bind at 1, lift_res at 1 in H.
    destruct (py_iter_items repos) as [items|e] eqn:Hitems; try discriminate H.
    assert (repos = JList items) as ->.
    { destruct repos; simpl in Hitems; inversion Hitems; reflexivity. }
    unfold bind, lift_res, datetime_now, log, ret, get_rate_limit_remaining,
      time_sleep in H.
    destruct (py_sum_field "stargazers_count" items); try discriminate H.
    destruct (py_sum_field "forks_count" items); try discriminate H.
    destruct (py_sum_field "watchers_count" items); try discriminate H.
    cbn [fst snd clock logging emit] in H.
    destruct (newer_than strptime "created_at" (clock (snd s1) - days 30) items)
      as [recent|e] eqn:Hrecent; try discriminate H.
    cbn [fst snd] in H. exists items, s1, recent.
    destruct (rate_limit_remaining (fst s1) <? 10); inversion H;
      repeat split; auto.
  - unfold bind, ret, get_rate_limit_remaining, log, time_sleep in H.
    destruct (rate_limit_remaining (fst s1) <? 10); inversion H.
Qed.

Lemma popularity_try_recent fuel tech s entry s' :
  popularity_try service strptime fuel tech s = Some (Ret (Some entry), s') ->
  exists body items s1 recent,
    _make_request service fuel "/search/repositories" (popularity_params tech) s
      = Some (Ret body, s1) /\
    py_get body "items" (JList []) = Ret (JList items) /\
    newer_than strptime "updated_at" (clock (snd s1) - days 7) items
      = Ret recent /\
    repo_count entry = List.length items /\
    recent_activity entry = List.length recent.
Proof.
  unfold popularity_try. unfold bind at 1. intros H.
  destruct (_make_request service fuel "/search/repositories"
              (popularity_params tech) s)
    as [[[body|e] s1]|] eqn:Hreq; try discriminate H.
  unfold bind at 1, lift_res at 1 in H.
  destruct (py_get body "items" (JList [])) as [repos|e] eqn:Hget;
    try discriminate H.
  unfold bind at 1 in H.
  destruct (truthy repos) eqn:Htruthy.
  - unfold bind at 1, lift_res at 1 in H.
    destruct (py_iter_items repos) as [items|e] eqn:Hitems; try discriminate H.
    assert (repos = JList items) as ->.
    { destruct repos; simpl in Hitems; inversion Hitems; reflexivity. }
    unfold bind, lift_res, datetime_now, log, ret, time_sleep in H.
    destruct (py_sum_field "stargazers_count" items); try discriminate H.
    destruct (py_sum_field "forks_count" items); try discriminate H.
    destruct (py_sum_field "open_issues_count" items); try discriminate H.
    cbn [fst snd clock logging emit] in H.
    destruct (newer_than strptime "updated_at" (clock (snd s1) - days 7) items)
      as [recent|e] eqn:Hrecent; try discriminate H.
    cbn [fst snd] in H. exists body, items, s1, recent.
    inversion H; repeat split; auto.
  - unfold bind, ret, time_sleep in H. inversion H.
Qed.

End RecentCounts.

(** C4. The recency counts compare strictly.  [recent_repos] and
    [recent_activity] are the numbers of items whose parsed date is greater
    than the cutoff (the clock minus 30 and 7 days); an item whose date
    equals the cutoff is not among them, and taking it out of the response
    leaves the count as it was. *)
Theorem cutoff_item_is_not_recent :
  (forall strptime field cutoff repos recent,
     GitHubCollector.newer_than strptime field cutoff repos = Ret recent ->
     recent = filter (strictly_after strptime field cutoff) repos /\
     forall r, GitHubCollector.parse_date strptime field r = Ret cutoff ->
               ~ In r recent) /\
  (forall strptime field cutoff pre r post recent,
     GitHubCollector.parse_date strptime field r = Ret cutoff ->
     GitHubCollector.newer_than strptime field cutoff (pre ++ r :: post)
       = Ret recent ->
     GitHubCollector.newer_than strptime field cutoff (pre ++ post)
       = Ret recent) /\
  (forall service strptime strftime fuel language s entry s',
     GitHubCollector.language_try service strptime strftime fuel language s
       = Some (Ret (Some entry), s') ->
     exists items s1,
       GitHubCollector.search_repositories service strftime fuel language 10
         None s = Some (Ret (JList items), s1) /\
       GitHubCollector.recent_repos entry =
       List.length
         (filter (strictly_after strptime "created_at" (clock (snd s1) - days 30))
            items)) /\
  (forall service strptime fuel tech s entry s',
     GitHubCollector.popularity_try service strptime fuel tech s
       = Some (Ret (Some entry), s') ->
     exists body items s1,
       GitHubCollector._make_request service fuel "/search/repositories"
         (GitHubCollector.popularity_params tech) s = Some (Ret body, s1) /\
       py_get body "items" (JList []) = Ret (JList items) /\
       GitHubCollector.recent_activity entry =
       List.length
         (filter (strictly_after strptime "updated_at" (clock (snd s1) - days 7))
            items)).
Proof.
  split; [|split; [|split]].
  - intros strptime field cutoff repos recent H.
    apply newer_than_filter in H. split; [exact H|].
    intros r Hr Hin. rewrite H in Hin. apply filter_In in Hin.
    destruct Hin as [_ Hin]. unfold strictly_after in Hin.
    rewrite Hr, Z.ltb_irrefl in Hin. discriminate.
  - intros strptime field cutoff pre r post recent.
    apply newer_than_without.
  - intros service strptime strftime fuel language s entry s' H.
    apply language_try_recent in H.
    destruct H as [items [s1 [recent [Hsearch [Hrecent [_ Hcount]]]]]].
    exists items, s1. split; [exact Hsearch|].
    rewrite Hcount. now rewrite (newer_than_filter _ _ _ _ _ Hrecent).
  - intros service strptime fuel tech s entry s' H.
    apply popularity_try_recent in H.
    destruct H as [body [items [s1 [recent [Hreq [Hget [Hrecent [_ Hcount]]]]]]]].
    exists body, items, s1. split; [exact Hreq|]. split; [exact Hget|].
    rewrite Hcount. now rewrite (newer_than_filter _ _ _ _ _ Hrecent).
Qed.

Lemma cutoff_item_is_not_recent_witness :
  GitHubCollector.parse_date Samples.strptime "created_at"
    (Samples.repo 9 9 "2023-11-14T22:13:20Z") = Ret (Samples.noon - days 30) /\
  GitHubCollector.newer_than Samples.strptime "created_at"
    (Samples.noon - days 30)
    ([] ++ Samples.repo 9 9 "2023-11-14T22:13:20Z"
        :: [Samples.repo 5 2 "2023-11-14T22:13:21Z"])
    = Ret [Samples.repo 5 2 "2023-11-14T22:13:21Z"] /\
  GitHubCollector.newer_than Samples.strptime "created_at"
    (Samples.noon - days 30)
    ([] ++ [Samples.repo 5 2 "2023-11-14T22:13:21Z"])
    = Ret [Samples.repo 5 2 "2023-11-14T22:13:21Z"].
Proof.
  split; [reflexivity|]. split; [reflexivity|].
  apply (proj1 (proj2 cutoff_item_is_not_recent) Samples.strptime "created_at"
           (Samples.noon - days 30) []
           (Samples.repo 9 9 "2023-11-14T22:13:20Z")
           [Samples.repo 5 2 "2023-11-14T22:13:21Z"]);
    reflexivity.
Defined.

(** ** Null propagation *)

Lemma batch_records {S V} (step : string -> M S V) :
  forall pre k post acc s d1 s1 v s2 d s',
    batch step pre acc s = Some (Ret d1, s1) ->
    step k s1 = Some (Ret v, s2) ->
    batch step (pre ++ k :: post) acc s = Some (Ret d, s') ->
    ~ In k post ->
    dict_get k d = Some v.
Proof.
  intros pre k post acc s d1 s1 v s2 d s' Hpre Hstep Hall Hk.
  rewrite batch_app in Hall. unfold bind in Hall. rewrite Hpre in Hall.
  rewrite batch_cons, Hstep in Hall.
  rewrite (batch_untouched _ _ _ Hk _ _ _ _ Hall). apply dict_get_set_same.
Qed.

Lemma recorded_null_intro {S V} (step : string -> M S (option V))
    (cond : string -> S -> Prop) :
  (forall k s, cond k s -> exists s', step k s = Some (Ret None, s')) ->
  recorded_null step cond.
Proof.
  intros H pre k post acc s d1 s1 d s' Hpre Hcond Hall Hk.
  destruct (H k s1 Hcond) as [s2 Hstep].
  exact (batch_records step pre k post acc s d1 s1 None s2 d s'
           Hpre Hstep Hall Hk).
Qed.

Lemma language_step_empty service strptime strftime fuel language s :
  language_search_empty service strftime fuel language s ->
  exists s',
    GitHubCollector.language_step service strptime strftime fuel language s
      = Some (Ret None, s').
Proof.
  intros [body [s1 [Hreq Hitems]]].
  unfold GitHubCollector.language_step, try_except,
    GitHubCollector.language_try, GitHubCollector.search_repositories.
  unfold bind at 1. unfold bind at 1. rewrite Hreq.
  unfold bind, lift_res, ret, GitHubCollector.log,
    GitHubCollector.get_rate_limit_remaining, GitHubCollector.time_sleep.
  rewrite Hitems. cbn [py_len truthy List.length fst snd].
  destruct (GitHubCollector.rate_limit_remaining (fst s1) <? 10);
    eexists; reflexivity.
Qed.

Lemma popularity_step_empty service strptime fuel tech s :
  popularity_search_empty service fuel tech s ->
  exists s',
    GitHubCollector.popularity_step service strptime fuel tech s
      = Some (Ret None, s').
Proof.
  intros [body [s1 [Hreq Hitems]]].
  unfold GitHubCollector.popularity_step, try_except,
    GitHubCollector.popularity_try.
  unfold bind at 1. rewrite Hreq.
  unfold bind, lift_res, ret, GitHubCollector.log, GitHubCollector.time_sleep.
  rewrite Hitems. cbn [truthy]. eexists; reflexivity.
Qed.

Lemma demand_step_info_empty service fuel tech s :
  tag_info_empty service fuel tech s ->
  exists s',
    StackOverflowCollector.demand_step service fuel tech s = Some (Ret None, s').
Proof.
  intros [recent [s1 [body [s2 [Hq [Hreq Hitems]]]]]].
  unfold StackOverflowCollector.demand_step, try_except,
    StackOverflowCollector.demand_try.
  unfold bind at 1, StackOverflowCollector.datetime_now at 1.
  unfold bind at 1. rewrite Hq.
  unfold bind at 1. rewrite Hreq.
  unfold bind, lift_res, ret, StackOverflowCollector.log. rewrite Hitems.
  cbn [StackOverflowCollector.py_first]. eexists; reflexivity.
Qed.

(** With no recent question and a tag that is known, the Stack Overflow
    entry is a record of zeros: the averages divide by [max(len, 1)]. *)
Lemma demand_step_no_questions service fuel tech s s1 body s2 info rest :
  StackOverflowCollector.get_tag_questions service fuel tech
    (Some (clock (snd s) - days 7)) None 100 s = Some (Ret (JList []), s1) ->
  StackOverflowCollector._make_request service fuel
    ("/tags/" ++ tech ++ "/info") [] s1 = Some (Ret body, s2) ->
  py_get body "items" (JList [JDict []]) = Ret (JList (JDict info :: rest)) ->
  exists entry s',
    StackOverflowCollector.demand_step service fuel tech s
      = Some (Ret (Some entry), s') /\
    StackOverflowCollector.recent_questions entry = 0%nat /\
    StackOverflowCollector.avg_score entry = 0 # 1 /\
    StackOverflowCollector.avg_answers entry = 0 # 1 /\
    StackOverflowCollector.avg_views entry = 0 # 1.
Proof.
  intros Hq Hreq Hitems.
  unfold StackOverflowCollector.demand_step, try_except,
    StackOverflowCollector.demand_try.
  unfold bind at 1, StackOverflowCollector.datetime_now at 1.
  unfold bind at 1. rewrite Hq.
  unfold bind at 1. rewrite Hreq.
  unfold bind, lift_res, ret, StackOverflowCollector.log,
    StackOverflowCollector.datetime_now, StackOverflowCollector.time_sleep.
  rewrite Hitems.
  cbn [StackOverflowCollector.py_first py_get py_len
       StackOverflowCollector.py_iter py_sum_field sum_from List.length].
  do 2 eexists. split; [reflexivity|]. repeat split.
Qed.

(** C2, as the claim has it, fails for
    [StackOverflowCollector.get_tech_demand_metrics]: the questions request
    comes back with the empty envelope, the tag-info request with one item,
    and the entry of the key is a record with [recent_questions] 0 and the
    three averages 0, not null. *)
Lemma empty_questions_recorded_as_zero :
  Samples.questions_empty 0 =
    Responded (Samples.answer 200 (Some 100) None
                 (JDict [("items", JList []); ("has_more", JBool false)])) /\
  value_of
    (StackOverflowCollector.get_tech_demand_metrics Samples.questions_empty 1
       ["rust"] (StackOverflowCollector.init None, Samples.w0)) =
  Some (Ret [("rust",
              Some (StackOverflowCollector.mkDemandMetrics
                      (JInt 5) 0 (0 # 1) (0 # 1) (0 # 1) (JInt 1700000000)
                      Samples.noon))]).
Proof. split; reflexivity. Qed.

(** C2, amended.  In the two GitHub batch methods a key whose search comes
    back without items is recorded as null.  In
    [get_tech_demand_metrics] a key is recorded as null when its tag-info
    request comes back with an empty list of items; when only the questions
    request comes back empty, the entry is a record whose
    [recent_questions] and averages are 0. *)
Theorem empty_envelope_recorded_as_null :
  (forall service strptime strftime fuel,
     recorded_null
       (GitHubCollector.language_step service strptime strftime fuel)
       (language_search_empty service strftime fuel)) /\
  (forall service strptime fuel,
     recorded_null
       (GitHubCollector.popularity_step service strptime fuel)
       (popularity_search_empty service fuel)) /\
  (forall service fuel,
     recorded_null
       (StackOverflowCollector.demand_step service fuel)
       (tag_info_empty service fuel)) /\
  (forall service fuel tech s s1 body s2 info rest,
     StackOverflowCollector.get_tag_questions service fuel tech
       (Some (clock (snd s) - days 7)) None 100 s = Some (Ret (JList []), s1) ->
     StackOverflowCollector._make_request service fuel
       ("/tags/" ++ tech ++ "/info") [] s1 = Some (Ret body, s2) ->
     py_get body "items" (JList [JDict []]) = Ret (JList (JDict info :: rest)) ->
     exists entry s',
       StackOverflowCollector.demand_step service fuel tech s
         = Some (Ret (Some entry), s') /\
       StackOverflowCollector.recent_questions entry = 0%nat /\
       StackOverflowCollector.avg_score entry = 0 # 1 /\
       StackOverflowCollector.avg_answers entry = 0 # 1 /\
       StackOverflowCollector.avg_views entry = 0 # 1).
Proof.
  split; [|split; [|split]].
  - intros service strptime strftime fuel. apply recorded_null_intro.
    intros k s. apply language_step_empty.
  - intros service strptime fuel. apply recorded_null_intro.
    intros k s. apply popularity_step_empty.
  - intros service fuel. apply recorded_null_intro.
    intros k s. apply demand_step_info_empty.
  - intros service fuel tech s s1 body s2 info rest.
    apply demand_step_no_questions.
Qed.

Lemma empty_envelope_recorded_as_null_witness :
  language_search_empty Samples.unreachable Samples.strftime 1 "rust"
    (GitHubCollector.init None, Samples.w0) /\
  exists d s',
    batch (GitHubCollector.language_step Samples.unreachable Samples.strptime
             Samples.strftime 1)
      ([] ++ "rust" :: []) [] (GitHubCollector.init None, Samples.w0)
      = Some (Ret d, s') /\
    dict_get "rust" d = Some None.
Proof.
  assert (Hempty : language_search_empty Samples.unreachable Samples.strftime 1
                     "rust" (GitHubCollector.init None, Samples.w0)).
  { do 2 eexists. split; reflexivity. }
  split; [exact Hempty|].
  do 2 eexists. split; [reflexivity|].
  refine (proj1 empty_envelope_recorded_as_null Samples.unreachable
            Samples.strptime Samples.strftime 1%nat [] "rust" [] []
            (GitHubCollector.init None, Samples.w0) []
            (GitHubCollector.init None, Samples.w0) _ _ eq_refl Hempty eq_refl _).
  intros [].
Defined.

(** ** Google Trends: five keywords per payload *)

Section TrendsQueries.
Import GoogleTrendsCollector.

Variable pytrends : nat -> pytrends_reply.

Lemma get_interest_over_time_run keywords timeframe geo w :
  get_interest_over_time pytrends keywords timeframe geo w =
  Some (Ret (interest_frame (pytrends (cursor w))),
        mkWorld (clock w) (S (cursor w))
          (trace w ++
           BuildPayload (firstn 5 keywords) timeframe geo ::
           after_payload (pytrends (cursor w)) InterestOverTime
             ("Retrieved interest over time for "
              ++ str_of_nat (List.length keywords) ++ " keywords")
             "Error fetching interest over time: ")).
Proof.
  unfold get_interest_over_time, try_except, bind, query_session, log, ret,
    logging, emit.
  destruct (pytrends (cursor w)) as [e|e|df]; cbn [trace clock cursor];
    rewrite <- ?app_assoc; reflexivity.
Qed.

Lemma get_interest_by_region_run keywords resolution timeframe w :
  get_interest_by_region pytrends keywords resolution timeframe w =
  Some (Ret (match pytrends (cursor w) with
             | Fetched df => df
             | _ => empty_frame
             end),
        mkWorld (clock w) (S (cursor w))
          (trace w ++
           BuildPayload (firstn 5 keywords) timeframe "" ::
           after_payload (pytrends (cursor w)) (InterestByRegion resolution)
             ("Retrieved regional interest for "
              ++ str_of_nat (List.length keywords) ++ " keywords")
             "Error fetching regional interest: ")).
Proof.
  unfold get_interest_by_region, try_except, bind, query_session, log, ret,
    logging, emit.
  destruct (pytrends (cursor w)) as [e|e|df]; cbn [trace clock cursor];
    rewrite <- ?app_assoc; reflexivity.
Qed.

End TrendsQueries.

Lemma payloads_app t1 t2 : payloads (t1 ++ t2) = (payloads t1 ++ payloads t2)%list.
Proof.
  induction t1 as [|e t1 IH]; simpl; auto.
  destruct e; simpl; rewrite ?IH; reflexivity.
Qed.

Lemma complaints_app t1 t2 :
  complaints (t1 ++ t2) = (complaints t1 ++ complaints t2)%list.
Proof.
  induction t1 as [|e t1 IH]; simpl; auto.
  destruct e as [| |[| |] msg| | |]; simpl; rewrite ?IH; reflexivity.
Qed.

(** C10. Of a list of more than five keywords [get_interest_over_time] and
    [get_interest_by_region] put the first five in the payload and nothing
    else: the call returns (it never raises), exactly one payload is built,
    it holds the first five keywords, what comes back is what the call with
    those five alone gets, and when the session answers no ERROR or WARNING
    record is written. *)
Theorem long_keyword_lists_are_truncated :
  forall pytrends keywords timeframe geo resolution w,
    (5 < List.length keywords)%nat ->
    List.length (firstn 5 keywords) = 5%nat /\
    skipn 5 keywords <> [] /\
    (exists df w1,
       GoogleTrendsCollector.get_interest_over_time pytrends keywords
         timeframe geo w = Some (Ret df, w1) /\
       payloads (trace w1) = (payloads (trace w) ++ [firstn 5 keywords])%list /\
       cursor w1 = S (cursor w) /\
       value_of (GoogleTrendsCollector.get_interest_over_time pytrends
                   (firstn 5 keywords) timeframe geo w) = Some (Ret df) /\
       (forall answer, pytrends (cursor w) = GoogleTrendsCollector.Fetched answer ->
                       complaints (trace w1) = complaints (trace w))) /\
    (exists df w1,
       GoogleTrendsCollector.get_interest_by_region pytrends keywords
         resolution timeframe w = Some (Ret df, w1) /\
       payloads (trace w1) = (payloads (trace w) ++ [firstn 5 keywords])%list /\
       cursor w1 = S (cursor w) /\
       value_of (GoogleTrendsCollector.get_interest_by_region pytrends
                   (firstn 5 keywords) resolution timeframe w) = Some (Ret df) /\
       (forall answer, pytrends (cursor w) = GoogleTrendsCollector.Fetched answer ->
                       complaints (trace w1) = complaints (trace w))).
Proof.
  intros pytrends keywords timeframe geo resolution w Hlen.
  split; [rewrite length_firstn; lia|].
  split.
  { intros H. apply (f_equal (@List.length string)) in H.
    rewrite length_skipn in H. simpl in H. lia. }
  split.
  - rewrite get_interest_over_time_run. do 2 eexists. split; [reflexivity|].
    cbn [trace cursor]. repeat split.
    + rewrite payloads_app. simpl.
      now destruct (pytrends (cursor w)).
    + rewrite get_interest_over_time_run. reflexivity.
    + intros answer Hans. rewrite Hans, complaints_app. simpl.
      now rewrite app_nil_r.
  - rewrite get_interest_by_region_run. do 2 eexists. split; [reflexivity|].
    cbn [trace cursor]. repeat split.
    + rewrite payloads_app. simpl.
      now destruct (pytrends (cursor w)).
    + rewrite get_interest_by_region_run. reflexivity.
    + intros answer Hans. rewrite Hans, complaints_app. simpl.
      now rewrite app_nil_r.
Qed.

Lemma long_keyword_lists_are_truncated_witness :
  (5 < List.length Samples.seven)%nat /\
  exists df w1,
    GoogleTrendsCollector.get_interest_over_time Samples.session Samples.seven
      "today 12-m" "" Samples.w0 = Some (Ret df, w1) /\
    payloads (trace w1) = [["python"; "rust"; "go"; "java"; "ruby"]].
Proof.
  assert (Hlen : (5 < List.length Samples.seven)%nat) by (simpl; lia).
  split; [exact Hlen|].
  destruct (long_keyword_lists_are_truncated Samples.session Samples.seven
              "today 12-m" "" "COUNTRY" Samples.w0 Hlen)
    as [_ [_ [[df [w1 [Hrun [Hsent _]]]] _]]].
  exists df, w1. split; [exact Hrun|exact Hsent].
Defined.

(** ** Google Trends: comparing technologies chunk by chunk *)

Lemma In_dict_keys_set {V} (k t : string) (v : V) (d : dict V) :
  In k (dict_keys (dict_set t v d)) <-> In k (dict_keys d) \/ k = t.
Proof.
  rewrite dict_keys_set. destruct (mem t (dict_keys d)) eqn:E.
  - apply mem_In in E. split; [tauto|]. intros [H|H]; [exact H|now subst].
  - rewrite in_app_iff. simpl. intuition.
Qed.

Section TrendsChunks.
Import GoogleTrendsCollector.

Variable pytrends : nat -> pytrends_reply.

Lemma has_column_In k df : has_column k df = true <-> In k (columns df).
Proof. apply mem_In. Qed.

Lemma record_batch_keys df chunk : forall acc k,
  In k (dict_keys (record_batch df chunk acc)) <->
  In k (dict_keys acc) \/ (In k chunk /\ has_column k df = true).
Proof.
  induction chunk as [|tech rest IH]; intros acc k; simpl.
  - tauto.
  - rewrite IH. destruct (has_column tech df) eqn:E.
    + rewrite In_dict_keys_set. split.
      * intros [[H|H]|H]; [tauto| |tauto]. subst. tauto.
      * intros [H|[[H|H] Hc]]; [tauto| |tauto]. subst. tauto.
    + split; [tauto|]. intros [H|[[H|H] Hc]]; [tauto| |tauto].
      subst. congruence.
Qed.

Lemma chunk_found_keys rep chunk acc k :
  In k (dict_keys (chunk_found rep chunk acc)) <->
  In k (dict_keys acc) \/ (In k chunk /\ answered rep k = true).
Proof.
  unfold chunk_found, answered.
  destruct (is_empty (interest_frame rep)); simpl.
  - intuition discriminate.
  - apply record_batch_keys.
Qed.

Lemma compare_chunk_run timeframe geo chunk acc w :
  exists w',
    compare_chunk pytrends timeframe geo chunk acc w =
      Some (Ret (chunk_found (pytrends (cursor w)) chunk acc), w') /\
    cursor w' = S (cursor w) /\
    payloads (trace w') = (payloads (trace w) ++ [firstn 5 chunk])%list /\
    (forall answer, pytrends (cursor w) = Fetched answer ->
                    complaints (trace w') = complaints (trace w)).
Proof.
  unfold compare_chunk, try_except. unfold bind at 1.
  rewrite get_interest_over_time_run.
  unfold bind, time_sleep, ret, sleep. cbn [trace clock cursor].
  eexists. split; [reflexivity|]. cbn [trace cursor]. repeat split.
  - rewrite !payloads_app. simpl.
    destruct (pytrends (cursor w)); simpl; now rewrite app_nil_r.
  - intros answer Hans. rewrite Hans, !complaints_app. simpl.
    now rewrite !app_nil_r.
Qed.

End TrendsChunks.



(** ** Running twice *)

Section Simulation.

Context {S : Type} (RS : S -> S -> Prop).

Lemma sim_ret {A} (RA : A -> A -> Prop) a1 a2 s1 s2 :
  RA a1 a2 -> RS s1 s2 -> sim RS RA (ret a1 s1) (ret a2 s2).
Proof. intros. simpl. auto. Qed.

Lemma sim_lift_res {A} (RA : A -> A -> Prop) r1 r2 s1 s2 :
  res_rel RA r1 r2 -> RS s1 s2 -> sim RS RA (lift_res r1 s1) (lift_res r2 s2).
Proof. intros. simpl. auto. Qed.

Lemma sim_bind {A B} (RA : A -> A -> Prop) (RB : B -> B -> Prop)
    (m1 m2 : M S A) (k1 k2 : A -> M S B) s1 s2 :
  sim RS RA (m1 s1) (m2 s2) ->
  (forall a1 a2 t1 t2, RA a1 a2 -> RS t1 t2 -> sim RS RB (k1 a1 t1) (k2 a2 t2)) ->
  sim RS RB (bind m1 k1 s1) (bind m2 k2 s2).
Proof.
  intros Hm Hk. unfold bind.
  destruct (m1 s1) as [[[a1|e1] t1]|], (m2 s2) as [[[a2|e2] t2]|];
    simpl in Hm; try tauto.
  - destruct Hm. now apply Hk.
  - simpl. exact Hm.
Qed.

Lemma sim_try_except {A} (RA : A -> A -> Prop)
    (b1 b2 : M S A) (h1 h2 : exn -> M S A) s1 s2 :
  sim RS RA (b1 s1) (b2 s2) ->
  (forall e t1 t2, RS t1 t2 -> sim RS RA (h1 e t1) (h2 e t2)) ->
  sim RS RA (try_except b1 h1 s1) (try_except b2 h2 s2).
Proof.
  intros Hb Hh. unfold try_except.
  destruct (b1 s1) as [[[a1|e1] t1]|], (b2 s2) as [[[a2|e2] t2]|];
    simpl in Hb; try (simpl; tauto).
  destruct Hb as [-> Hs]. now apply Hh.
Qed.

End Simulation.

Lemma dict_map_set {V W} (f : V -> W) k v (d : dict V) :
  dict_map f (dict_set k v d) = dict_set k (f v) (dict_map f d).
Proof.
  induction d as [|[k' v'] d IH]; simpl; auto.
  destruct (String.eqb k k'); simpl; [reflexivity|]. now rewrite IH.
Qed.

Lemma agree_dict_set {V W} same_time (f : V -> W) k v1 v2 d1 d2 :
  agree same_time f v1 v2 ->
  agree same_time (dict_map f) d1 d2 ->
  agree same_time (dict_map f) (dict_set k v1 d1) (dict_set k v2 d2).
Proof.
  intros [Hv Hv'] [Hd Hd']. split.
  - now rewrite !dict_map_set, Hv, Hd.
  - intros H. now rewrite (Hv' H), (Hd' H).
Qed.

Lemma sim_batch {S V W} (RS : S -> S -> Prop) same_time (f : V -> W)
    (step1 step2 : string -> M S V) :
  (forall k t1 t2, RS t1 t2 ->
                   sim RS (agree same_time f) (step1 k t1) (step2 k t2)) ->
  forall keys acc1 acc2 s1 s2,
    agree same_time (dict_map f) acc1 acc2 -> RS s1 s2 ->
    sim RS (agree same_time (dict_map f))
      (batch step1 keys acc1 s1) (batch step2 keys acc2 s2).
Proof.
  intros Hstep keys. induction keys as [|k rest IH]; intros acc1 acc2 s1 s2 Ha Hs.
  - simpl. auto.
  - simpl batch. apply sim_bind with (RA := agree same_time f).
    + now apply Hstep.
    + intros v1 v2 t1 t2 Hv Ht. apply IH; [|exact Ht].
      now apply agree_dict_set.
Qed.

(** What a relation between two finished runs says about their values. *)
Lemma sim_values {S A B} (RS : S -> S -> Prop) same_time (f : A -> B) o1 o2 :
  sim RS (agree same_time f) o1 o2 ->
  option_map (res_map f) (value_of o1) = option_map (res_map f) (value_of o2) /\
  (same_time = true -> value_of o1 = value_of o2).
Proof.
  destruct o1 as [[[a1|e1] s1]|], o2 as [[[a2|e2] s2]|]; simpl; try tauto.
  - intros [[Hf He] _]. split; [now rewrite Hf|].
    intros H. now rewrite (He H).
  - intros [-> _]. auto.
Qed.

Lemma aligned_here service1 service2 i j :
  aligned service1 service2 i j -> service1 i = service2 j.
Proof. intros H. specialize (H 0%nat). now rewrite !Nat.add_0_r in H. Qed.

Lemma aligned_next service1 service2 i j :
  aligned service1 service2 i j -> aligned service1 service2 (S i) (S j).
Proof.
  intros H n. specialize (H (S n)). now rewrite <- !plus_n_Sm in H.
Qed.

Lemma res_rel_refl {A} (r : res A) : res_rel eq r r.
Proof. destruct r; reflexivity. Qed.

Lemma agree_refl {A B} same_time (f : A -> B) a : agree same_time f a a.
Proof. split; auto. Qed.

(** The comprehension of the recent items raises or not, and what it raises,
    whatever the cutoff. *)
Lemma newer_than_any_cutoff strptime field cutoff1 cutoff2 items :
  res_rel (fun _ _ => True)
    (GitHubCollector.newer_than strptime field cutoff1 items)
    (GitHubCollector.newer_than strptime field cutoff2 items).
Proof.
  induction items as [|r rest IH]; simpl; auto.
  unfold res_bind.
  destruct (GitHubCollector.parse_date strptime field r) as [t|e]; simpl; auto.
  destruct (GitHubCollector.newer_than strptime field cutoff1 rest),
    (GitHubCollector.newer_than strptime field cutoff2 rest); simpl in *; auto.
Qed.

Section GitHubRerun.
Import GitHubCollector.

Variables service1 service2 : nat -> reply.
Variable strptime : string -> option Z.
Variable strftime : Z -> string.
Variable same_time : bool.

Local Abbreviation RS := (@rerun_states collector service1 service2 same_time).

Lemma github_rerun_next c1 w1 c2 w2 c1' w1' c2' w2' :
  RS (c1, w1) (c2, w2) ->
  cursor w1' = S (cursor w1) -> cursor w2' = S (cursor w2) ->
  (c1 = c2 -> clock w1 = clock w2 -> c1' = c2' /\ clock w1' = clock w2') ->
  RS (c1', w1') (c2', w2').
Proof.
  intros [Ha Ht] E1 E2 Hsame. split; simpl in *.
  - rewrite E1, E2. now apply aligned_next.
  - intros H. destruct (Ht H). auto.
Qed.

Lemma github_rerun_stay (s1 s2 : state) w1' w2' :
  RS s1 s2 ->
  cursor w1' = cursor (snd s1) -> cursor w2' = cursor (snd s2) ->
  (clock (snd s1) = clock (snd s2) -> clock w1' = clock w2') ->
  RS (fst s1, w1') (fst s2, w2').
Proof.
  intros [Ha Ht] E1 E2 Hsame. split; simpl in *.
  - now rewrite E1, E2.
  - intros H. destruct (Ht H). auto.
Qed.

Lemma github_rerun_request fuel : forall endpoint query1 query2 s1 s2,
  RS s1 s2 ->
  sim RS eq (_make_request service1 fuel endpoint query1 s1)
            (_make_request service2 fuel endpoint query2 s2).
Proof.
  induction fuel as [|fuel IH]; intros endpoint query1 query2 [c1 w1] [c2 w2] HR.
  - exact I.
  - assert (Hrep : service1 (cursor w1) = service2 (cursor w2))
      by (apply aligned_here, HR).
    destruct (service1 (cursor w1)) as [r|] eqn:H1; symmetry in Hrep.
    + destruct (Z.eq_dec (status_code r) 403) as [E|E].
      * rewrite (github_make_request_throttled _ _ _ _ _ _ _ H1 E),
          (github_make_request_throttled _ _ _ _ _ _ _ Hrep E).
        rewrite !github_throttled_state_eq. apply IH.
        apply (github_rerun_next _ _ _ _ _ _ _ _ HR); try reflexivity.
        intros -> Hc. cbn [clock]. now rewrite Hc.
      * rewrite (github_make_request_answered _ _ _ _ _ _ _ H1 E),
          (github_make_request_answered _ _ _ _ _ _ _ Hrep E).
        cbv zeta.
        assert (HR' : forall w1' w2',
                   cursor w1' = S (cursor w1) -> cursor w2' = S (cursor w2) ->
                   clock w1' = clock w1 -> clock w2' = clock w2 ->
                   RS (update_rate_limit r c1, w1') (update_rate_limit r c2, w2')).
        { intros w1' w2' K1 K2 T1 T2.
          apply (github_rerun_next _ _ _ _ _ _ _ _ HR K1 K2).
          intros -> Hc. split; congruence. }
        destruct (is_http_error (status_code r)).
        { split; [reflexivity|]. now apply HR'. }
        destruct (json_body r) as [body|e].
        { split; [reflexivity|]. now apply HR'. }
        destruct (is_request_exception e);
          (split; [reflexivity|]; now apply HR').
    + rewrite (github_make_request_failed _ _ _ _ _ _ H1),
        (github_make_request_failed _ _ _ _ _ _ Hrep).
      split; [reflexivity|].
      apply (github_rerun_next _ _ _ _ _ _ _ _ HR); try reflexivity.
      intros -> Hc. auto.
Qed.

Lemma github_rerun_log lvl msg1 msg2 s1 s2 :
  RS s1 s2 -> sim RS (fun _ _ => True) (log lvl msg1 s1) (log lvl msg2 s2).
Proof.
  intros HR. split; [exact I|]. now apply github_rerun_stay.
Qed.

Lemma github_rerun_sleep d s1 s2 :
  RS s1 s2 -> sim RS (fun _ _ => True) (time_sleep d s1) (time_sleep d s2).
Proof.
  intros HR. split; [exact I|]. apply github_rerun_stay; auto.
  intros H. simpl. now rewrite H.
Qed.

Lemma github_rerun_now s1 s2 :
  RS s1 s2 ->
  sim RS (agree same_time (fun _ => tt)) (datetime_now s1) (datetime_now s2).
Proof.
  intros HR. split; [|exact HR]. split; [reflexivity|].
  intros H. now apply HR.
Qed.

Lemma github_rerun_remaining s1 s2 :
  RS s1 s2 ->
  sim RS (agree same_time (fun _ => tt))
    (get_rate_limit_remaining s1) (get_rate_limit_remaining s2).
Proof.
  intros HR. split; [|exact HR]. split; [reflexivity|].
  intros H. destruct HR as [_ Ht]. destruct (Ht H) as [Hc _]. now rewrite Hc.
Qed.

Lemma github_rerun_lift {A} (r : res A) s1 s2 :
  RS s1 s2 -> sim RS eq (lift_res r s1) (lift_res r s2).
Proof. intros HR. apply sim_lift_res; [apply res_rel_refl|exact HR]. Qed.

Lemma github_rerun_recent field cutoff1 cutoff2 items s1 s2 :
  (same_time = true -> cutoff1 = cutoff2) ->
  RS s1 s2 ->
  sim RS (agree same_time (fun _ => tt))
    (lift_res (newer_than strptime field cutoff1 items) s1)
    (lift_res (newer_than strptime field cutoff2 items) s2).
Proof.
  intros Hc HR. apply sim_lift_res; [|exact HR].
  pose proof (newer_than_any_cutoff strptime field cutoff1 cutoff2 items) as H.
  destruct (newer_than strptime field cutoff1 items) as [l1|e1] eqn:E1,
    (newer_than strptime field cutoff2 items) as [l2|e2] eqn:E2;
    simpl in *; auto.
  split; [reflexivity|]. intros Hst. rewrite (Hc Hst) in E1. congruence.
Qed.

(** Lines 157-159: the pause when the counter is low. *)
Lemma github_rerun_pause remaining1 remaining2 s1 s2 :
  agree same_time (fun _ => tt) remaining1 remaining2 ->
  RS s1 s2 ->
  sim RS (fun _ _ => True)
    ((if remaining1 <? 10
      then log WARNING "Approaching rate limit, pausing..." ;;;
           time_sleep (seconds 5)
      else ret tt) s1)
    ((if remaining2 <? 10
      then log WARNING "Approaching rate limit, pausing..." ;;;
           time_sleep (seconds 5)
      else ret tt) s2).
Proof.
  intros [_ Hr] [Ha Ht].
  destruct (remaining1 <? 10) eqn:E1, (remaining2 <? 10) eqn:E2;
    (split; [exact I|]); (split; [exact Ha|]);
    intros Hst; destruct (Ht Hst) as [Hc Hk]; rewrite (Hr Hst) in E1;
    try congruence; simpl; split; congruence.
Qed.

Lemma github_rerun_search fuel language min_stars created s1 s2 :
  RS s1 s2 ->
  sim RS eq
    (search_repositories service1 strftime fuel language min_stars created s1)
    (search_repositories service2 strftime fuel language min_stars created s2).
Proof.
  intros HR. unfold search_repositories.
  apply sim_bind with (RA := eq); [now apply github_rerun_request|].
  intros ? response t1 t2 -> Ht.
  apply sim_bind with (RA := eq); [now apply github_rerun_lift|].
  intros ? repos u1 u2 -> Hu.
  apply sim_bind with (RA := eq); [now apply github_rerun_lift|].
  intros ? n v1 v2 -> Hv.
  apply sim_bind with (RA := fun _ _ => True); [now apply github_rerun_log|].
  intros _ _ x1 x2 _ Hx. now apply sim_ret.
Qed.

Lemma github_rerun_language_try fuel language s1 s2 :
  RS s1 s2 ->
  sim RS (agree same_time (option_map timeless_language))
    (language_try service1 strptime strftime fuel language s1)
    (language_try service2 strptime strftime fuel language s2).
Proof.
  intros HR. unfold language_try.
  apply sim_bind with (RA := eq); [now apply github_rerun_search|].
  intros ? repos t1 t2 -> Ht.
  apply sim_bind with (RA := agree same_time (option_map timeless_language)).
  - destruct (truthy repos); [|apply sim_ret; [apply agree_refl|exact Ht]].
    apply sim_bind with (RA := eq); [now apply github_rerun_lift|].
    intros ? items a1 a2 -> Ha.
    apply sim_bind with (RA := eq); [now apply github_rerun_lift|].
    intros ? stars b1 b2 -> Hb.
    apply sim_bind with (RA := eq); [now apply github_rerun_lift|].
    intros ? forks c1 c2 -> Hc.
    apply sim_bind with (RA := eq); [now apply github_rerun_lift|].
    intros ? watchers d1 d2 -> Hd.
    apply sim_bind with (RA := agree same_time (fun _ => tt));
      [now apply github_rerun_now|].
    intros now1 now2 e1 e2 [_ Hnow] He.
    apply sim_bind with (RA := agree same_time (fun _ => tt)).
    { apply github_rerun_recent; [|exact He].
      intros Hst. now rewrite (Hnow Hst). }
    intros recent1 recent2 f1 f2 [_ Hrecent] Hf.
    apply sim_bind with (RA := agree same_time (fun _ => tt));
      [now apply github_rerun_now|].
    intros stamp1 stamp2 g1 g2 [_ Hstamp] Hg.
    apply sim_bind with (RA := fun _ _ => True); [now apply github_rerun_log|].
    intros _ _ h1 h2 _ Hh. apply sim_ret; [|exact Hh].
    split; [reflexivity|].
    intros Hst. now rewrite (Hrecent Hst), (Hstamp Hst).
  - intros entry1 entry2 u1 u2 Hentry Hu.
    apply sim_bind with (RA := agree same_time (fun _ => tt));
      [now apply github_rerun_remaining|].
    intros remaining1 remaining2 v1 v2 Hrem Hv.
    apply sim_bind with (RA := fun _ _ => True);
      [now apply github_rerun_pause|].
    intros _ _ x1 x2 _ Hx. now apply sim_ret.
Qed.

Lemma github_rerun_language_stats fuel languages s1 s2 :
  RS s1 s2 ->
  sim RS (agree same_time (dict_map (option_map timeless_language)))
    (get_language_stats service1 strptime strftime fuel languages s1)
    (get_language_stats service2 strptime strftime fuel languages s2).
Proof.
  intros HR. unfold get_language_stats.
  apply sim_bind with (RA := fun _ _ => True); [now apply github_rerun_log|].
  intros _ _ t1 t2 _ Ht.
  apply sim_batch; [|apply agree_refl|exact Ht].
  intros k u1 u2 Hu. unfold language_step.
  apply sim_try_except; [now apply github_rerun_language_try|].
  intros e v1 v2 Hv.
  apply sim_bind with (RA := fun _ _ => True); [now apply github_rerun_log|].
  intros _ _ x1 x2 _ Hx. apply sim_ret; [apply agree_refl|exact Hx].
Qed.

Lemma github_rerun_popularity_try fuel tech s1 s2 :
  RS s1 s2 ->
  sim RS (agree same_time (option_map timeless_popularity))
    (popularity_try service1 strptime fuel tech s1)
    (popularity_try service2 strptime fuel tech s2).
Proof.
  intros HR. unfold popularity_try.
  apply sim_bind with (RA := eq); [now apply github_rerun_request|].
  intros ? response t1 t2 -> Ht.
  apply sim_bind with (RA := eq); [now apply github_rerun_lift|].
  intros ? repos t3 t4 -> Ht'.
  apply sim_bind with (RA := agree same_time (option_map timeless_popularity)).
  - destruct (truthy repos); [|apply sim_ret; [apply agree_refl|exact Ht']].
    apply sim_bind with (RA := eq); [now apply github_rerun_lift|].
    intros ? items a1 a2 -> Ha.
    apply sim_bind with (RA := eq); [now apply github_rerun_lift|].
    intros ? stars b1 b2 -> Hb.
    apply sim_bind with (RA := eq); [now apply github_rerun_lift|].
    intros ? forks c1 c2 -> Hc.
    apply sim_bind with (RA := eq); [now apply github_rerun_lift|].
    intros ? issues d1 d2 -> Hd.
    apply sim_bind with (RA := agree same_time (fun _ => tt));
      [now apply github_rerun_now|].
    intros now1 now2 e1 e2 [_ Hnow] He.
    apply sim_bind with (RA := agree same_time (fun _ => tt)).
    { apply github_rerun_recent; [|exact He].
      intros Hst. now rewrite (Hnow Hst). }
    intros recent1 recent2 f1 f2 [_ Hrecent] Hf.
    apply sim_bind with (RA := agree same_time (fun _ => tt));
      [now apply github_rerun_now|].
    intros stamp1 stamp2 g1 g2 [_ Hstamp] Hg.
    apply sim_bind with (RA := fun _ _ => True); [now apply github_rerun_log|].
    intros _ _ h1 h2 _ Hh. apply sim_ret; [|exact Hh].
    split; [reflexivity|].
    intros Hst. now rewrite (Hrecent Hst), (Hstamp Hst).
  - intros entry1 entry2 u1 u2 Hentry Hu.
    apply sim_bind with (RA := fun _ _ => True); [now apply github_rerun_sleep|].
    intros _ _ x1 x2 _ Hx. now apply sim_ret.
Qed.

Lemma github_rerun_popularity_metrics fuel tech_list s1 s2 :
  RS s1 s2 ->
  sim RS (agree same_time (dict_map (option_map timeless_popularity)))
    (get_tech_popularity_metrics service1 strptime fuel tech_list s1)
    (get_tech_popularity_metrics service2 strptime fuel tech_list s2).
Proof.
  intros HR. unfold get_tech_popularity_metrics.
  apply sim_bind with (RA := fun _ _ => True); [now apply github_rerun_log|].
  intros _ _ t1 t2 _ Ht.
  apply sim_batch; [|apply agree_refl|exact Ht].
  intros k u1 u2 Hu. unfold popularity_step.
  apply sim_try_except; [now apply github_rerun_popularity_try|].
  intros e v1 v2 Hv.
  apply sim_bind with (RA := fun _ _ => True); [now apply github_rerun_log|].
  intros _ _ x1 x2 _ Hx. apply sim_ret; [apply agree_refl|exact Hx].
Qed.

End GitHubRerun.

Section StackOverflowRerun.
Import StackOverflowCollector.

Variables service1 service2 : nat -> reply.
Variable same_time : bool.

Local Abbreviation RS := (@rerun_states collector service1 service2 same_time).

Lemma stackoverflow_rerun_next c1 w1 c2 w2 c1' w1' c2' w2' :
  RS (c1, w1) (c2, w2) ->
  cursor w1' = S (cursor w1) -> cursor w2' = S (cursor w2) ->
  (c1 = c2 -> clock w1 = clock w2 -> c1' = c2' /\ clock w1' = clock w2') ->
  RS (c1', w1') (c2', w2').
Proof.
  intros [Ha Ht] E1 E2 Hsame. split; simpl in *.
  - rewrite E1, E2. now apply aligned_next.
  - intros H. destruct (Ht H). auto.
Qed.

Lemma stackoverflow_rerun_stay (s1 s2 : state) w1' w2' :
  RS s1 s2 ->
  cursor w1' = cursor (snd s1) -> cursor w2' = cursor (snd s2) ->
  (clock (snd s1) = clock (snd s2) -> clock w1' = clock w2') ->
  RS (fst s1, w1') (fst s2, w2').
Proof.
  intros [Ha Ht] E1 E2 Hsame. split; simpl in *.
  - now rewrite E1, E2.
  - intros H. destruct (Ht H). auto.
Qed.

Lemma stackoverflow_rerun_request fuel : forall endpoint query1 query2 s1 s2,
  RS s1 s2 ->
  sim RS eq (_make_request service1 fuel endpoint query1 s1)
            (_make_request service2 fuel endpoint query2 s2).
Proof.
  induction fuel as [|fuel IH]; intros endpoint query1 query2 [c1 w1] [c2 w2] HR.
  - exact I.
  - assert (Hrep : service1 (cursor w1) = service2 (cursor w2))
      by (apply aligned_here, HR).
    destruct (service1 (cursor w1)) as [r|] eqn:H1; symmetry in Hrep.
    + destruct (Z.eq_dec (status_code r) 429) as [E|E].
      * rewrite (stackoverflow_make_request_throttled _ _ _ _ _ _ _ H1 E),
          (stackoverflow_make_request_throttled _ _ _ _ _ _ _ Hrep E).
        rewrite !stackoverflow_throttled_state_eq. apply IH.
        apply (stackoverflow_rerun_next _ _ _ _ _ _ _ _ HR); try reflexivity.
        intros -> Hc. cbn [clock]. now rewrite Hc.
      * rewrite (stackoverflow_make_request_answered _ _ _ _ _ _ _ H1 E),
          (stackoverflow_make_request_answered _ _ _ _ _ _ _ Hrep E).
        cbv zeta.
        assert (HR' : forall w1' w2',
                   cursor w1' = S (cursor w1) -> cursor w2' = S (cursor w2) ->
                   clock w1' = clock w1 -> clock w2' = clock w2 ->
                   RS (update_rate_limit r c1, w1') (update_rate_limit r c2, w2')).
        { intros w1' w2' K1 K2 T1 T2.
          apply (stackoverflow_rerun_next _ _ _ _ _ _ _ _ HR K1 K2).
          intros -> Hc. split; congruence. }
        destruct (is_http_error (status_code r)).
        { split; [reflexivity|]. now apply HR'. }
        destruct (decoded r) as [body|e].
        { split; [reflexivity|]. now apply HR'. }
        destruct (is_request_exception e);
          (split; [reflexivity|]; now apply HR').
    + rewrite (stackoverflow_make_request_failed _ _ _ _ _ _ H1),
        (stackoverflow_make_request_failed _ _ _ _ _ _ Hrep).
      split; [reflexivity|].
      apply (stackoverflow_rerun_next _ _ _ _ _ _ _ _ HR); try reflexivity.
      intros -> Hc. auto.
Qed.

Lemma stackoverflow_rerun_log lvl msg1 msg2 s1 s2 :
  RS s1 s2 -> sim RS (fun _ _ => True) (log lvl msg1 s1) (log lvl msg2 s2).
Proof.
  intros HR. split; [exact I|]. now apply stackoverflow_rerun_stay.
Qed.

Lemma stackoverflow_rerun_sleep d s1 s2 :
  RS s1 s2 -> sim RS (fun _ _ => True) (time_sleep d s1) (time_sleep d s2).
Proof.
  intros HR. split; [exact I|]. apply stackoverflow_rerun_stay; auto.
  intros H. simpl. now rewrite H.
Qed.

Lemma stackoverflow_rerun_now s1 s2 :
  RS s1 s2 ->
  sim RS (agree same_time (fun _ => tt)) (datetime_now s1) (datetime_now s2).
Proof.
  intros HR. split; [|exact HR]. split; [reflexivity|].
  intros H. now apply HR.
Qed.

Lemma stackoverflow_rerun_lift {A} (r : res A) s1 s2 :
  RS s1 s2 -> sim RS eq (lift_res r s1) (lift_res r s2).
Proof. intros HR. apply sim_lift_res; [apply res_rel_refl|exact HR]. Qed.

(** The window of the questions request moves with the clock; the replies
    of the service are taken as they come. *)
Lemma stackoverflow_rerun_questions fuel tag from1 from2 page_size s1 s2 :
  RS s1 s2 ->
  sim RS eq
    (get_tag_questions service1 fuel tag (Some from1) None page_size s1)
    (get_tag_questions service2 fuel tag (Some from2) None page_size s2).
Proof.
  intros HR. unfold get_tag_questions.
  apply sim_bind with (RA := fun _ _ => True); [now apply sim_ret|].
  intros d1 d2 t1 t2 _ Ht.
  apply sim_bind with (RA := agree same_time (fun _ => tt));
    [now apply stackoverflow_rerun_now|].
  intros to1 to2 u1 u2 _ Hu.
  apply sim_bind with (RA := eq); [now apply stackoverflow_rerun_request|].
  intros ? response v1 v2 -> Hv.
  apply sim_bind with (RA := eq); [now apply stackoverflow_rerun_lift|].
  intros ? questions x1 x2 -> Hx.
  apply sim_bind with (RA := eq); [now apply stackoverflow_rerun_lift|].
  intros ? n y1 y2 -> Hy.
  apply sim_bind with (RA := fun _ _ => True);
    [now apply stackoverflow_rerun_log|].
  intros _ _ z1 z2 _ Hz. now apply sim_ret.
Qed.

Lemma stackoverflow_rerun_demand_try fuel tech s1 s2 :
  RS s1 s2 ->
  sim RS (agree same_time (option_map timeless_demand))
    (demand_try service1 fuel tech s1) (demand_try service2 fuel tech s2).
Proof.
  intros HR. unfold demand_try.
  apply sim_bind with (RA := agree same_time (fun _ => tt));
    [now apply stackoverflow_rerun_now|].
  intros now1 now2 a1 a2 _ Ha.
  apply sim_bind with (RA := eq); [now apply stackoverflow_rerun_questions|].
  intros ? recent b1 b2 -> Hb.
  apply sim_bind with (RA := eq); [now apply stackoverflow_rerun_request|].
  intros ? tag_info_response c1 c2 -> Hc.
  apply sim_bind with (RA := eq); [now apply stackoverflow_rerun_lift|].
  intros ? items d1 d2 -> Hd.
  apply sim_bind with (RA := eq); [now apply stackoverflow_rerun_lift|].
  intros ? tag_info e1 e2 -> He.
  apply sim_bind with (RA := eq); [now apply stackoverflow_rerun_lift|].
  intros ? count f1 f2 -> Hf.
  apply sim_bind with (RA := eq); [now apply stackoverflow_rerun_lift|].
  intros ? n g1 g2 -> Hg.
  apply sim_bind with (RA := eq); [now apply stackoverflow_rerun_lift|].
  intros ? questions h1 h2 -> Hh.
  apply sim_bind with (RA := eq); [now apply stackoverflow_rerun_lift|].
  intros ? score i1 i2 -> Hi.
  apply sim_bind with (RA := eq); [now apply stackoverflow_rerun_lift|].
  intros ? answers j1 j2 -> Hj.
  apply sim_bind with (RA := eq); [now apply stackoverflow_rerun_lift|].
  intros ? views k1 k2 -> Hk.
  apply sim_bind with (RA := eq); [now apply stackoverflow_rerun_lift|].
  intros ? activity l1 l2 -> Hl.
  apply sim_bind with (RA := agree same_time (fun _ => tt));
    [now apply stackoverflow_rerun_now|].
  intros stamp1 stamp2 m1 m2 [_ Hstamp] Hm.
  apply sim_bind with (RA := fun _ _ => True);
    [now apply stackoverflow_rerun_log|].
  intros _ _ n1 n2 _ Hn.
  apply sim_bind with (RA := fun _ _ => True);
    [now apply stackoverflow_rerun_sleep|].
  intros _ _ o1 o2 _ Ho. apply sim_ret; [|exact Ho].
  split; [reflexivity|]. intros Hst. now rewrite (Hstamp Hst).
Qed.

Lemma stackoverflow_rerun_demand_metrics fuel tech_list s1 s2 :
  RS s1 s2 ->
  sim RS (agree same_time (dict_map (option_map timeless_demand)))
    (get_tech_demand_metrics service1 fuel tech_list s1)
    (get_tech_demand_metrics service2 fuel tech_list s2).
Proof.
  intros HR. unfold get_tech_demand_metrics.
  apply sim_bind with (RA := fun _ _ => True);
    [now apply stackoverflow_rerun_log|].
  intros _ _ t1 t2 _ Ht.
  apply sim_batch; [|apply agree_refl|exact Ht].
  intros k u1 u2 Hu. unfold demand_step.
  apply sim_try_except; [now apply stackoverflow_rerun_demand_try|].
  intros e v1 v2 Hv.
  apply sim_bind with (RA := fun _ _ => True);
    [now apply stackoverflow_rerun_log|].
  intros _ _ x1 x2 _ Hx. apply sim_ret; [apply agree_refl|exact Hx].
Qed.

End StackOverflowRerun.




(* ================================================================= *)
(** * Further properties of the collectors *)

(** ** What a finished request leaves behind *)

Lemma requests_app t1 t2 : requests (t1 ++ t2) = (requests t1 ++ requests t2)%list.
Proof.
  induction t1 as [|e t1 IH]; simpl; auto.
  destruct e; simpl; rewrite ?IH; reflexivity.
Qed.

Section GitHubCalls.
Import GitHubCollector.

Variable service : nat -> reply.

Lemma github_call_state fuel : forall endpoint query s out s',
  _make_request service fuel endpoint query s = Some (out, s') ->
  (forall r, service (pred (cursor (snd s'))) = Responded r ->
             rate_limit_remaining (fst s') = remaining_header r /\
             (forall t, x_ratelimit_reset r = Some t ->
                        rate_limit_reset (fst s') = Some t)) /\
  (rate_limit_reset (fst s) <> None -> rate_limit_reset (fst s') <> None) /\
  token (fst s') = token (fst s).
Proof.
  induction fuel as [|fuel IH]; intros endpoint query [c w] out s' H.
  - discriminate.
  - destruct (service (cursor w)) as [r|] eqn:Hrep.
    + destruct (Z.eq_dec (status_code r) 403) as [E|E].
      * rewrite (github_make_request_throttled _ _ _ _ _ _ _ Hrep E) in H.
        rewrite github_throttled_state_eq in H.
        apply IH in H. destruct H as [Hlast [Hreset Htoken]].
        split; [exact Hlast|]. split; [|exact Htoken].
        intros Hknown. apply Hreset. cbn.
        destruct (x_ratelimit_reset r); [discriminate|exact Hknown].
      * rewrite (github_make_request_answered _ _ _ _ _ _ _ Hrep E) in H.
        cbv zeta in H.
        assert (Hs : exists w', s' = (update_rate_limit r c, w') /\
                                cursor w' = S (cursor w)).
        { destruct (is_http_error (status_code r));
            [inversion H; eexists; split; reflexivity|].
          destruct (json_body r) as [body|e];
            [inversion H; eexists; split; reflexivity|].
          destruct (is_request_exception e); inversion H;
            eexists; split; reflexivity. }
        destruct Hs as [w' [-> Hc]]. cbn [fst snd]. rewrite Hc. cbn [pred].
        rewrite Hrep. split; [|split].
        { intros r0 Hr0. inversion Hr0. subst r0. split; [reflexivity|].
          intros t Ht. cbn. now rewrite Ht. }
        { intros Hknown. cbn.
          destruct (x_ratelimit_reset r); [discriminate|exact Hknown]. }
        { reflexivity. }
    + rewrite (github_make_request_failed _ _ _ _ _ _ Hrep) in H.
      inversion H. subst. cbn. rewrite Hrep.
      split; [intros r0 Hr0; discriminate|]. split; auto.
Qed.

(** The replies a call consumes before its last one are all 403s; it sends
    the same request once per reply, and each 403 costs at least 60 s. *)
Lemma github_call_cost fuel : forall endpoint query s out s',
  _make_request service fuel endpoint query s = Some (out, s') ->
  (forall n, (cursor (snd s) <= n < pred (cursor (snd s')))%nat ->
             throttling 403 (service n) = true) /\
  (exists added,
     trace (snd s') = (trace (snd s) ++ added)%list /\
     requests added =
       repeat (BASE_URL ++ endpoint, query)
         (cursor (snd s') - cursor (snd s))) /\
  clock (snd s) +
    seconds 60 * Z.of_nat (cursor (snd s') - cursor (snd s) - 1)
    <= clock (snd s').
Proof.
  induction fuel as [|fuel IH]; intros endpoint query [c w] out s' H.
  - discriminate.
  - destruct (service (cursor w)) as [r|] eqn:Hrep.
    + destruct (Z.eq_dec (status_code r) 403) as [E|E].
      * rewrite (github_make_request_throttled _ _ _ _ _ _ _ Hrep E) in H.
        rewrite github_throttled_state_eq in H.
        pose proof (github_make_request_last _ _ _ _ _ _ _ H) as [Hlt _].
        apply IH in H. cbn [fst snd cursor trace clock] in *.
        destruct H as [Hthr [[added [Htr Hreq]] Hclock]].
        split; [|split].
        { intros n Hn. destruct (Nat.eq_dec n (cursor w)) as [->|Hne].
          - rewrite Hrep. simpl. now apply Z.eqb_eq.
          - apply Hthr. lia. }
        { eexists. split.
          - rewrite Htr, <- app_assoc. reflexivity.
          - simpl. rewrite Hreq.
            replace (cursor (snd s') - cursor w)%nat
              with (S (cursor (snd s') - S (cursor w))) by lia.
            reflexivity. }
        { pose proof (github_wait_at_least_60 (update_rate_limit r c) (clock w)).
          replace (Z.of_nat (cursor (snd s') - cursor w - 1))
            with (1 + Z.of_nat (cursor (snd s') - S (cursor w) - 1)) by lia.
          lia. }
      * rewrite (github_make_request_answered _ _ _ _ _ _ _ Hrep E) in H.
        cbv zeta in H.
        assert (Hs : exists tail,
                   snd s' = mkWorld (clock w) (S (cursor w))
                              (trace w ++ Get (BASE_URL ++ endpoint) query :: tail)
                   /\ requests tail = []).
        { unfold failure_logged, logging, emit, requested in H.
          cbn [trace clock cursor] in H.
          destruct (is_http_error (status_code r)).
          { inversion H. cbn. rewrite <- app_assoc. eexists. split; reflexivity. }
          destruct (json_body r) as [body|e].
          { inversion H. cbn. exists []. split; reflexivity. }
          destruct (is_request_exception e); inversion H; cbn.
          - rewrite <- app_assoc. eexists. split; reflexivity.
          - exists []. split; reflexivity. }
        destruct Hs as [tail [Hs Htail]]. rewrite Hs. cbn [fst snd cursor trace clock].
        split; [intros n Hn; simpl in Hn; lia|]. split.
        { eexists. split; [reflexivity|].
          replace (S (cursor w) - cursor w)%nat with 1%nat by lia.
          simpl. now rewrite Htail. }
        { replace (S (cursor w) - cursor w - 1)%nat with 0%nat by lia. lia. }
    + rewrite (github_make_request_failed _ _ _ _ _ _ Hrep) in H.
      inversion H. subst. unfold failure_logged, logging, emit, requested.
      cbn [fst snd cursor trace clock].
      split; [intros n Hn; simpl in Hn; lia|]. split.
      { eexists. split; [rewrite <- app_assoc; reflexivity|].
        now replace (S (cursor w) - cursor w)%nat with 1%nat by lia. }
      { replace (S (cursor w) - cursor w - 1)%nat with 0%nat by lia. lia. }
Qed.

End GitHubCalls.

Section StackOverflowCalls.
Import StackOverflowCollector.

Variable service : nat -> reply.

Lemma stackoverflow_call_state fuel : forall endpoint query s out s',
  _make_request service fuel endpoint query s = Some (out, s') ->
  (forall r, service (pred (cursor (snd s'))) = Responded r ->
             rate_limit_remaining (fst s') = remaining_header r) /\
  rate_limit_reset (fst s') = rate_limit_reset (fst s) /\
  api_key (fst s') = api_key (fst s).
Proof.
  induction fuel as [|fuel IH]; intros endpoint query [c w] out s' H.
  - discriminate.
  - destruct (service (cursor w)) as [r|] eqn:Hrep.
    + destruct (Z.eq_dec (status_code r) 429) as [E|E].
      * rewrite (stackoverflow_make_request_throttled _ _ _ _ _ _ _ Hrep E) in H.
        rewrite stackoverflow_throttled_state_eq in H.
        apply IH in H. exact H.
      * rewrite (stackoverflow_make_request_answered _ _ _ _ _ _ _ Hrep E) in H.
        cbv zeta in H.
        assert (Hs : exists w', s' = (update_rate_limit r c, w') /\
                                cursor w' = S (cursor w)).
        { destruct (is_http_error (status_code r));
            [inversion H; eexists; split; reflexivity|].
          destruct (decoded r) as [body|e];
            [inversion H; eexists; split; reflexivity|].
          destruct (is_request_exception e); inversion H;
            eexists; split; reflexivity. }
        destruct Hs as [w' [-> Hc]]. cbn [fst snd]. rewrite Hc. cbn [pred].
        rewrite Hrep. split; [|split; reflexivity].
        intros r0 Hr0. inversion Hr0. reflexivity.
    + rewrite (stackoverflow_make_request_failed _ _ _ _ _ _ Hrep) in H.
      inversion H. subst. cbn. rewrite Hrep.
      split; [intros r0 Hr0; discriminate|]. split; reflexivity.
Qed.

Lemma stackoverflow_call_cost fuel : forall endpoint query s out s',
  _make_request service fuel endpoint query s = Some (out, s') ->
  (forall n, (cursor (snd s) <= n < pred (cursor (snd s')))%nat ->
             throttling 429 (service n) = true) /\
  (exists added,
     trace (snd s') = (trace (snd s) ++ added)%list /\
     requests added =
       repeat (BASE_URL ++ endpoint, with_credentials (fst s) query)
         (cursor (snd s') - cursor (snd s))) /\
  clock (snd s') =
    clock (snd s) +
    seconds 60 * Z.of_nat (cursor (snd s') - cursor (snd s) - 1).
Proof.
  induction fuel as [|fuel IH]; intros endpoint query [c w] out s' H.
  - discriminate.
  - destruct (service (cursor w)) as [r|] eqn:Hrep.
    + destruct (Z.eq_dec (status_code r) 429) as [E|E].
      * rewrite (stackoverflow_make_request_throttled _ _ _ _ _ _ _ Hrep E) in H.
        rewrite stackoverflow_throttled_state_eq in H.
        pose proof (stackoverflow_make_request_last _ _ _ _ _ _ _ H) as [Hlt _].
        apply IH in H. cbn [fst snd cursor trace clock] in *.
        rewrite stackoverflow_with_credentials_update,
          stackoverflow_with_credentials_again in H.
        destruct H as [Hthr [[added [Htr Hreq]] Hclock]].
        split; [|split].
        { intros n Hn. destruct (Nat.eq_dec n (cursor w)) as [->|Hne].
          - rewrite Hrep. simpl. now apply Z.eqb_eq.
          - apply Hthr. lia. }
        { eexists. split.
          - rewrite Htr, <- app_assoc. reflexivity.
          - simpl. rewrite Hreq.
            replace (cursor (snd s') - cursor w)%nat
              with (S (cursor (snd s') - S (cursor w))) by lia.
            reflexivity. }
        { rewrite Hclock.
          replace (Z.of_nat (cursor (snd s') - cursor w - 1))
            with (1 + Z.of_nat (cursor (snd s') - S (cursor w) - 1)) by lia.
          lia. }
      * rewrite (stackoverflow_make_request_answered _ _ _ _ _ _ _ Hrep E) in H.
        cbv zeta in H.
        assert (Hs : exists tail,
                   snd s' = mkWorld (clock w) (S (cursor w))
                              (trace w ++
                               Get (BASE_URL ++ endpoint)
                                 (with_credentials c query) :: tail)
                   /\ requests tail = []).
        { unfold failure_logged, logging, emit, requested in H.
          cbn [trace clock cursor] in H.
          destruct (is_http_error (status_code r)).
          { inversion H. cbn. rewrite <- app_assoc. eexists. split; reflexivity. }
          destruct (decoded r) as [body|e].
          { inversion H. cbn. exists []. split; reflexivity. }
          destruct (is_request_exception e); inversion H; cbn.
          - rewrite <- app_assoc. eexists. split; reflexivity.
          - exists []. split; reflexivity. }
        destruct Hs as [tail [Hs Htail]]. rewrite Hs.
        cbn [fst snd cursor trace clock].
        split; [intros n Hn; simpl in Hn; lia|]. split.
        { eexists. split; [reflexivity|].
          replace (S (cursor w) - cursor w)%nat with 1%nat by lia.
          simpl. now rewrite Htail. }
        { replace (S (cursor w) - cursor w - 1)%nat with 0%nat by lia. lia. }
    + rewrite (stackoverflow_make_request_failed _ _ _ _ _ _ Hrep) in H.
      inversion H. subst. unfold failure_logged, logging, emit, requested.
      cbn [fst snd cursor trace clock].
      split; [intros n Hn; simpl in Hn; lia|]. split.
      { eexists. split; [rewrite <- app_assoc; reflexivity|].
        now replace (S (cursor w) - cursor w)%nat with 1%nat by lia. }
      { replace (S (cursor w) - cursor w - 1)%nat with 0%nat by lia. lia. }
Qed.

End StackOverflowCalls.

(** What lines 46-49 do to the parameters of the caller. *)
Lemma with_credentials_site c query :
  dict_get "site" (StackOverflowCollector.with_credentials c query)
    = Some (JStr "stackoverflow").
Proof. unfold StackOverflowCollector.with_credentials. apply dict_get_set_same. Qed.

Lemma with_credentials_key c query key :
  StackOverflowCollector.api_key c = Some key -> key <> "" ->
  dict_get "key" (StackOverflowCollector.with_credentials c query)
    = Some (JStr key).
Proof.
  intros Hk Hne. unfold StackOverflowCollector.with_credentials. rewrite Hk.
  apply String.eqb_neq in Hne. rewrite Hne.
  rewrite dict_get_set_other by discriminate. apply dict_get_set_same.
Qed.

Lemma with_credentials_no_key c query :
  StackOverflowCollector.api_key c = None \/
  StackOverflowCollector.api_key c = Some "" ->
  dict_get "key" (StackOverflowCollector.with_credentials c query)
    = dict_get "key" query.
Proof.
  intros H. unfold StackOverflowCollector.with_credentials.
  destruct H as [-> | ->]; simpl; now rewrite dict_get_set_other by discriminate.
Qed.

Lemma with_credentials_other c query k :
  k <> "site" -> k <> "key" ->
  dict_get k (StackOverflowCollector.with_credentials c query) = dict_get k query.
Proof.
  intros Hs Hk. unfold StackOverflowCollector.with_credentials.
  rewrite dict_get_set_other by exact Hs.
  destruct (StackOverflowCollector.api_key c) as [key|]; [|reflexivity].
  destruct (String.eqb key ""); [reflexivity|].
  now rewrite dict_get_set_other by exact Hk.
Qed.



(** X2. A call of [GitHubCollector._make_request] that ends after k+1
    replies met k responses with status 403 first, sent the same request
    (same URL, same parameters) k+1 times and nothing else, and slept at
    least 60 s for each 403. *)
Theorem github_call_sends_one_request_per_reply :
  forall service fuel endpoint query s out s',
    GitHubCollector._make_request service fuel endpoint query s
      = Some (out, s') ->
    (forall n, (cursor (snd s) <= n < pred (cursor (snd s')))%nat ->
               throttling 403 (service n) = true) /\
    (exists added,
       trace (snd s') = (trace (snd s) ++ added)%list /\
       requests added =
         repeat (GitHubCollector.BASE_URL ++ endpoint, query)
           (cursor (snd s') - cursor (snd s))) /\
    clock (snd s) +
      seconds 60 * Z.of_nat (cursor (snd s') - cursor (snd s) - 1)
      <= clock (snd s').
Proof. intros service fuel. apply github_call_cost. Qed.

Lemma github_call_sends_one_request_per_reply_witness :
  exists out s',
    GitHubCollector._make_request (Samples.throttle_once 403) 2
      "/repos/rocq-prover/rocq" [] (GitHubCollector.init None, Samples.w0)
      = Some (out, s') /\
    cursor (snd s') = 2%nat /\
    Samples.noon + 60000000 <= clock (snd s').
Proof.
  do 2 eexists. split; [reflexivity|]. split; [reflexivity|].
  destruct (github_call_sends_one_request_per_reply (Samples.throttle_once 403)
              2%nat "/repos/rocq-prover/rocq" []
              (GitHubCollector.init None, Samples.w0) _ _ eq_refl)
    as [_ [_ Hclock]].
  exact Hclock.
Defined.

(** X3. A call of [StackOverflowCollector._make_request] that ends after
    k+1 replies met k responses with status 429 first and slept exactly
    60 s for each; it leaves [rate_limit_remaining] at the header of the
    last response (0 without it) and never touches [rate_limit_reset] or
    [api_key]: a collector that started without a reset time never has
    one. *)
Theorem stackoverflow_call_costs_a_minute_per_throttle :
  forall service fuel endpoint query s out s',
    StackOverflowCollector._make_request service fuel endpoint query s
      = Some (out, s') ->
    (forall n, (cursor (snd s) <= n < pred (cursor (snd s')))%nat ->
               throttling 429 (service n) = true) /\
    clock (snd s') =
      clock (snd s) +
      seconds 60 * Z.of_nat (cursor (snd s') - cursor (snd s) - 1) /\
    (forall r, service (pred (cursor (snd s'))) = Responded r ->
               StackOverflowCollector.rate_limit_remaining (fst s')
                 = remaining_header r) /\
    StackOverflowCollector.rate_limit_reset (fst s')
      = StackOverflowCollector.rate_limit_reset (fst s) /\
    StackOverflowCollector.api_key (fst s') = StackOverflowCollector.api_key (fst s).
Proof.
  intros service fuel endpoint query s out s' H.
  destruct (stackoverflow_call_cost service fuel endpoint query s out s' H)
    as [Hthr [_ Hclock]].
  destruct (stackoverflow_call_state service fuel endpoint query s out s' H)
    as [Hrem [Hreset Hkey]].
  auto.
Qed.

Lemma stackoverflow_call_costs_a_minute_per_throttle_witness :
  exists out s',
    StackOverflowCollector._make_request (Samples.throttle_once 429) 2
      "/tags" [] (StackOverflowCollector.init None, Samples.w0) = Some (out, s') /\
    clock (snd s') = Samples.noon + 60000000 /\
    StackOverflowCollector.rate_limit_reset (fst s') = None.
Proof.
  do 2 eexists. split; [reflexivity|].
  destruct (stackoverflow_call_costs_a_minute_per_throttle
              (Samples.throttle_once 429) 2%nat "/tags" []
              (StackOverflowCollector.init None, Samples.w0) _ _ eq_refl)
    as [_ [Hclock [_ [Hreset _]]]].
  split; [exact Hclock|exact Hreset].
Defined.

(** X4. Every request that a call of [StackOverflowCollector._make_request]
    sends goes to the endpoint under the base URL and carries
    [site=stackoverflow], whatever the caller had put under ['site']; it
    carries the API key under ['key'] when the collector has a non-empty
    one and leaves ['key'] as the caller gave it otherwise; every other
    parameter of the caller is passed on unchanged. *)
Theorem stackoverflow_requests_carry_site_and_key :
  forall service fuel endpoint query s out s',
    StackOverflowCollector._make_request service fuel endpoint query s
      = Some (out, s') ->
    exists added,
      trace (snd s') = (trace (snd s) ++ added)%list /\
      List.length (requests added) = (cursor (snd s') - cursor (snd s))%nat /\
      forall url sent,
        In (url, sent) (requests added) ->
        url = StackOverflowCollector.BASE_URL ++ endpoint /\
        dict_get "site" sent = Some (JStr "stackoverflow") /\
        (forall key, StackOverflowCollector.api_key (fst s) = Some key ->
                     key <> "" -> dict_get "key" sent = Some (JStr key)) /\
        (StackOverflowCollector.api_key (fst s) = None \/
         StackOverflowCollector.api_key (fst s) = Some "" ->
         dict_get "key" sent = dict_get "key" query) /\
        (forall k, k <> "site" -> k <> "key" ->
                   dict_get k sent = dict_get k query).
Proof.
  intros service fuel endpoint query s out s' H.
  destruct (stackoverflow_call_cost service fuel endpoint query s out s' H)
    as [_ [[added [Htr Hreq]] _]].
  exists added. split; [exact Htr|]. split.
  - rewrite Hreq. apply repeat_length.
  - intros url sent Hin. rewrite Hreq in Hin. apply repeat_spec in Hin.
    inversion Hin. subst. split; [reflexivity|].
    split; [apply with_credentials_site|].
    split; [intros key; apply with_credentials_key|].
    split; [apply with_credentials_no_key|].
    intros k. apply with_credentials_other.
Qed.

Lemma stackoverflow_requests_carry_site_and_key_witness :
  exists out s' added,
    StackOverflowCollector._make_request Samples.always_ok 1 "/search"
      [("site", JStr "serverfault"); ("q", JStr "rocq")]
      (StackOverflowCollector.init (Some "k3y"), Samples.w0) = Some (out, s') /\
    trace (snd s') = (trace Samples.w0 ++ added)%list /\
    List.length (requests added) = 1%nat /\
    requests (trace (snd s')) =
      [("https://api.stackexchange.com/2.3/search",
        [("site", JStr "stackoverflow"); ("q", JStr "rocq"); ("key", JStr "k3y")])].
Proof.
  destruct (stackoverflow_requests_carry_site_and_key Samples.always_ok 1%nat
              "/search" [("site", JStr "serverfault"); ("q", JStr "rocq")]
              (StackOverflowCollector.init (Some "k3y"), Samples.w0) _ _ eq_refl)
    as [added [Htr [Hlen _]]].
  do 2 eexists. exists added. split; [reflexivity|].
  split; [exact Htr|]. split; [exact Hlen|reflexivity].
Defined.

(** ** The query methods of the GitHub collector *)

Section GitHubQueries.
Import GitHubCollector.

Variable service : nat -> reply.
Variable strftime : Z -> string.

(** A response that is neither a 403 nor an error and whose body decodes. *)
Lemma github_request_decoded fuel endpoint query c w r body :
  service (cursor w) = Responded r ->
  status_code r <> 403 -> is_http_error (status_code r) = false ->
  json_body r = Ret body ->
  _make_request service (S fuel) endpoint query (c, w) =
  Some (Ret body,
        (update_rate_limit r c, requested (BASE_URL ++ endpoint) query w)).
Proof.
  intros H E Herr Hbody.
  rewrite (github_make_request_answered service _ _ _ _ _ _ H E). cbv zeta.
  now rewrite Herr, Hbody.
Qed.

Lemma days_map_default since :
  since <> "daily" -> since <> "monthly" -> days_map since = 7.
Proof.
  intros Hd Hm. unfold days_map.
  apply String.eqb_neq in Hd, Hm. rewrite Hd, Hm.
  now destruct (String.eqb since "weekly").
Qed.

End GitHubQueries.

(** X5. [get_trending_repos] looks [since] up with a default: any value
    other than 'daily' and 'monthly' searches the last 7 days, as 'weekly'
    does; an empty language is no language filter; and the search that is
    then sent asks for the repositories created since the clock minus 7
    days, 50 per page, most starred first. *)
Theorem trending_period_defaults_to_a_week :
  forall service strftime fuel language since s,
    since <> "daily" -> since <> "monthly" ->
    GitHubCollector.get_trending_repos service strftime fuel language since s =
    GitHubCollector.get_trending_repos service strftime fuel language "weekly" s /\
    GitHubCollector.get_trending_repos service strftime fuel (Some "") since s =
    GitHubCollector.get_trending_repos service strftime fuel None since s /\
    forall out s',
      GitHubCollector.get_trending_repos service strftime fuel None since s
        = Some (out, s') ->
      exists rest,
        trace (snd s') =
        (trace (snd s) ++
         Get "https://api.github.com/search/repositories"
           [("q", JStr ("created:>=" ++ strftime (clock (snd s) - days 7)));
            ("sort", JStr "stars"); ("order", JStr "desc");
            ("per_page", JInt 50)] :: rest)%list.
Proof.
  intros service strftime fuel language since s Hd Hm.
  unfold GitHubCollector.get_trending_repos, GitHubCollector.trending_params.
  rewrite (days_map_default since Hd Hm).
  split; [reflexivity|]. split; [reflexivity|].
  intros out s' H. unfold bind at 1, GitHubCollector.datetime_now at 1 in H.
  unfold bind in H.
  destruct (GitHubCollector._make_request service fuel "/search/repositories"
              _ s) as [[[body|e] s1]|] eqn:Hreq; try discriminate H.
  - apply github_make_request_trace in Hreq. destruct Hreq as [rest Hreq].
    unfold lift_res in H. inversion H. subst. exists rest. exact Hreq.
  - apply github_make_request_trace in Hreq. destruct Hreq as [rest Hreq].
    inversion H. subst. exists rest. exact Hreq.
Qed.

Lemma trending_period_defaults_to_a_week_witness :
  "fortnightly" <> "daily" /\ "fortnightly" <> "monthly" /\
  GitHubCollector.get_trending_repos Samples.always_ok Samples.strftime 1
    (Some "rust") "fortnightly" (GitHubCollector.init None, Samples.w0) =
  GitHubCollector.get_trending_repos Samples.always_ok Samples.strftime 1
    (Some "rust") "weekly" (GitHubCollector.init None, Samples.w0).
Proof.
  assert (Hd : "fortnightly" <> "daily") by discriminate.
  assert (Hm : "fortnightly" <> "monthly") by discriminate.
  split; [exact Hd|]. split; [exact Hm|].
  exact (proj1 (trending_period_defaults_to_a_week Samples.always_ok
                  Samples.strftime 1%nat (Some "rust") "fortnightly"
                  (GitHubCollector.init None, Samples.w0) Hd Hm)).
Defined.

(** X6. When the request fails in transport, the GitHub query methods
    raise nothing and return an empty result: [search_repositories] and
    [get_trending_repos] the empty list, [get_repository_details] and
    [get_repository_languages] the empty mapping; one request was sent. *)
Theorem github_queries_return_empty_on_failure :
  forall service strftime fuel language min_stars created filter since owner
         repo c w,
    service (cursor w) = Failed ->
    (exists s',
       GitHubCollector.search_repositories service strftime (S fuel) language
         min_stars created (c, w) = Some (Ret (JList []), s') /\
       cursor (snd s') = S (cursor w)) /\
    (exists s',
       GitHubCollector.get_trending_repos service strftime (S fuel) filter
         since (c, w) = Some (Ret (JList []), s') /\
       cursor (snd s') = S (cursor w)) /\
    (exists s',
       GitHubCollector.get_repository_details service (S fuel) owner repo (c, w)
         = Some (Ret (JDict []), s') /\
       cursor (snd s') = S (cursor w)) /\
    (exists s',
       GitHubCollector.get_repository_languages service (S fuel) owner repo (c, w)
         = Some (Ret (JDict []), s') /\
       cursor (snd s') = S (cursor w)).
Proof.
  intros service strftime fuel language min_stars created filter since owner
    repo c w H.
  split; [|split; [|split]].
  - unfold GitHubCollector.search_repositories. unfold bind at 1.
    rewrite (github_make_request_failed service _ _ _ _ _ H).
    eexists. split; reflexivity.
  - unfold GitHubCollector.get_trending_repos.
    unfold bind at 1, GitHubCollector.datetime_now at 1. unfold bind.
    cbn [snd]. rewrite (github_make_request_failed service _ _ _ _ _ H).
    eexists. split; reflexivity.
  - unfold GitHubCollector.get_repository_details.
    rewrite (github_make_request_failed service _ _ _ _ _ H).
    eexists. split; reflexivity.
  - unfold GitHubCollector.get_repository_languages.
    rewrite (github_make_request_failed service _ _ _ _ _ H).
    eexists. split; reflexivity.
Qed.

Lemma github_queries_return_empty_on_failure_witness :
  Samples.unreachable (cursor Samples.w0) = Failed /\
  exists s',
    GitHubCollector.get_trending_repos Samples.unreachable Samples.strftime 1
      (Some "rust") "daily" (GitHubCollector.init None, Samples.w0)
      = Some (Ret (JList []), s') /\
    cursor (snd s') = 1%nat.
Proof.
  split; [reflexivity|].
  exact (proj1 (proj2 (github_queries_return_empty_on_failure
                         Samples.unreachable Samples.strftime 0%nat "rust" 10
                         None (Some "rust") "daily" "rocq-prover" "rocq"
                         (GitHubCollector.init None) Samples.w0 eq_refl))).
Defined.

Lemma py_get_not_dict body field default :
  (forall d, body <> JDict d) -> py_get body field default = Raise AttributeError.
Proof.
  intros H. destruct body; try reflexivity. now destruct (H d).
Qed.



(** ** Counting the requests of a batch *)

Section Counting.

Context {C : Type}.

Lemma calls_ret {A} (a : A) : calls_between 0 0 (@ret (C * world) A a).
Proof. intros s r s' H. inversion H. lia. Qed.

Lemma calls_lift_res {A} (x : res A) : calls_between 0 0 (@lift_res (C * world) A x).
Proof. intros s r s' H. inversion H. lia. Qed.

Lemma calls_bind {A B} lo hi hi' (m : M (C * world) A) (k : A -> M (C * world) B) :
  calls_between lo hi m -> (forall a, calls_between 0 hi' (k a)) ->
  calls_between lo (hi + hi') (bind m k).
Proof.
  intros Hm Hk s r s' H. unfold bind in H.
  destruct (m s) as [[[a|e] s1]|] eqn:E; try discriminate.
  - apply Hm in E. apply Hk in H. lia.
  - inversion H. subst. apply Hm in E. lia.
Qed.

(** After a first step that always returns, both bounds add up. *)
Lemma calls_bind_returns {A B} lo hi lo' hi'
    (m : M (C * world) A) (k : A -> M (C * world) B) :
  calls_between lo hi m -> (forall s e s', m s <> Some (Raise e, s')) ->
  (forall a, calls_between lo' hi' (k a)) ->
  calls_between (lo + lo') (hi + hi') (bind m k).
Proof.
  intros Hm Hret Hk s r s' H. unfold bind in H.
  destruct (m s) as [[[a|e] s1]|] eqn:E; try discriminate.
  - apply Hm in E. apply Hk in H. lia.
  - now apply Hret in E.
Qed.

Lemma calls_try_except {A} lo hi (body : M (C * world) A) handler :
  calls_between lo hi body -> (forall e, calls_between 0 0 (handler e)) ->
  calls_between lo hi (try_except body handler).
Proof.
  intros Hb Hh s r s' H. unfold try_except in H.
  destruct (body s) as [[[a|e] s1]|] eqn:E; try discriminate.
  - inversion H. subst. now apply Hb in E.
  - apply Hb in E. apply Hh in H. lia.
Qed.

Lemma calls_weaken {A} lo hi lo' hi' (m : M (C * world) A) :
  calls_between lo hi m -> (lo' <= lo)%nat -> (hi <= hi')%nat ->
  calls_between lo' hi' m.
Proof. intros Hm H1 H2 s r s' H. apply Hm in H. lia. Qed.

(** A loop whose every turn returns makes its calls once per key. *)
Lemma calls_batch {V} lo hi (step : string -> M (C * world) V) :
  (forall k, calls_between lo hi (step k)) ->
  (forall k s e s', step k s <> Some (Raise e, s')) ->
  forall keys acc,
    calls_between (lo * List.length keys) (hi * List.length keys)
      (batch step keys acc).
Proof.
  intros Hstep Hret keys. induction keys as [|k rest IH]; intros acc.
  - simpl. rewrite !Nat.mul_0_r. apply calls_ret.
  - simpl batch. simpl List.length. rewrite !Nat.mul_succ_r.
    replace (lo * List.length rest + lo)%nat
      with (lo + lo * List.length rest)%nat by lia.
    replace (hi * List.length rest + hi)%nat
      with (hi + hi * List.length rest)%nat by lia.
    apply calls_bind_returns; auto.
Qed.

End Counting.

(** Steps that do not call the service. *)
Ltac no_call :=
  repeat first
    [ apply calls_ret
    | apply calls_lift_res
    | match goal with
      | |- calls_between 0 0 (if ?b then _ else _) => destruct b
      | |- calls_between 0 0 (bind _ _) =>
          apply (calls_bind 0 0 0); [|intros]
      end
    | solve [let Hrun := fresh "Hrun" in
             intros ? ? ? Hrun; inversion Hrun; simpl; lia] ].

Lemma try_except_returns {S A} (body : M S A) handler :
  (forall e, returns (handler e)) ->
  forall s e s', try_except body handler s <> Some (Raise e, s').
Proof.
  intros Hh s e s' H. unfold try_except in H.
  destruct (body s) as [[[a|e0] s1]|]; try discriminate.
  destruct (Hh e0 s1) as [a [s2 E]]. congruence.
Qed.

Section GitHubCounting.
Import GitHubCollector.

Variable service : nat -> reply.
Variable strptime : string -> option Z.
Variable strftime : Z -> string.
Hypothesis quiet : never_throttles 403 service.

Lemma github_request_once fuel endpoint query :
  calls_between 1 1 (_make_request service fuel endpoint query).
Proof.
  intros s r s' H.
  pose proof (github_make_request_last service _ _ _ _ _ _ H) as [Hlt _].
  destruct (github_call_cost service _ _ _ _ _ _ H) as [Hthr _].
  destruct (Nat.eq_dec (cursor (snd s')) (S (cursor (snd s)))) as [E|E]; [lia|].
  specialize (Hthr (cursor (snd s))). rewrite quiet in Hthr.
  assert (false = true) by (apply Hthr; lia). discriminate.
Qed.

Lemma language_step_once fuel language :
  calls_between 1 1 (language_step service strptime strftime fuel language).
Proof.
  apply calls_try_except; [|intros e; no_call].
  unfold language_try, search_repositories.
  apply (calls_bind 1 1 0); [|intros; no_call].
  apply (calls_bind 1 1 0); [apply github_request_once|intros; no_call].
Qed.

Lemma popularity_step_once fuel tech :
  calls_between 1 1 (popularity_step service strptime fuel tech).
Proof.
  apply calls_try_except; [|intros e; no_call].
  unfold popularity_try.
  apply (calls_bind 1 1 0); [apply github_request_once|intros; no_call].
Qed.

End GitHubCounting.

Section StackOverflowCounting.
Import StackOverflowCollector.

Variable service : nat -> reply.
Hypothesis quiet : never_throttles 429 service.

Lemma stackoverflow_request_once fuel endpoint query :
  calls_between 1 1 (_make_request service fuel endpoint query).
Proof.
  intros s r s' H.
  pose proof (stackoverflow_make_request_last service _ _ _ _ _ _ H) as [Hlt _].
  destruct (stackoverflow_call_cost service _ _ _ _ _ _ H) as [Hthr _].
  destruct (Nat.eq_dec (cursor (snd s')) (S (cursor (snd s)))) as [E|E]; [lia|].
  specialize (Hthr (cursor (snd s))). rewrite quiet in Hthr.
  assert (false = true) by (apply Hthr; lia). discriminate.
Qed.

Lemma get_tag_questions_once fuel tag fromdate page_size :
  calls_between 1 1
    (get_tag_questions service fuel tag (Some fromdate) None page_size).
Proof.
  unfold get_tag_questions.
  apply (calls_bind_returns 0 0 1 1); [no_call|discriminate|]. intros from.
  apply (calls_bind_returns 0 0 1 1); [no_call|discriminate|]. intros to.
  apply (calls_bind 1 1 0); [apply stackoverflow_request_once|intros; no_call].
Qed.

Lemma demand_step_once_or_twice fuel tech :
  calls_between 1 2 (demand_step service fuel tech).
Proof.
  apply calls_try_except; [|intros e; no_call].
  unfold demand_try.
  apply (calls_bind_returns 0 0 1 2); [no_call|discriminate|]. intros now.
  apply (calls_bind 1 1 1); [apply get_tag_questions_once|]. intros recent.
  apply (calls_bind 0 1 0).
  - eapply calls_weaken; [apply stackoverflow_request_once|lia|lia].
  - intros; no_call.
Qed.

End StackOverflowCounting.

(** X8. Against a service that never throttles, a batch of the GitHub
    collector sends exactly one request per key of the list, a key that
    occurs twice being fetched twice, and a batch of
    [get_tech_demand_metrics] sends at least one and at most two requests
    per key (the tag-info request is not sent when the questions request
    went wrong). *)
Theorem batches_send_a_request_per_key :
  (forall service strptime strftime fuel languages s r s',
     never_throttles 403 service ->
     GitHubCollector.get_language_stats service strptime strftime fuel
       languages s = Some (r, s') ->
     cursor (snd s') = (cursor (snd s) + List.length languages)%nat) /\
  (forall service strptime fuel tech_list s r s',
     never_throttles 403 service ->
     GitHubCollector.get_tech_popularity_metrics service strptime fuel
       tech_list s = Some (r, s') ->
     cursor (snd s') = (cursor (snd s) + List.length tech_list)%nat) /\
  (forall service fuel tech_list s r s',
     never_throttles 429 service ->
     StackOverflowCollector.get_tech_demand_metrics service fuel tech_list s
       = Some (r, s') ->
     (cursor (snd s) + List.length tech_list <= cursor (snd s')
      <= cursor (snd s) + 2 * List.length tech_list)%nat).
Proof.
  split; [|split].
  - intros service strptime strftime fuel languages s r s' Hq H.
    assert (Hc : calls_between (1 * List.length languages)
                   (1 * List.length languages)
                   (GitHubCollector.get_language_stats service strptime
                      strftime fuel languages)).
    { unfold GitHubCollector.get_language_stats.
      apply (calls_bind_returns 0 0); [no_call|discriminate|]. intros u.
      apply (calls_batch 1 1); [intros k; now apply language_step_once|].
      intros k. apply try_except_returns.
      intros e t. unfold bind, GitHubCollector.log, ret. eauto. }
    apply Hc in H. lia.
  - intros service strptime fuel tech_list s r s' Hq H.
    assert (Hc : calls_between (1 * List.length tech_list)
                   (1 * List.length tech_list)
                   (GitHubCollector.get_tech_popularity_metrics service
                      strptime fuel tech_list)).
    { unfold GitHubCollector.get_tech_popularity_metrics.
      apply (calls_bind_returns 0 0); [no_call|discriminate|]. intros u.
      apply (calls_batch 1 1); [intros k; now apply popularity_step_once|].
      intros k. apply try_except_returns.
      intros e t. unfold bind, GitHubCollector.log, ret. eauto. }
    apply Hc in H. lia.
  - intros service fuel tech_list s r s' Hq H.
    assert (Hc : calls_between (1 * List.length tech_list)
                   (2 * List.length tech_list)
                   (StackOverflowCollector.get_tech_demand_metrics service
                      fuel tech_list)).
    { unfold StackOverflowCollector.get_tech_demand_metrics.
      apply (calls_bind_returns 0 0); [no_call|discriminate|]. intros u.
      apply (calls_batch 1 2); [intros k; now apply demand_step_once_or_twice|].
      intros k. apply try_except_returns.
      intros e t. unfold bind, StackOverflowCollector.log, ret. eauto. }
    apply Hc in H. lia.
Qed.

Lemma batches_send_a_request_per_key_witness :
  exists r s',
    GitHubCollector.get_language_stats Samples.always_ok Samples.strptime
      Samples.strftime 1 ["rust"; "go"; "rust"]
      (GitHubCollector.init None, Samples.w0) = Some (r, s') /\
    cursor (snd s') = 3%nat.
Proof.
  do 2 eexists. split; [reflexivity|].
  refine (proj1 batches_send_a_request_per_key Samples.always_ok
            Samples.strptime Samples.strftime 1%nat ["rust"; "go"; "rust"]
            (GitHubCollector.init None, Samples.w0) _ _ _ eq_refl).
  intros n. reflexivity.
Defined.

(** ** The query methods of the Stack Overflow collector *)

(** The keys of the mapping of a loop that ended, whatever its turns do. *)
Lemma batch_keys {S V} (step : string -> M S V) keys : forall acc s d s',
  batch step keys acc s = Some (Ret d, s') ->
  dict_keys d =
    (dict_keys acc ++
     filter (fun x => negb (mem x (dict_keys acc))) (uniq keys))%list.
Proof.
  induction keys as [|k rest IH]; intros acc s d s' H.
  - inversion H. simpl. now rewrite app_nil_r.
  - rewrite batch_cons in H.
    destruct (step k s) as [[[v|e] s1]|]; try discriminate.
    rewrite (IH _ _ _ _ H), dict_keys_set. apply uniq_step.
Qed.

Lemma dict_get_set_cases {V} k k0 (v0 : V) d :
  dict_get k (dict_set k0 v0 d) = if String.eqb k k0 then Some v0 else dict_get k d.
Proof.
  destruct (String.eqb k k0) eqn:E.
  - apply String.eqb_eq in E. subst. apply dict_get_set_same.
  - apply String.eqb_neq in E. now apply dict_get_set_other.
Qed.

(** Every entry of the mapping of a loop that ended was returned by the turn
    of its key, or was there at the start. *)
Lemma batch_values {S V} (step : string -> M S V) (P : string -> V -> Prop) :
  (forall k s v s', step k s = Some (Ret v, s') -> P k v) ->
  forall keys acc s d s',
    (forall k v, dict_get k acc = Some v -> P k v) ->
    batch step keys acc s = Some (Ret d, s') ->
    forall k v, dict_get k d = Some v -> P k v.
Proof.
  intros Hstep keys. induction keys as [|k0 rest IH]; intros acc s d s' Hacc H.
  - inversion H. subst. exact Hacc.
  - rewrite batch_cons in H.
    destruct (step k0 s) as [[[v0|e] s1]|] eqn:E; try discriminate.
    refine (IH _ _ _ _ _ H). intros k v.
    rewrite dict_get_set_cases. destruct (String.eqb k k0) eqn:Ek.
    + intros Hv. inversion Hv. subst. apply String.eqb_eq in Ek. subst.
      now apply Hstep in E.
    + apply Hacc.
Qed.

Lemma dict_get_In_keys {V} k (d : dict V) :
  In k (dict_keys d) -> exists v, dict_get k d = Some v.
Proof.
  induction d as [|[k' v'] d IH]; simpl; [tauto|].
  intros [->|H].
  - rewrite String.eqb_refl. eauto.
  - destruct (String.eqb k k'); eauto.
Qed.

Section Timeseries.
Import StackOverflowCollector.

Variable service : nat -> reply.

Lemma weeks_loop_points fuel t end_date weeks : forall acc s pts s',
  weeks_loop service fuel t end_date weeks acc s = Some (Ret pts, s') ->
  exists added,
    pts = (acc ++ added)%list /\
    map date added = map (week_start end_date) weeks /\
    Forall (fun p => tag p = t) added.
Proof.
  induction weeks as [|week rest IH]; intros acc s pts s' H.
  - inversion H. exists []. rewrite app_nil_r. repeat split. constructor.
  - simpl weeks_loop in H. unfold bind at 1 in H.
    destruct (_make_request service fuel "/questions" _ s)
      as [[[response|e] s1]|]; try discriminate.
    unfold bind at 1, lift_res at 1 in H.
    destruct (py_get response "total" (JInt 0)) as [total|e]; try discriminate.
    unfold bind at 1, get_rate_limit_remaining at 1 in H.
    unfold bind at 1 in H.
    match type of H with
    | match ?pause with _ => _ end = _ =>
        destruct pause as [[[u|e] s2]|]; try discriminate
    end.
    apply IH in H. destruct H as [added [-> [Hd Ht]]].
    exists (mkWeeklyPoint (week_start end_date week) total t :: added).
    rewrite <- app_assoc. simpl. rewrite Hd. repeat split.
    constructor; auto.
Qed.

End Timeseries.

Lemma weeks_back_short days_back :
  days_back < 7 -> StackOverflowCollector.weeks_back days_back = [].
Proof.
  intros H. unfold StackOverflowCollector.weeks_back.
  assert (days_back / 7 < 1) by (apply Z.div_lt_upper_bound; lia).
  now replace (Z.to_nat (days_back / 7)) with 0%nat by lia.
Qed.

(** X9. When [get_tag_stats_timeseries] returns, its mapping has the tags
    as keys (each once, in the order given) and every tag has exactly
    [days_back // 7] points, the most recent week first: point number i is
    dated 7(i+1) days before the time of the call and carries its tag, so
    consecutive points are 7 days apart.  For less than 7 days no request
    is sent and every tag has the empty list. *)
Theorem timeseries_has_a_point_per_week :
  (forall service fuel tags days_back s d s',
     StackOverflowCollector.get_tag_stats_timeseries service fuel tags
       days_back s = Some (Ret d, s') ->
     one_entry_per_key tags d /\
     forall t pts,
       dict_get t d = Some pts ->
       List.length pts = Z.to_nat (days_back / 7) /\
       forall i p,
         nth_error pts i = Some p ->
         StackOverflowCollector.date p
           = clock (snd s) - days (7 * (Z.of_nat i + 1)) /\
         StackOverflowCollector.tag p = t) /\
  (forall service fuel tags days_back s,
     days_back < 7 ->
     exists d s',
       StackOverflowCollector.get_tag_stats_timeseries service fuel tags
         days_back s = Some (Ret d, s') /\
       cursor (snd s') = cursor (snd s) /\
       forall t, In t tags -> dict_get t d = Some []).
Proof.
  split.
  - intros service fuel tags days_back s d s' H.
    unfold StackOverflowCollector.get_tag_stats_timeseries in H.
    unfold bind at 1, StackOverflowCollector.log at 1 in H.
    unfold bind at 1, StackOverflowCollector.datetime_now at 1 in H.
    cbn [fst snd clock logging emit] in H.
    split.
    + apply one_entry_per_key_intro. rewrite (batch_keys _ _ _ _ _ _ H).
      simpl. apply filter_all. reflexivity.
    + set (P := fun (t : string) (pts : list StackOverflowCollector.weekly_point) =>
                  map StackOverflowCollector.date pts =
                    map (StackOverflowCollector.week_start (clock (snd s)))
                      (StackOverflowCollector.weeks_back days_back) /\
                  Forall (fun p => StackOverflowCollector.tag p = t) pts).
      assert (HP : forall t pts, dict_get t d = Some pts -> P t pts).
      { refine (batch_values _ P _ _ _ _ _ _ _ H).
        - intros k s0 v s0' Hrun. apply weeks_loop_points in Hrun.
          destruct Hrun as [added [-> [Hd Ht]]]. split; assumption.
        - intros k v Hk. discriminate. }
      intros t pts Hpts. destruct (HP t pts Hpts) as [Hd Ht].
      assert (Hlen : List.length pts = Z.to_nat (days_back / 7)).
      { rewrite <- (length_map StackOverflowCollector.date), Hd, length_map.
        apply length_seq. }
      split; [exact Hlen|]. intros i p Hi. split.
      * assert (Hlt : (i < Z.to_nat (days_back / 7))%nat).
        { rewrite <- Hlen. apply nth_error_Some. congruence. }
        apply (map_nth_error StackOverflowCollector.date) in Hi.
        rewrite Hd in Hi. unfold StackOverflowCollector.weeks_back in Hi.
        rewrite (map_nth_error _ i (seq 0 (Z.to_nat (days_back / 7))) (d := i))
          in Hi.
        { assert (Hdate : StackOverflowCollector.date p =
                          StackOverflowCollector.week_start (clock (snd s)) i)
            by congruence.
          rewrite Hdate.
          unfold StackOverflowCollector.week_start,
            StackOverflowCollector.week_end, days. lia. }
        { rewrite nth_error_nth' with (d := 0%nat) by (rewrite length_seq; lia).
          now rewrite seq_nth. }
      * rewrite Forall_forall in Ht. apply Ht. eapply nth_error_In; eauto.
  - intros service fuel tags days_back s Hshort.
    unfold StackOverflowCollector.get_tag_stats_timeseries.
    unfold bind at 1, StackOverflowCollector.log at 1.
    unfold bind at 1, StackOverflowCollector.datetime_now at 1.
    cbn [fst snd clock logging emit].
    rewrite (weeks_back_short days_back Hshort).
    cbn [StackOverflowCollector.weeks_loop].
    match goal with
    | |- exists d s', batch ?step tags [] ?s0 = _ /\ _ =>
        assert (Hret : forall k, returns (step k))
          by (intros k t; unfold ret; eauto);
        destruct (batch_returns step Hret tags [] s0) as [d [s' [Hrun Hkeys]]];
        assert (Hcalls : calls_between (0 * List.length tags)
                           (0 * List.length tags) (batch step tags []))
          by (apply calls_batch; [intros k; apply calls_ret|discriminate])
    end.
    exists d, s'. split; [exact Hrun|]. split.
    + apply Hcalls in Hrun. simpl in Hrun. lia.
    + intros t Ht.
      assert (Hin : In t (dict_keys d)).
      { rewrite Hkeys. simpl. rewrite filter_all by reflexivity.
        now apply In_uniq. }
      destruct (dict_get_In_keys t d Hin) as [v Hv]. rewrite Hv. f_equal.
      refine (batch_values _ (fun _ v => v = []) _ tags [] _ d s' _ Hrun t v Hv).
      * intros k s0 v0 s0' E. now inversion E.
      * intros k v0 E. discriminate.
Qed.

Lemma timeseries_has_a_point_per_week_witness :
  exists d s' pts,
    StackOverflowCollector.get_tag_stats_timeseries Samples.always_ok 1
      ["rust"; "go"] 27 (StackOverflowCollector.init None, Samples.w0)
      = Some (Ret d, s') /\
    dict_get "go" d = Some pts /\
    List.length pts = 3%nat /\
    map StackOverflowCollector.date pts =
      [Samples.noon - days 7; Samples.noon - days 14; Samples.noon - days 21].
Proof.
  do 3 eexists. split; [reflexivity|]. split; [reflexivity|].
  split; [|reflexivity].
  refine (proj1 (proj2 (proj1 timeseries_has_a_point_per_week
                          Samples.always_ok 1%nat ["rust"; "go"] 27
                          (StackOverflowCollector.init None, Samples.w0)
                          _ _ eq_refl) "go" _ eq_refl)).
Defined.

(** ** Google Trends: a comparison of any length *)

Lemma firstn_add {A} (a b : nat) (l : list A) :
  firstn (a + b) l = (firstn a l ++ firstn b (skipn a l))%list.
Proof.
  revert l. induction a as [|a IH]; intros l; [reflexivity|].
  destruct l as [|x l]; simpl.
  - now rewrite firstn_nil.
  - now rewrite IH.
Qed.

Lemma slice_five {A} (i : nat) (l : list A) :
  GoogleTrendsCollector.slice i (i + 5) l = firstn 5 (skipn i l).
Proof.
  unfold GoogleTrendsCollector.slice. f_equal. lia.
Qed.

Lemma firstn_slice_five {A} (i : nat) (l : list A) :
  firstn 5 (GoogleTrendsCollector.slice i (i + 5) l)
  = GoogleTrendsCollector.slice i (i + 5) l.
Proof.
  rewrite slice_five, firstn_firstn. reflexivity.
Qed.

Lemma slices_concat {A} (l : list A) (m : nat) : forall a,
  List.concat (map (fun i => GoogleTrendsCollector.slice i (i + 5) l)
            (map (fun j => (5 * j)%nat) (seq a m)))
  = firstn (5 * m) (skipn (5 * a) l).
Proof.
  induction m as [|m IH]; intros a.
  - reflexivity.
  - cbn [seq map List.concat]. rewrite IH, slice_five.
    replace (5 * S m)%nat with (5 + 5 * m)%nat by lia.
    rewrite firstn_add, skipn_skipn. do 3 f_equal. lia.
Qed.

Lemma chunks_needed (n j : nat) : (j < (n + 4) / 5)%nat <-> (5 * j < n)%nat.
Proof.
  pose proof (Nat.div_mod_eq (n + 4) 5) as E.
  pose proof (Nat.mod_upper_bound (n + 4) 5) as B.
  lia.
Qed.

Section TrendsComparison.
Import GoogleTrendsCollector.

Variable pytrends : nat -> pytrends_reply.

Lemma compare_loop_run timeframe geo tech_list starts : forall acc w,
  exists found w',
    compare_loop pytrends timeframe geo tech_list starts acc w
      = Some (Ret found, w') /\
    cursor w' = (cursor w + List.length starts)%nat /\
    payloads (trace w') =
      (payloads (trace w)
       ++ map (fun i => firstn 5 (slice i (i + 5) tech_list)) starts)%list /\
    (forall k,
       In k (dict_keys found) <->
       In k (dict_keys acc) \/
       exists j i,
         nth_error starts j = Some i /\
         In k (slice i (i + 5) tech_list) /\
         answered (pytrends (cursor w + j)%nat) k = true) /\
    ((forall j, (j < List.length starts)%nat ->
                exists answer, pytrends (cursor w + j)%nat = Fetched answer) ->
     complaints (trace w') = complaints (trace w)).
Proof.
  induction starts as [|i rest IH]; intros acc w.
  - exists acc, w. split; [reflexivity|]. split; [simpl; lia|].
    split; [simpl; now rewrite app_nil_r|]. split.
    + intros k. split; [tauto|].
      intros [H|[j [i [H _]]]]; [exact H|]. destruct j; discriminate.
    + reflexivity.
  - destruct (compare_chunk_run pytrends timeframe geo
                (slice i (i + 5) tech_list) acc w) as [w1 [R1 [C1 [P1 L1]]]].
    destruct (IH (chunk_found (pytrends (cursor w))
                    (slice i (i + 5) tech_list) acc) w1)
      as [found [w' [R [C [P [K L]]]]]].
    exists found, w'. split.
    { cbn [compare_loop]. unfold bind at 1. rewrite R1. exact R. }
    split. { rewrite C, C1. simpl. lia. }
    split. { rewrite P, P1, <- app_assoc. reflexivity. }
    split.
    + intros k. rewrite K, chunk_found_keys. split.
      * intros [[H|[H1 H2]]|[j [i' [H1 [H2 H3]]]]].
        -- tauto.
        -- right. exists 0%nat, i. rewrite Nat.add_0_r. auto.
        -- right. exists (S j), i'. rewrite C1 in H3.
           replace (cursor w + S j)%nat with (S (cursor w) + j)%nat by lia.
           auto.
      * intros [H|[j [i' [H1 [H2 H3]]]]]; [tauto|]. destruct j as [|j].
        -- simpl in H1. inversion H1; subst. rewrite Nat.add_0_r in H3. tauto.
        -- right. exists j, i'. simpl in H1. rewrite C1.
           replace (S (cursor w) + j)%nat with (cursor w + S j)%nat by lia.
           auto.
    + intros Hall. rewrite L.
      * destruct (Hall 0%nat) as [a Ha]; [simpl; lia|].
        rewrite Nat.add_0_r in Ha. exact (L1 a Ha).
      * intros j Hj. rewrite C1.
        replace (S (cursor w) + j)%nat with (cursor w + S j)%nat by lia.
        apply Hall. simpl. lia.
Qed.

End TrendsComparison.



(** ** Stack Overflow queries whose request fails *)

Section StackOverflowQueries.
Import StackOverflowCollector.

Variable service : nat -> reply.

(** A request that fails in transport, or is answered with an error
    status other than 429, gives the empty envelope. *)
Lemma stackoverflow_request_refused fuel endpoint query c w :
  (service (cursor w) = Failed \/
   exists r, service (cursor w) = Responded r /\
             status_code r <> 429 /\ is_http_error (status_code r) = true) ->
  exists s',
    _make_request service (S fuel) endpoint query (c, w)
      = Some (Ret empty_envelope, s') /\
    cursor (snd s') = S (cursor w).
Proof.
  intros [H|[r [H [E Herr]]]].
  - rewrite (stackoverflow_make_request_failed service _ _ _ _ _ H).
    eexists. split; reflexivity.
  - rewrite (stackoverflow_make_request_answered service _ _ _ _ _ _ H E).
    cbv zeta. rewrite Herr. eexists. split; reflexivity.
Qed.

(** A response that is neither a 429 nor an error and whose body decodes. *)
Lemma stackoverflow_request_decoded fuel endpoint query c w r body :
  service (cursor w) = Responded r ->
  status_code r <> 429 -> is_http_error (status_code r) = false ->
  decoded r = Ret body ->
  _make_request service (S fuel) endpoint query (c, w) =
  Some (Ret body,
        (update_rate_limit r c,
         requested (BASE_URL ++ endpoint) (with_credentials c query) w)).
Proof.
  intros H E Herr Hbody.
  rewrite (stackoverflow_make_request_answered service _ _ _ _ _ _ H E).
  cbv zeta. now rewrite Herr, Hbody.
Qed.

End StackOverflowQueries.

(** X11. When the request fails in transport or is answered with an HTTP
    error other than 429, the Stack Overflow query methods raise nothing
    and return the empty list: [get_top_tags], [get_tag_questions],
    [get_tag_synonyms] and [search_questions]; one request was sent. *)
Theorem stackoverflow_queries_return_empty_on_failure :
  forall service fuel page_size min_count tag fromdate todate query tags c w,
    (service (cursor w) = Failed \/
     exists r, service (cursor w) = Responded r /\
               status_code r <> 429 /\ is_http_error (status_code r) = true) ->
    (exists s',
       StackOverflowCollector.get_top_tags service (S fuel) page_size min_count
         (c, w) = Some (Ret (JList []), s') /\
       cursor (snd s') = S (cursor w)) /\
    (exists s',
       StackOverflowCollector.get_tag_questions service (S fuel) tag fromdate
         todate page_size (c, w) = Some (Ret (JList []), s') /\
       cursor (snd s') = S (cursor w)) /\
    (exists s',
       StackOverflowCollector.get_tag_synonyms service (S fuel) tag (c, w)
         = Some (Ret [], s') /\
       cursor (snd s') = S (cursor w)) /\
    (exists s',
       StackOverflowCollector.search_questions service (S fuel) query tags
         fromdate page_size (c, w) = Some (Ret (JList []), s') /\
       cursor (snd s') = S (cursor w)).
Proof.
  intros service fuel page_size min_count tag fromdate todate query tags c w H.
  split; [|split; [|split]].
  - unfold StackOverflowCollector.get_top_tags.
    unfold bind at 1, StackOverflowCollector.log at 1. cbn [fst snd].
    unfold bind at 1.
    match goal with
    | |- context [StackOverflowCollector._make_request _ _ ?e ?q (c, ?w1)] =>
        destruct (stackoverflow_request_refused service fuel e q c w1 H)
          as [s1 [E C1]]
    end.
    rewrite E. eexists. split; [reflexivity|exact C1].
  - unfold StackOverflowCollector.get_tag_questions.
    destruct fromdate as [from|], todate as [to|];
      unfold bind, StackOverflowCollector.datetime_now, ret; cbn [fst snd];
      match goal with
      | |- context [StackOverflowCollector._make_request _ _ ?e ?q (c, w)] =>
          destruct (stackoverflow_request_refused service fuel e q c w H)
            as [s1 [E C1]]
      end;
      rewrite E; eexists; (split; [reflexivity|exact C1]).
  - unfold StackOverflowCollector.get_tag_synonyms. unfold bind at 1.
    match goal with
    | |- context [StackOverflowCollector._make_request _ _ ?e ?q (c, w)] =>
        destruct (stackoverflow_request_refused service fuel e q c w H)
          as [s1 [E C1]]
    end.
    rewrite E. eexists. split; [reflexivity|exact C1].
  - unfold StackOverflowCollector.search_questions.
    destruct fromdate as [from|];
      unfold bind, StackOverflowCollector.datetime_now, ret; cbn [fst snd];
      match goal with
      | |- context [StackOverflowCollector._make_request _ _ ?e ?q (c, w)] =>
          destruct (stackoverflow_request_refused service fuel e q c w H)
            as [s1 [E C1]]
      end;
      rewrite E; eexists; (split; [reflexivity|exact C1]).
Qed.

Lemma stackoverflow_queries_return_empty_on_failure_witness :
  exists s',
    StackOverflowCollector.get_tag_synonyms Samples.unreachable 1 "rust"
      (StackOverflowCollector.init None, Samples.w0) = Some (Ret [], s') /\
    cursor (snd s') = 1%nat.
Proof.
  exact (proj1 (proj2 (proj2 (stackoverflow_queries_return_empty_on_failure
                         Samples.unreachable 0%nat 100 100 "rust" None None
                         "rocq" None (StackOverflowCollector.init None)
                         Samples.w0 (or_introl eq_refl))))).
Defined.

(** ** The time series when requests fail *)

Section TimeseriesFailures.
Import StackOverflowCollector.

Variable service : nat -> reply.

Lemma pause_returns (c : collector) (w : world) :
  exists w',
    (if rate_limit_remaining c <? 10
     then log WARNING "Approaching rate limit, pausing..." ;;;
          time_sleep (seconds 2)
     else ret tt) (c, w) = Some (Ret tt, (c, w')) /\
    cursor w' = cursor w.
Proof.
  destruct (rate_limit_remaining c <? 10); eexists; split; reflexivity.
Qed.

Lemma weeks_loop_unreachable fuel t end_date weeks :
  (forall n, service n = Failed) ->
  forall acc c w, exists w',
    weeks_loop service (S fuel) t end_date weeks acc (c, w) =
    Some (Ret (acc ++ map (fun week =>
                             mkWeeklyPoint (week_start end_date week) (JInt 0) t)
                        weeks)%list, (c, w')).
Proof.
  intros Hdown. induction weeks as [|week rest IH]; intros acc c w.
  - exists w. simpl. now rewrite app_nil_r.
  - cbn [weeks_loop]. unfold bind at 1.
    rewrite (stackoverflow_make_request_failed service _ _ _ _ _ (Hdown _)).
    unfold bind at 1, lift_res at 1. cbn [py_get empty_envelope dict_get].
    cbn [String.eqb Ascii.eqb Bool.eqb].
    unfold bind at 1, get_rate_limit_remaining at 1. cbn [fst].
    unfold bind at 1.
    match goal with
    | |- context [failure_logged ?w0] =>
        destruct (pause_returns c (failure_logged w0)) as [w1 [E _]]
    end.
    rewrite E.
    destruct (IH (acc ++ [mkWeeklyPoint (week_start end_date week) (JInt 0) t])%list
                c w1) as [w' IH'].
    exists w'. rewrite IH', <- app_assoc. reflexivity.
Qed.

End TimeseriesFailures.



(** ** Synonyms *)

Lemma py_get_each_dicts field default items :
  Forall (fun item => exists d, item = JDict d) items ->
  exists out,
    StackOverflowCollector.py_get_each field default items = Ret out /\
    List.length out = List.length items /\
    forall i d,
      nth_error items i = Some (JDict d) ->
      nth_error out i =
        Some (match dict_get field d with Some v => v | None => default end).
Proof.
  induction 1 as [|item rest [d0 ->] _ [out [E [Hlen Hnth]]]].
  - exists []. repeat split. intros [|i] d H; discriminate.
  - eexists. cbn [StackOverflowCollector.py_get_each py_get res_bind].
    rewrite E. cbn [res_bind]. split; [reflexivity|].
    split; [simpl; now rewrite Hlen|].
    intros [|i] d H; simpl in *.
    + now inversion H.
    + now apply Hnth.
Qed.

Lemma py_get_each_not_dict field default item : forall items,
  In item items -> (forall d, item <> JDict d) ->
  StackOverflowCollector.py_get_each field default items = Raise AttributeError.
Proof.
  induction items as [|x rest IH]; intros Hin Hnot; [destruct Hin|].
  cbn [StackOverflowCollector.py_get_each].
  destruct Hin as [->|Hin].
  - now rewrite (py_get_not_dict item field default Hnot).
  - destruct x; try reflexivity.
    cbn [py_get res_bind]. now rewrite (IH Hin Hnot).
Qed.

(** X13. [get_tag_synonyms] reads ['to_tag'] of every item of the
    answer: when all items are JSON objects it returns one element per
    item, in order, the value of ['to_tag'] or the empty string where an
    item has none; when some item is not an object it raises
    [AttributeError] and returns no list. *)
Theorem synonyms_one_per_item :
  forall service fuel tag c w r envelope items,
    service (cursor w) = Responded r ->
    status_code r <> 429 -> is_http_error (status_code r) = false ->
    StackOverflowCollector.decoded r = Ret (JDict envelope) ->
    dict_get "items" envelope = Some (JList items) ->
    (Forall (fun item => exists d, item = JDict d) items ->
     exists out,
       value_of (StackOverflowCollector.get_tag_synonyms service (S fuel) tag
                   (c, w)) = Some (Ret out) /\
       List.length out = List.length items /\
       forall i d,
         nth_error items i = Some (JDict d) ->
         nth_error out i =
           Some (match dict_get "to_tag" d with
                 | Some v => v
                 | None => JStr ""
                 end)) /\
    (forall item,
       In item items -> (forall d, item <> JDict d) ->
       value_of (StackOverflowCollector.get_tag_synonyms service (S fuel) tag
                   (c, w)) = Some (Raise AttributeError)).
Proof.
  intros service fuel tag c w r envelope items H E Herr Hbody Hitems.
  assert (Hrun : value_of (StackOverflowCollector.get_tag_synonyms service
                             (S fuel) tag (c, w))
                 = Some (StackOverflowCollector.py_get_each "to_tag" (JStr "")
                           items)).
  { unfold StackOverflowCollector.get_tag_synonyms. unfold bind at 1.
    erewrite stackoverflow_request_decoded by eassumption.
    unfold bind, lift_res. cbn [py_get]. rewrite Hitems. reflexivity. }
  rewrite Hrun. split.
  - intros Hall.
    destruct (py_get_each_dicts "to_tag" (JStr "") items Hall)
      as [out [Eout [Hlen Hnth]]].
    exists out. rewrite Eout. repeat split; assumption.
  - intros item Hin Hnot.
    now rewrite (py_get_each_not_dict "to_tag" (JStr "") item items Hin Hnot).
Qed.

Lemma synonyms_one_per_item_witness :
  exists out,
    value_of (StackOverflowCollector.get_tag_synonyms
                (fun _ => Responded
                   (Samples.answer 200 (Some 10) None
                      (Samples.envelope
                         [JDict [("from_tag", JStr "coq"); ("to_tag", JStr "rocq")];
                          JDict [("from_tag", JStr "gallina")]])))
                1 "rocq" (StackOverflowCollector.init None, Samples.w0))
      = Some (Ret out) /\
    List.length out = 2%nat /\
    nth_error out 1 = Some (JStr "").
Proof.
  destruct (proj1 (synonyms_one_per_item
                     (fun _ => Responded
                        (Samples.answer 200 (Some 10) None
                           (Samples.envelope
                              [JDict [("from_tag", JStr "coq"); ("to_tag", JStr "rocq")];
                               JDict [("from_tag", JStr "gallina")]])))
                     0%nat "rocq" (StackOverflowCollector.init None) Samples.w0
                     _ _ _ eq_refl ltac:(discriminate) eq_refl eq_refl eq_refl))
    as [out [Hrun [Hlen Hnth]]].
  - repeat constructor; eexists; reflexivity.
  - exists out. split; [exact Hrun|]. split; [exact Hlen|].
    exact (Hnth 1%nat _ eq_refl).
Defined.

(** ** Defaults of the question queries *)

(** X14. A date that is left out means thirty days before the call (and,
    for the end of the range of [get_tag_questions], the time of the call);
    an empty list of tags is no tag filter.  The search that
    [search_questions] sends carries the query under ['q'], and a
    ['tagged'] parameter only for a list of tags that is not empty: the
    tags joined by ';'. *)
Theorem question_queries_default_to_thirty_days :
  forall service fuel tag query tags page_size s,
    StackOverflowCollector.get_tag_questions service fuel tag None None
      page_size s =
    StackOverflowCollector.get_tag_questions service fuel tag
      (Some (clock (snd s) - days 30)) (Some (clock (snd s))) page_size s /\
    StackOverflowCollector.search_questions service fuel query tags None
      page_size s =
    StackOverflowCollector.search_questions service fuel query tags
      (Some (clock (snd s) - days 30)) page_size s /\
    (forall fromdate,
       StackOverflowCollector.search_questions service fuel query (Some [])
         fromdate page_size s =
       StackOverflowCollector.search_questions service fuel query None
         fromdate page_size s) /\
    (forall fromdate out s',
       StackOverflowCollector.search_questions service fuel query tags
         fromdate page_size s = Some (out, s') ->
       exists sent rest,
         trace (snd s') =
           (trace (snd s)
            ++ Get "https://api.stackexchange.com/2.3/search" sent :: rest)%list /\
         dict_get "q" sent = Some (JStr query) /\
         dict_get "tagged" sent =
           match tags with
           | Some (t :: ts) => Some (JStr (String.concat ";" (t :: ts)))
           | _ => None
           end).
Proof.
  intros service fuel tag query tags page_size s.
  split; [reflexivity|]. split; [reflexivity|]. split; [reflexivity|].
  intros fromdate out s' H.
  unfold StackOverflowCollector.search_questions in H.
  assert (Hfrom : exists from,
            bind (StackOverflowCollector._make_request service fuel "/search"
                    (StackOverflowCollector.search_params query tags from
                       page_size))
              (fun response => lift_res (py_get response "items" (JList []))) s
            = Some (out, s')).
  { destruct fromdate as [d|]; eexists; exact H. }
  clear H. destruct Hfrom as [from H]. unfold bind in H.
  destruct (StackOverflowCollector._make_request service fuel "/search" _ s)
    as [[[body|e] s1]|] eqn:Hreq; try discriminate H.
  - apply stackoverflow_make_request_trace in Hreq. destruct Hreq as [rest Hreq].
    unfold lift_res in H. inversion H. subst.
    do 2 eexists. split; [exact Hreq|].
    rewrite !with_credentials_other by discriminate.
    split; [now destruct tags as [[|t ts]|]|].
    now destruct tags as [[|t ts]|].
  - apply stackoverflow_make_request_trace in Hreq. destruct Hreq as [rest Hreq].
    inversion H. subst.
    do 2 eexists. split; [exact Hreq|].
    rewrite !with_credentials_other by discriminate.
    split; [now destruct tags as [[|t ts]|]|].
    now destruct tags as [[|t ts]|].
Qed.

Lemma question_queries_default_to_thirty_days_witness :
  exists sent rest out s',
    StackOverflowCollector.search_questions Samples.always_ok 1 "proof"
      (Some ["rocq"; "ocaml"]) None 20
      (StackOverflowCollector.init None, Samples.w0) = Some (out, s') /\
    trace (snd s') =
      (trace Samples.w0
       ++ Get "https://api.stackexchange.com/2.3/search" sent :: rest)%list /\
    dict_get "tagged" sent = Some (JStr "rocq;ocaml").
Proof.
  destruct (proj2 (proj2 (proj2 (question_queries_default_to_thirty_days
              Samples.always_ok 1%nat "rocq" "proof" (Some ["rocq"; "ocaml"]) 20
              (StackOverflowCollector.init None, Samples.w0)))) None _ _ eq_refl)
    as [sent [rest [Htr [_ Htag]]]].
  exists sent, rest. do 2 eexists. split; [reflexivity|].
  split; [exact Htr|exact Htag].
Defined.

(** ** Google Trends: one request per technology and period *)

Section TrendsPeriods.
Import GoogleTrendsCollector.

Variable pytrends : nat -> pytrends_reply.

Lemma periods_loop_run tech todo : forall found w,
  exists found' w',
    periods_loop pytrends tech todo found w = Some (Ret found', w') /\
    cursor w' = (cursor w + List.length todo)%nat /\
    payloads (trace w') =
      (payloads (trace w) ++ map (fun _ => [tech]) todo)%list /\
    forall p,
      In p (dict_keys found') <->
      In p (dict_keys found) \/
      exists j, nth_error todo j = Some p /\
                answered (pytrends (cursor w + j)%nat) tech = true.
Proof.
  induction todo as [|period rest IH]; intros found w.
  - exists found, w. split; [reflexivity|]. split; [simpl; lia|].
    split; [simpl; now rewrite app_nil_r|].
    intros p. split; [tauto|].
    intros [H|[j [H _]]]; [exact H|]. destruct j; discriminate.
  - cbn [periods_loop]. unfold bind at 1.
    rewrite get_interest_over_time_run.
    unfold bind at 1, time_sleep at 1.
    match goal with
    | |- context [periods_loop pytrends tech rest ?f ?w1] =>
        destruct (IH f w1) as [found' [w' [R [C [P K]]]]]
    end.
    exists found', w'. split; [exact R|].
    split. { rewrite C. simpl. lia. }
    split.
    { rewrite P. unfold sleep, emit. cbn [trace].
      rewrite !payloads_app. simpl.
      destruct (pytrends (cursor w)); simpl;
        rewrite ?app_nil_r, <- ?app_assoc; reflexivity. }
    intros p. rewrite K. cbn [cursor sleep emit].
    fold (answered (pytrends (cursor w)) tech).
    split.
    + intros [H|[j [H1 H2]]].
      * destruct (answered (pytrends (cursor w)) tech) eqn:Ha; [|tauto].
        apply In_dict_keys_set in H. destruct H as [H| ->]; [tauto|].
        right. exists 0%nat. rewrite Nat.add_0_r. auto.
      * right. exists (S j).
        replace (cursor w + S j)%nat with (S (cursor w) + j)%nat by lia. auto.
    + intros [H|[[|j] [H1 H2]]].
      * left. destruct (answered (pytrends (cursor w)) tech); [|exact H].
        apply In_dict_keys_set. tauto.
      * simpl in H1. inversion H1; subst. rewrite Nat.add_0_r in H2.
        rewrite H2. left. apply In_dict_keys_set. tauto.
      * right. exists j. simpl in H1.
        replace (S (cursor w) + j)%nat with (cursor w + S j)%nat by lia. auto.
Qed.

Lemma trends_step_run period_list tech w :
  exists found w',
    trends_step pytrends period_list tech w
      = Some (Ret (Some (mkTechData tech found (clock w))), w') /\
    cursor w' = (cursor w + List.length period_list)%nat /\
    payloads (trace w') =
      (payloads (trace w) ++ map (fun _ => [tech]) period_list)%list /\
    forall p, In p (dict_keys found) -> In p period_list.
Proof.
  destruct (periods_loop_run tech period_list [] w)
    as [found [w' [R [C [P K]]]]].
  exists found. eexists.
  unfold trends_step, try_except, trends_try.
  unfold bind at 1, datetime_now at 1. unfold bind at 1. rewrite R.
  unfold bind, log, ret. split; [reflexivity|].
  unfold logging, emit. cbn [cursor trace]. split; [exact C|]. split.
  - rewrite payloads_app, P. simpl. now rewrite app_nil_r.
  - intros p Hp. apply K in Hp. destruct Hp as [Hnil|[j [Hj _]]]; [destruct Hnil|].
    eapply nth_error_In; eauto.
Qed.

Lemma trends_batch_run period_list tech_list : forall acc w,
  exists d w',
    batch (trends_step pytrends period_list) tech_list acc w
      = Some (Ret d, w') /\
    cursor w' =
      (cursor w + List.length tech_list * List.length period_list)%nat /\
    payloads (trace w') =
      (payloads (trace w)
       ++ flat_map (fun tech => map (fun _ => [tech]) period_list) tech_list)%list.
Proof.
  induction tech_list as [|tech rest IH]; intros acc w.
  - exists acc, w. split; [reflexivity|]. split; [simpl; lia|].
    simpl. now rewrite app_nil_r.
  - destruct (trends_step_run period_list tech w)
      as [found [w1 [R1 [C1 [P1 _]]]]].
    destruct (IH (dict_set tech (Some (mkTechData tech found (clock w))) acc) w1)
      as [d [w' [R [C P]]]].
    exists d, w'. rewrite batch_cons, R1. split; [exact R|].
    split. { rewrite C, C1. simpl. lia. }
    rewrite P, P1, <- app_assoc. reflexivity.
Qed.

End TrendsPeriods.



(** ** What an entry of the GitHub statistics can hold *)

Section GitHubEntries.
Import GitHubCollector.

Variable service : nat -> reply.
Variable strptime : string -> option Z.
Variable strftime : Z -> string.

Lemma newer_than_length field cutoff items recent :
  newer_than strptime field cutoff items = Ret recent ->
  (List.length recent <= List.length items)%nat.
Proof.
  intros H. rewrite (newer_than_filter strptime _ _ _ _ H).
  apply filter_length_le.
Qed.

Lemma language_try_counts fuel language s entry s' :
  language_try service strptime strftime fuel language s
    = Some (Ret (Some entry), s') ->
  (0 < total_repos entry)%nat /\ (recent_repos entry <= total_repos entry)%nat.
Proof.
  intros H.
  destruct (language_try_recent service strptime strftime _ _ _ _ _ H)
    as [items [s1 [recent [Hsearch [Hrecent [Htotal Hcount]]]]]].
  rewrite Htotal, Hcount. split.
  - destruct items as [|item items]; [|simpl; lia].
    unfold language_try in H. unfold bind at 1 in H. rewrite Hsearch in H.
    unfold bind at 1 in H. cbn [truthy] in H.
    unfold bind, ret, get_rate_limit_remaining, log, time_sleep in H.
    destruct (rate_limit_remaining (fst s1) <? 10); inversion H.
  - exact (newer_than_length _ _ _ _ Hrecent).
Qed.

Lemma popularity_try_counts fuel tech s entry s' :
  popularity_try service strptime fuel tech s = Some (Ret (Some entry), s') ->
  (0 < repo_count entry)%nat /\ (recent_activity entry <= repo_count entry)%nat.
Proof.
  intros H.
  destruct (popularity_try_recent service strptime _ _ _ _ _ H)
    as [body [items [s1 [recent [Hreq [Hget [Hrecent [Htotal Hcount]]]]]]]].
  rewrite Htotal, Hcount. split.
  - destruct items as [|item items]; [|simpl; lia].
    unfold popularity_try in H. unfold bind at 1 in H. rewrite Hreq in H.
    unfold bind at 1, lift_res at 1 in H. rewrite Hget in H.
    unfold bind at 1 in H. cbn [truthy] in H.
    unfold bind, ret, time_sleep in H. inversion H.
  - exact (newer_than_length _ _ _ _ Hrecent).
Qed.

Lemma try_except_some {S A} (body : M S (option A)) (handler : exn -> M S (option A))
    s a s' :
  (forall e s0 a0 s1, handler e s0 <> Some (Ret (Some a0), s1)) ->
  try_except body handler s = Some (Ret (Some a), s') ->
  body s = Some (Ret (Some a), s').
Proof.
  intros Hnone H. unfold try_except in H.
  destruct (body s) as [[[v|e] s1]|]; try discriminate.
  - exact H.
  - now apply Hnone in H.
Qed.

End GitHubEntries.

(** X16. An entry of [get_language_stats] or of
    [get_tech_popularity_metrics] that is not null counts at least one
    repository (a search without items is recorded as null, so the averages
    never divide by zero), and its recent count is never above its number
    of repositories. *)
Theorem github_entries_count_at_least_one_repository :
  forall service strptime strftime fuel keys s,
    (forall d s' k e,
       GitHubCollector.get_language_stats service strptime strftime fuel keys s
         = Some (Ret d, s') ->
       dict_get k d = Some (Some e) ->
       (0 < GitHubCollector.total_repos e)%nat /\
       (GitHubCollector.recent_repos e <= GitHubCollector.total_repos e)%nat) /\
    (forall d s' k e,
       GitHubCollector.get_tech_popularity_metrics service strptime fuel keys s
         = Some (Ret d, s') ->
       dict_get k d = Some (Some e) ->
       (0 < GitHubCollector.repo_count e)%nat /\
       (GitHubCollector.recent_activity e <= GitHubCollector.repo_count e)%nat).
Proof.
  intros service strptime strftime fuel keys s. split.
  - intros d s' k e H Hk.
    unfold GitHubCollector.get_language_stats in H.
    unfold bind at 1, GitHubCollector.log at 1 in H.
    refine (batch_values _
              (fun _ v => forall e, v = Some e ->
                 (0 < GitHubCollector.total_repos e)%nat /\
                 (GitHubCollector.recent_repos e
                  <= GitHubCollector.total_repos e)%nat)
              _ keys [] _ d s' _ H k (Some e) Hk e eq_refl).
    + intros k0 s0 v s0' Hstep e0 ->.
      unfold GitHubCollector.language_step in Hstep.
      apply try_except_some in Hstep.
      * exact (language_try_counts _ _ _ _ _ _ _ _ Hstep).
      * intros x s1 a0 s2 Hh. unfold bind, GitHubCollector.log, ret in Hh.
        discriminate.
    + intros k0 v E. discriminate.
  - intros d s' k e H Hk.
    unfold GitHubCollector.get_tech_popularity_metrics in H.
    unfold bind at 1, GitHubCollector.log at 1 in H.
    refine (batch_values _
              (fun _ v => forall e, v = Some e ->
                 (0 < GitHubCollector.repo_count e)%nat /\
                 (GitHubCollector.recent_activity e
                  <= GitHubCollector.repo_count e)%nat)
              _ keys [] _ d s' _ H k (Some e) Hk e eq_refl).
    + intros k0 s0 v s0' Hstep e0 ->.
      unfold GitHubCollector.popularity_step in Hstep.
      apply try_except_some in Hstep.
      * exact (popularity_try_counts _ _ _ _ _ _ _ Hstep).
      * intros x s1 a0 s2 Hh. unfold bind, GitHubCollector.log, ret in Hh.
        discriminate.
    + intros k0 v E. discriminate.
Qed.

Lemma github_entries_count_at_least_one_repository_witness :
  exists d s' e,
    GitHubCollector.get_language_stats Samples.always_ok Samples.strptime
      Samples.strftime 1 ["rust"; "go"]
      (GitHubCollector.init None, Samples.w0) = Some (Ret d, s') /\
    dict_get "go" d = Some (Some e) /\
    (0 < GitHubCollector.total_repos e)%nat /\
    (GitHubCollector.recent_repos e <= GitHubCollector.total_repos e)%nat.
Proof.
  do 3 eexists. split; [reflexivity|]. split; [reflexivity|].
  exact (proj1 (github_entries_count_at_least_one_repository
                  Samples.always_ok Samples.strptime Samples.strftime 1%nat
                  ["rust"; "go"] (GitHubCollector.init None, Samples.w0))
           _ _ "go" _ eq_refl eq_refl).
Defined.
